(** * Image viewer: index, date heuristics, pagination and thumbnail keys

    A shallow embedding of the core of [app.py] (the Barry Image Viewer):
    the date heuristics, the file-tree scanner, the sorted-path and
    hierarchy caches, the cursor pagination of the timeline and of the
    group image lists, the "next folder" search and the thumbnail cache
    key, together with the properties the specification states about them.

    Conventions of the embedding.
    - A Python [str] is the [string] of the bytes of its UTF-8 encoding,
      and its characters are [PyStr.chars]; the functions that depend on
      character classes ([len], [str.lower], [str.isdigit], [str.strip],
      the regular expression classes [\d] and [\D], [int]) work on
      these characters with the Unicode database of Python 3.11. A
      byte that belongs to no well-formed character is a character of
      its own, as the file system encoding of Python has it
      ([surrogateescape]). Strings are compared by code points
      ([PyStr.lt]).
    - A Python [int] is a [Z].
    - A [pathlib.Path] below the root is the list of its components in
      the file tree, and the string of its relative POSIX form once the
      code has turned it into one; [Path.parts] of such a string is
      [parts]. The path separator [os.sep] is the POSIX one.
    - [list.sort] and [sorted] are stable sorts: [py_sort] is the stable
      insertion sort by a key order, which computes the same list as any
      other stable sort.
    - The module-level dictionary [_IMAGE_CACHE] is the record [cache],
      threaded through the functions that read and write it; the file
      system and the clock are explicit arguments. *)

From Stdlib Require Import ZArith List String Ascii Bool Lia QArith.
From Stdlib Require Import Sorted Permutation DecimalString DecimalZ.
From stdpp Require Import gmap strings list.

Open Scope Z_scope.
Set Warnings "-register-all".

(** ** The Unicode database

    The character classes of Python 3.11 (Unicode 14.0), by code point:
    the decimal digits of [\d], [int] and [str.isdecimal], the digits of
    [str.isdigit], the white space of [str.strip], the lower-case
    mapping of [str.lower] and the two classes its rule for the capital
    sigma looks at. *)

Module Unicode.

(** The code points of the digit zero of each script; the nine that
    follow it are the digits 1 to 9. *)
Definition decimal_zeros : list N :=
  [
   48; 1632; 1776; 1984; 2406; 2534; 2662; 2790;
   2918; 3046; 3174; 3302; 3430; 3558; 3664; 3792;
   3872; 4160; 4240; 6112; 6160; 6470; 6608; 6784;
   6800; 6992; 7088; 7232; 7248; 42528; 43216; 43264;
   43472; 43504; 43600; 44016; 65296; 66720; 68912; 69734;
   69872; 69942; 70096; 70384; 70736; 70864; 71248; 71360;
   71472; 71904; 72016; 72784; 73040; 73120; 92768; 92864;
   93008; 120782; 120792; 120802; 120812; 120822; 123200; 123632;
   125264; 130032
  ]%N.

(** [str.isdigit]: the decimal digits and the other digit forms
    (superscripts, circled digits and the like). *)
Definition digit_ranges : list (N * N) :=
  [
   (48, 57); (178, 179); (185, 185); (1632, 1641);
   (1776, 1785); (1984, 1993); (2406, 2415); (2534, 2543);
   (2662, 2671); (2790, 2799); (2918, 2927); (3046, 3055);
   (3174, 3183); (3302, 3311); (3430, 3439); (3558, 3567);
   (3664, 3673); (3792, 3801); (3872, 3881); (4160, 4169);
   (4240, 4249); (4969, 4977); (6112, 6121); (6160, 6169);
   (6470, 6479); (6608, 6618); (6784, 6793); (6800, 6809);
   (6992, 7001); (7088, 7097); (7232, 7241); (7248, 7257);
   (8304, 8304); (8308, 8313); (8320, 8329); (9312, 9320);
   (9332, 9340); (9352, 9360); (9450, 9450); (9461, 9469);
   (9471, 9471); (10102, 10110); (10112, 10120); (10122, 10130);
   (42528, 42537); (43216, 43225); (43264, 43273); (43472, 43481);
   (43504, 43513); (43600, 43609); (44016, 44025); (65296, 65305);
   (66720, 66729); (68160, 68163); (68912, 68921); (69216, 69224);
   (69714, 69722); (69734, 69743); (69872, 69881); (69942, 69951);
   (70096, 70105); (70384, 70393); (70736, 70745); (70864, 70873);
   (71248, 71257); (71360, 71369); (71472, 71481); (71904, 71913);
   (72016, 72025); (72784, 72793); (73040, 73049); (73120, 73129);
   (92768, 92777); (92864, 92873); (93008, 93017); (120782, 120831);
   (123200, 123209); (123632, 123641); (125264, 125273); (127232, 127242);
   (130032, 130041)
  ]%N.

(** [str.isspace]. *)
Definition space_ranges : list (N * N) :=
  [
   (9, 13); (28, 32); (133, 133); (160, 160);
   (5760, 5760); (8192, 8202); (8232, 8233); (8239, 8239);
   (8287, 8287); (12288, 12288)
  ]%N.

(** The lower-case mapping, as [(first, last, step, delta)]: a code point
    [first + k * step <= last] is mapped to itself plus [delta]. *)
Definition lower_table : list (Z * Z * Z * Z) :=
  [
   (65, 90, 1, 32); (192, 214, 1, 32); (216, 222, 1, 32);
   (256, 302, 2, 1); (306, 310, 2, 1); (313, 327, 2, 1);
   (330, 374, 2, 1); (376, 376, 1, -121); (377, 381, 2, 1);
   (385, 385, 1, 210); (386, 388, 2, 1); (390, 390, 1, 206);
   (391, 391, 1, 1); (393, 394, 1, 205); (395, 395, 1, 1);
   (398, 398, 1, 79); (399, 399, 1, 202); (400, 400, 1, 203);
   (401, 401, 1, 1); (403, 403, 1, 205); (404, 404, 1, 207);
   (406, 406, 1, 211); (407, 407, 1, 209); (408, 408, 1, 1);
   (412, 412, 1, 211); (413, 413, 1, 213); (415, 415, 1, 214);
   (416, 420, 2, 1); (422, 422, 1, 218); (423, 423, 1, 1);
   (425, 425, 1, 218); (428, 428, 1, 1); (430, 430, 1, 218);
   (431, 431, 1, 1); (433, 434, 1, 217); (435, 437, 2, 1);
   (439, 439, 1, 219); (440, 440, 1, 1); (444, 444, 1, 1);
   (452, 452, 1, 2); (453, 453, 1, 1); (455, 455, 1, 2);
   (456, 456, 1, 1); (458, 458, 1, 2); (459, 475, 2, 1);
   (478, 494, 2, 1); (497, 497, 1, 2); (498, 500, 2, 1);
   (502, 502, 1, -97); (503, 503, 1, -56); (504, 542, 2, 1);
   (544, 544, 1, -130); (546, 562, 2, 1); (570, 570, 1, 10795);
   (571, 571, 1, 1); (573, 573, 1, -163); (574, 574, 1, 10792);
   (577, 577, 1, 1); (579, 579, 1, -195); (580, 580, 1, 69);
   (581, 581, 1, 71); (582, 590, 2, 1); (880, 882, 2, 1);
   (886, 886, 1, 1); (895, 895, 1, 116); (902, 902, 1, 38);
   (904, 906, 1, 37); (908, 908, 1, 64); (910, 911, 1, 63);
   (913, 929, 1, 32); (931, 939, 1, 32); (975, 975, 1, 8);
   (984, 1006, 2, 1); (1012, 1012, 1, -60); (1015, 1015, 1, 1);
   (1017, 1017, 1, -7); (1018, 1018, 1, 1); (1021, 1023, 1, -130);
   (1024, 1039, 1, 80); (1040, 1071, 1, 32); (1120, 1152, 2, 1);
   (1162, 1214, 2, 1); (1216, 1216, 1, 15); (1217, 1229, 2, 1);
   (1232, 1326, 2, 1); (1329, 1366, 1, 48); (4256, 4293, 1, 7264);
   (4295, 4295, 1, 7264); (4301, 4301, 1, 7264); (5024, 5103, 1, 38864);
   (5104, 5109, 1, 8); (7312, 7354, 1, -3008); (7357, 7359, 1, -3008);
   (7680, 7828, 2, 1); (7838, 7838, 1, -7615); (7840, 7934, 2, 1);
   (7944, 7951, 1, -8); (7960, 7965, 1, -8); (7976, 7983, 1, -8);
   (7992, 7999, 1, -8); (8008, 8013, 1, -8); (8025, 8031, 2, -8);
   (8040, 8047, 1, -8); (8072, 8079, 1, -8); (8088, 8095, 1, -8);
   (8104, 8111, 1, -8); (8120, 8121, 1, -8); (8122, 8123, 1, -74);
   (8124, 8124, 1, -9); (8136, 8139, 1, -86); (8140, 8140, 1, -9);
   (8152, 8153, 1, -8); (8154, 8155, 1, -100); (8168, 8169, 1, -8);
   (8170, 8171, 1, -112); (8172, 8172, 1, -7); (8184, 8185, 1, -128);
   (8186, 8187, 1, -126); (8188, 8188, 1, -9); (8486, 8486, 1, -7517);
   (8490, 8490, 1, -8383); (8491, 8491, 1, -8262); (8498, 8498, 1, 28);
   (8544, 8559, 1, 16); (8579, 8579, 1, 1); (9398, 9423, 1, 26);
   (11264, 11311, 1, 48); (11360, 11360, 1, 1); (11362, 11362, 1, -10743);
   (11363, 11363, 1, -3814); (11364, 11364, 1, -10727); (11367, 11371, 2, 1);
   (11373, 11373, 1, -10780); (11374, 11374, 1, -10749); (11375, 11375, 1, -10783);
   (11376, 11376, 1, -10782); (11378, 11378, 1, 1); (11381, 11381, 1, 1);
   (11390, 11391, 1, -10815); (11392, 11490, 2, 1); (11499, 11501, 2, 1);
   (11506, 11506, 1, 1); (42560, 42604, 2, 1); (42624, 42650, 2, 1);
   (42786, 42798, 2, 1); (42802, 42862, 2, 1); (42873, 42875, 2, 1);
   (42877, 42877, 1, -35332); (42878, 42886, 2, 1); (42891, 42891, 1, 1);
   (42893, 42893, 1, -42280); (42896, 42898, 2, 1); (42902, 42920, 2, 1);
   (42922, 42922, 1, -42308); (42923, 42923, 1, -42319); (42924, 42924, 1, -42315);
   (42925, 42925, 1, -42305); (42926, 42926, 1, -42308); (42928, 42928, 1, -42258);
   (42929, 42929, 1, -42282); (42930, 42930, 1, -42261); (42931, 42931, 1, 928);
   (42932, 42946, 2, 1); (42948, 42948, 1, -48); (42949, 42949, 1, -42307);
   (42950, 42950, 1, -35384); (42951, 42953, 2, 1); (42960, 42960, 1, 1);
   (42966, 42968, 2, 1); (42997, 42997, 1, 1); (65313, 65338, 1, 32);
   (66560, 66599, 1, 40); (66736, 66771, 1, 40); (66928, 66938, 1, 39);
   (66940, 66954, 1, 39); (66956, 66962, 1, 39); (66964, 66965, 1, 39);
   (68736, 68786, 1, 64); (71840, 71871, 1, 32); (93760, 93791, 1, 32);
   (125184, 125217, 1, 34)
  ].

(** The characters that are cased and not case-ignorable, and those that
    are case-ignorable. *)
Definition cased_ranges : list (N * N) :=
  [
   (65, 90); (97, 122); (170, 170); (181, 181);
   (186, 186); (192, 214); (216, 246); (248, 442);
   (444, 447); (452, 659); (661, 687); (880, 883);
   (886, 887); (891, 893); (895, 895); (902, 902);
   (904, 906); (908, 908); (910, 929); (931, 1013);
   (1015, 1153); (1162, 1327); (1329, 1366); (1376, 1416);
   (4256, 4293); (4295, 4295); (4301, 4301); (4304, 4346);
   (4349, 4351); (5024, 5109); (5112, 5117); (7296, 7304);
   (7312, 7354); (7357, 7359); (7424, 7467); (7531, 7543);
   (7545, 7578); (7680, 7957); (7960, 7965); (7968, 8005);
   (8008, 8013); (8016, 8023); (8025, 8025); (8027, 8027);
   (8029, 8029); (8031, 8061); (8064, 8116); (8118, 8124);
   (8126, 8126); (8130, 8132); (8134, 8140); (8144, 8147);
   (8150, 8155); (8160, 8172); (8178, 8180); (8182, 8188);
   (8450, 8450); (8455, 8455); (8458, 8467); (8469, 8469);
   (8473, 8477); (8484, 8484); (8486, 8486); (8488, 8488);
   (8490, 8493); (8495, 8500); (8505, 8505); (8508, 8511);
   (8517, 8521); (8526, 8526); (8544, 8575); (8579, 8580);
   (9398, 9449); (11264, 11387); (11390, 11492); (11499, 11502);
   (11506, 11507); (11520, 11557); (11559, 11559); (11565, 11565);
   (42560, 42605); (42624, 42651); (42786, 42863); (42865, 42887);
   (42891, 42894); (42896, 42954); (42960, 42961); (42963, 42963);
   (42965, 42969); (42997, 42998); (43002, 43002); (43824, 43866);
   (43872, 43880); (43888, 43967); (64256, 64262); (64275, 64279);
   (65313, 65338); (65345, 65370); (66560, 66639); (66736, 66771);
   (66776, 66811); (66928, 66938); (66940, 66954); (66956, 66962);
   (66964, 66965); (66967, 66977); (66979, 66993); (66995, 67001);
   (67003, 67004); (68736, 68786); (68800, 68850); (71840, 71903);
   (93760, 93823); (119808, 119892); (119894, 119964); (119966, 119967);
   (119970, 119970); (119973, 119974); (119977, 119980); (119982, 119993);
   (119995, 119995); (119997, 120003); (120005, 120069); (120071, 120074);
   (120077, 120084); (120086, 120092); (120094, 120121); (120123, 120126);
   (120128, 120132); (120134, 120134); (120138, 120144); (120146, 120485);
   (120488, 120512); (120514, 120538); (120540, 120570); (120572, 120596);
   (120598, 120628); (120630, 120654); (120656, 120686); (120688, 120712);
   (120714, 120744); (120746, 120770); (120772, 120779); (122624, 122633);
   (122635, 122654); (125184, 125251); (127280, 127305); (127312, 127337);
   (127344, 127369)
  ]%N.

Definition case_ignorable_ranges : list (N * N) :=
  [
   (39, 39); (46, 46); (58, 58); (94, 94);
   (96, 96); (168, 168); (173, 173); (175, 175);
   (180, 180); (183, 184); (688, 879); (884, 885);
   (890, 890); (900, 901); (903, 903); (1155, 1161);
   (1369, 1369); (1375, 1375); (1425, 1469); (1471, 1471);
   (1473, 1474); (1476, 1477); (1479, 1479); (1524, 1524);
   (1536, 1541); (1552, 1562); (1564, 1564); (1600, 1600);
   (1611, 1631); (1648, 1648); (1750, 1757); (1759, 1768);
   (1770, 1773); (1807, 1807); (1809, 1809); (1840, 1866);
   (1958, 1968); (2027, 2037); (2042, 2042); (2045, 2045);
   (2070, 2093); (2137, 2139); (2184, 2184); (2192, 2193);
   (2200, 2207); (2249, 2306); (2362, 2362); (2364, 2364);
   (2369, 2376); (2381, 2381); (2385, 2391); (2402, 2403);
   (2417, 2417); (2433, 2433); (2492, 2492); (2497, 2500);
   (2509, 2509); (2530, 2531); (2558, 2558); (2561, 2562);
   (2620, 2620); (2625, 2626); (2631, 2632); (2635, 2637);
   (2641, 2641); (2672, 2673); (2677, 2677); (2689, 2690);
   (2748, 2748); (2753, 2757); (2759, 2760); (2765, 2765);
   (2786, 2787); (2810, 2815); (2817, 2817); (2876, 2876);
   (2879, 2879); (2881, 2884); (2893, 2893); (2901, 2902);
   (2914, 2915); (2946, 2946); (3008, 3008); (3021, 3021);
   (3072, 3072); (3076, 3076); (3132, 3132); (3134, 3136);
   (3142, 3144); (3146, 3149); (3157, 3158); (3170, 3171);
   (3201, 3201); (3260, 3260); (3263, 3263); (3270, 3270);
   (3276, 3277); (3298, 3299); (3328, 3329); (3387, 3388);
   (3393, 3396); (3405, 3405); (3426, 3427); (3457, 3457);
   (3530, 3530); (3538, 3540); (3542, 3542); (3633, 3633);
   (3636, 3642); (3654, 3662); (3761, 3761); (3764, 3772);
   (3782, 3782); (3784, 3789); (3864, 3865); (3893, 3893);
   (3895, 3895); (3897, 3897); (3953, 3966); (3968, 3972);
   (3974, 3975); (3981, 3991); (3993, 4028); (4038, 4038);
   (4141, 4144); (4146, 4151); (4153, 4154); (4157, 4158);
   (4184, 4185); (4190, 4192); (4209, 4212); (4226, 4226);
   (4229, 4230); (4237, 4237); (4253, 4253); (4348, 4348);
   (4957, 4959); (5906, 5908); (5938, 5939); (5970, 5971);
   (6002, 6003); (6068, 6069); (6071, 6077); (6086, 6086);
   (6089, 6099); (6103, 6103); (6109, 6109); (6155, 6159);
   (6211, 6211); (6277, 6278); (6313, 6313); (6432, 6434);
   (6439, 6440); (6450, 6450); (6457, 6459); (6679, 6680);
   (6683, 6683); (6742, 6742); (6744, 6750); (6752, 6752);
   (6754, 6754); (6757, 6764); (6771, 6780); (6783, 6783);
   (6823, 6823); (6832, 6862); (6912, 6915); (6964, 6964);
   (6966, 6970); (6972, 6972); (6978, 6978); (7019, 7027);
   (7040, 7041); (7074, 7077); (7080, 7081); (7083, 7085);
   (7142, 7142); (7144, 7145); (7149, 7149); (7151, 7153);
   (7212, 7219); (7222, 7223); (7288, 7293); (7376, 7378);
   (7380, 7392); (7394, 7400); (7405, 7405); (7412, 7412);
   (7416, 7417); (7468, 7530); (7544, 7544); (7579, 7679);
   (8125, 8125); (8127, 8129); (8141, 8143); (8157, 8159);
   (8173, 8175); (8189, 8190); (8203, 8207); (8216, 8217);
   (8228, 8228); (8231, 8231); (8234, 8238); (8288, 8292);
   (8294, 8303); (8305, 8305); (8319, 8319); (8336, 8348);
   (8400, 8432); (11388, 11389); (11503, 11505); (11631, 11631);
   (11647, 11647); (11744, 11775); (11823, 11823); (12293, 12293);
   (12330, 12333); (12337, 12341); (12347, 12347); (12441, 12446);
   (12540, 12542); (40981, 40981); (42232, 42237); (42508, 42508);
   (42607, 42610); (42612, 42621); (42623, 42623); (42652, 42655);
   (42736, 42737); (42752, 42785); (42864, 42864); (42888, 42890);
   (42994, 42996); (43000, 43001); (43010, 43010); (43014, 43014);
   (43019, 43019); (43045, 43046); (43052, 43052); (43204, 43205);
   (43232, 43249); (43263, 43263); (43302, 43309); (43335, 43345);
   (43392, 43394); (43443, 43443); (43446, 43449); (43452, 43453);
   (43471, 43471); (43493, 43494); (43561, 43566); (43569, 43570);
   (43573, 43574); (43587, 43587); (43596, 43596); (43632, 43632);
   (43644, 43644); (43696, 43696); (43698, 43700); (43703, 43704);
   (43710, 43711); (43713, 43713); (43741, 43741); (43756, 43757);
   (43763, 43764); (43766, 43766); (43867, 43871); (43881, 43883);
   (44005, 44005); (44008, 44008); (44013, 44013); (64286, 64286);
   (64434, 64450); (65024, 65039); (65043, 65043); (65056, 65071);
   (65106, 65106); (65109, 65109); (65279, 65279); (65287, 65287);
   (65294, 65294); (65306, 65306); (65342, 65342); (65344, 65344);
   (65392, 65392); (65438, 65439); (65507, 65507); (65529, 65531);
   (66045, 66045); (66272, 66272); (66422, 66426); (67456, 67461);
   (67463, 67504); (67506, 67514); (68097, 68099); (68101, 68102);
   (68108, 68111); (68152, 68154); (68159, 68159); (68325, 68326);
   (68900, 68903); (69291, 69292); (69446, 69456); (69506, 69509);
   (69633, 69633); (69688, 69702); (69744, 69744); (69747, 69748);
   (69759, 69761); (69811, 69814); (69817, 69818); (69821, 69821);
   (69826, 69826); (69837, 69837); (69888, 69890); (69927, 69931);
   (69933, 69940); (70003, 70003); (70016, 70017); (70070, 70078);
   (70089, 70092); (70095, 70095); (70191, 70193); (70196, 70196);
   (70198, 70199); (70206, 70206); (70367, 70367); (70371, 70378);
   (70400, 70401); (70459, 70460); (70464, 70464); (70502, 70508);
   (70512, 70516); (70712, 70719); (70722, 70724); (70726, 70726);
   (70750, 70750); (70835, 70840); (70842, 70842); (70847, 70848);
   (70850, 70851); (71090, 71093); (71100, 71101); (71103, 71104);
   (71132, 71133); (71219, 71226); (71229, 71229); (71231, 71232);
   (71339, 71339); (71341, 71341); (71344, 71349); (71351, 71351);
   (71453, 71455); (71458, 71461); (71463, 71467); (71727, 71735);
   (71737, 71738); (71995, 71996); (71998, 71998); (72003, 72003);
   (72148, 72151); (72154, 72155); (72160, 72160); (72193, 72202);
   (72243, 72248); (72251, 72254); (72263, 72263); (72273, 72278);
   (72281, 72283); (72330, 72342); (72344, 72345); (72752, 72758);
   (72760, 72765); (72767, 72767); (72850, 72871); (72874, 72880);
   (72882, 72883); (72885, 72886); (73009, 73014); (73018, 73018);
   (73020, 73021); (73023, 73029); (73031, 73031); (73104, 73105);
   (73109, 73109); (73111, 73111); (73459, 73460); (78896, 78904);
   (92912, 92916); (92976, 92982); (92992, 92995); (94031, 94031);
   (94095, 94111); (94176, 94177); (94179, 94180); (110576, 110579);
   (110581, 110587); (110589, 110590); (113821, 113822); (113824, 113827);
   (118528, 118573); (118576, 118598); (119143, 119145); (119155, 119170);
   (119173, 119179); (119210, 119213); (119362, 119364); (121344, 121398);
   (121403, 121452); (121461, 121461); (121476, 121476); (121499, 121503);
   (121505, 121519); (122880, 122886); (122888, 122904); (122907, 122913);
   (122915, 122916); (122918, 122922); (123184, 123197); (123566, 123566);
   (123628, 123631); (125136, 125142); (125252, 125259); (127995, 127999);
   (917505, 917505); (917536, 917631); (917760, 917999)
  ]%N.

Definition in_ranges (ranges : list (N * N)) (n : N) : bool :=
  existsb (fun '(first, last) => (first <=? n)%N && (n <=? last)%N) ranges.

Definition decimal_zero (n : N) : option N :=
  List.find (fun zero => (zero <=? n)%N && (n <? zero + 10)%N) decimal_zeros.

Definition is_decimal (n : N) : bool :=
  match decimal_zero n with Some _ => true | None => false end.

Definition decimal_value (n : N) : Z :=
  match decimal_zero n with Some zero => Z.of_N (n - zero) | None => 0 end.

Definition is_digit (n : N) : bool := in_ranges digit_ranges n.

Definition is_space (n : N) : bool := in_ranges space_ranges n.

Definition is_cased (n : N) : bool := in_ranges cased_ranges n.

Definition is_case_ignorable (n : N) : bool := in_ranges case_ignorable_ranges n.

(** The lower case of one character, the capital sigma apart; the capital
    I with a dot is the one character that becomes two. *)
Definition lower_code (n : N) : list N :=
  if (n =? 304)%N then [105; 775]%N
  else
    match List.find (fun '(first, last, step, _) =>
                       (first <=? Z.of_N n) && (Z.of_N n <=? last)
                       && ((Z.of_N n - first) mod step =? 0)) lower_table with
    | Some (_, _, _, delta) => [Z.to_N (Z.of_N n + delta)]
    | None => [n]
    end.

(** Whether the first character that is not case-ignorable is cased. *)
Fixpoint first_is_cased (l : list N) : bool :=
  match l with
  | [] => false
  | c :: l' => if is_case_ignorable c then first_is_cased l' else is_cased c
  end.

(** [str.lower()] on code points. A capital sigma becomes the final
    sigma when a cased letter stands before it and none after it,
    case-ignorable characters not counting; [before] holds the
    characters already passed, the last one first. *)
Fixpoint lower_from (before : list N) (l : list N) : list N :=
  match l with
  | [] => []
  | c :: l' =>
      (if (c =? 931)%N
       then [if first_is_cased before && negb (first_is_cased l') then 962%N else 963%N]
       else lower_code c)
      ++ lower_from (c :: before) l'
  end.

Definition lower (l : list N) : list N := lower_from [] l.

End Unicode.

(** ** Python strings *)

Module PyStr.

(** *** The characters of a string *)

Definition code (b : ascii) : N := N_of_ascii b.

Definition between (first last n : N) : bool := ((first <=? n) && (n <=? last))%N.

Definition is_continuation (b : ascii) : bool := between 128 191 (code b).

(** The sequences of two, three and four bytes that encode a character. *)
Definition valid2 (b0 b1 : ascii) : bool :=
  between 194 223 (code b0) && is_continuation b1.

Definition valid3 (b0 b1 b2 : ascii) : bool :=
  ((code b0 =? 224)%N && between 160 191 (code b1)
   || between 225 236 (code b0) && is_continuation b1
   || (code b0 =? 237)%N && between 128 159 (code b1)
   || between 238 239 (code b0) && is_continuation b1)
  && is_continuation b2.

Definition valid4 (b0 b1 b2 b3 : ascii) : bool :=
  ((code b0 =? 240)%N && between 144 191 (code b1)
   || between 241 243 (code b0) && is_continuation b1
   || (code b0 =? 244)%N && between 128 143 (code b1))
  && is_continuation b2 && is_continuation b3.

(** The number of bytes of the character that starts with [b0] when [s]
    follows: a byte that starts no encoding is a character of its own. *)
Definition width (b0 : ascii) (s : string) : nat :=
  match s with
  | String b1 (String b2 (String b3 _)) =>
      if valid2 b0 b1 then 2 else if valid3 b0 b1 b2 then 3
      else if valid4 b0 b1 b2 b3 then 4 else 1
  | String b1 (String b2 EmptyString) =>
      if valid2 b0 b1 then 2 else if valid3 b0 b1 b2 then 3 else 1
  | String b1 EmptyString => if valid2 b0 b1 then 2 else 1
  | EmptyString => 1
  end%nat.

(** [chars_aux pending s]: the rest of the character of which [pending]
    bytes are still to come, and the characters after it. *)
Fixpoint chars_aux (pending : nat) (s : string) : string * list string :=
  match s with
  | EmptyString => (EmptyString, [])
  | String b s' =>
      match pending with
      | S k => let '(cur, rest) := chars_aux k s' in (String b cur, rest)
      | O =>
          let '(cur, rest) := chars_aux (width b s' - 1) s' in
          (EmptyString, String b cur :: rest)
      end
  end.

(** [list(s)]: the characters of [s], each a string of one character. *)
Definition chars (s : string) : list string := snd (chars_aux 0 s).

(** [len(s)]. *)
Definition len (s : string) : nat := List.length (chars s).

(** [ord(c)] of a string of one character; a byte that is no text is the
    surrogate [os.fsdecode] gives it. *)
Definition ord (c : string) : N :=
  match c with
  | EmptyString => 0
  | String b0 EmptyString => if (code b0 <? 128)%N then code b0 else 56320 + code b0
  | String b0 (String b1 EmptyString) => (code b0 - 192) * 64 + (code b1 - 128)
  | String b0 (String b1 (String b2 EmptyString)) =>
      (code b0 - 224) * 4096 + (code b1 - 128) * 64 + (code b2 - 128)
  | String b0 (String b1 (String b2 (String b3 _))) =>
      (code b0 - 240) * 262144 + (code b1 - 128) * 4096 + (code b2 - 128) * 64
      + (code b3 - 128)
  end%N.

Definition byte_string (l : list N) : string :=
  string_of_list_ascii (List.map ascii_of_N l).

(** [chr(n)]. *)
Definition chr (n : N) : string :=
  (if n <? 128 then byte_string [n]
   else if n <? 2048 then byte_string [192 + n / 64; 128 + n mod 64]
   else if between 56448 56575 n then byte_string [n - 56320]
   else if n <? 65536
   then byte_string [224 + n / 4096; 128 + (n / 64) mod 64; 128 + n mod 64]
   else byte_string [240 + n / 262144; 128 + (n / 4096) mod 64;
                     128 + (n / 64) mod 64; 128 + n mod 64])%N.

(** *** Character classes *)

(** [\d], and the characters [int] reads, with their values. *)
Definition is_decimal (c : string) : bool := Unicode.is_decimal (ord c).
Definition decimal_value (c : string) : Z := Unicode.decimal_value (ord c).

(** [str.isdigit()] on a list of characters and on a string: not empty,
    and every character a digit. *)
Definition is_digit (c : string) : bool := Unicode.is_digit (ord c).

Definition isdigit_chars (l : list string) : bool :=
  match l with
  | [] => false
  | _ => forallb is_digit l
  end.

Definition isdigit (s : string) : bool := isdigit_chars (chars s).

(** [s[:n].isdigit()]. *)
Definition prefix_isdigit (n : nat) (s : string) : bool :=
  isdigit_chars (firstn n (chars s)).

Definition is_space (c : string) : bool := Unicode.is_space (ord c).

(** [str.join] with nothing between: the strings of [l] one after the
    other. *)
Definition concat (l : list string) : string := fold_right String.append EmptyString l.

(** [str.strip()]: the white space at the start and at the end goes. *)
Fixpoint lstrip_chars (l : list string) : list string :=
  match l with
  | [] => []
  | c :: l' => if is_space c then lstrip_chars l' else l
  end.

Definition rstrip_chars (l : list string) : list string := rev (lstrip_chars (rev l)).

Definition strip (s : string) : string :=
  concat (rstrip_chars (lstrip_chars (chars s))).

(** [str.lower()]. *)
Definition lower (s : string) : string :=
  concat (List.map chr (Unicode.lower (List.map ord (chars s)))).

(** *** Operations on ASCII characters

    An ASCII byte of a string is always a character of its own, so
    replacing, counting and splitting on ASCII characters go byte by
    byte. *)

(** [s.replace(a, b)] for one-character [a] and [b]. *)
Fixpoint replace (a b : ascii) (s : string) : string :=
  match s with
  | EmptyString => EmptyString
  | String c s' => String (if Ascii.eqb c a then b else c) (replace a b s')
  end.

(** [s.count(a)] for a one-character [a]. *)
Fixpoint count (a : ascii) (s : string) : nat :=
  match s with
  | EmptyString => 0%nat
  | String c s' => ((if Ascii.eqb c a then 1 else 0) + count a s')%nat
  end.

(** [s.startswith(p)]. *)
Definition startswith (p s : string) : bool := String.prefix p s.

(** Puts [c] in front of the first string of a list of pieces. *)
Definition cons_head (c : ascii) (l : list string) : list string :=
  match l with
  | t :: ts => String c t :: ts
  | [] => [String c EmptyString]
  end.

(** [s.split(sep)] for a one-character separator: empty pieces are kept. *)
Fixpoint split (sep : ascii) (s : string) : list string :=
  match s with
  | EmptyString => [EmptyString]
  | String c s' =>
      if Ascii.eqb c sep then EmptyString :: split sep s'
      else cons_head c (split sep s')
  end.

(** [sep.join(l)]. *)
Fixpoint join (sep : string) (l : list string) : string :=
  match l with
  | [] => EmptyString
  | [x] => x
  | x :: rest => x +:+ sep +:+ join sep rest
  end.

Definition nonempty (s : string) : bool :=
  match s with EmptyString => false | _ => true end.

(** *** Digits and numbers *)

(** Puts [c] in front of the first piece of a list of pieces. *)
Definition cons_first (c : string) (l : list (list string)) : list (list string) :=
  match l with
  | t :: ts => (c :: t) :: ts
  | [] => [[c]]
  end.

(** [re.split(r"\D+", s)] on the characters of [s]: the pieces between
    the maximal runs of characters that are no decimal digits; a run at
    either end leaves an empty piece there. [in_sep] tells that the
    previous character was no digit. *)
Fixpoint re_split_nondigits_from (in_sep : bool) (s : list string)
  : list (list string) :=
  match s with
  | [] => [[]]
  | c :: s' =>
      if is_decimal c then cons_first c (re_split_nondigits_from false s')
      else if in_sep then re_split_nondigits_from true s'
      else [] :: re_split_nondigits_from true s'
  end.

Definition re_split_nondigits (s : list string) : list (list string) :=
  re_split_nondigits_from false s.

(** [int(s)] on the characters of a string of decimal digits. *)
Fixpoint int_chars_from (acc : Z) (s : list string) : Z :=
  match s with
  | [] => acc
  | c :: s' => int_chars_from (10 * acc + decimal_value c) s'
  end.

Definition int_of_chars (s : list string) : Z := int_chars_from 0 s.

Definition int_of_digits (s : string) : Z := int_of_chars (chars s).

(** [str(n)]. *)
Definition str (n : Z) : string := NilZero.string_of_int (Z.to_int n).

(** [f"{n:02d}"] for [0 <= n]. *)
Definition fmt02 (n : Z) : string :=
  if n <? 10 then String "0" (str n) else str n.

(** Python's order on strings: the first code point that differs
    decides, and a proper prefix comes first. (This is not the order of
    the bytes of the encodings where a byte stands for itself: such a
    byte has a code point from 56448 to 56575, below that of U+E000 and
    above that of every character of two bytes.) *)
Fixpoint codes_lt (a b : list N) : bool :=
  match a, b with
  | _, [] => false
  | [], _ :: _ => true
  | x :: a', y :: b' => (x <? y)%N || ((x =? y)%N && codes_lt a' b')
  end.

Definition codes (s : string) : list N := List.map ord (chars s).

Definition lt (a b : string) : bool := codes_lt (codes a) (codes b).
Definition le (a b : string) : bool := negb (lt b a).

End PyStr.

(** ** Stable sorting ([list.sort], [sorted]) *)

Section Sorting.
Context {A : Type}.
(** [before x y]: [x] must come strictly before [y]. *)
Variable before : A -> A -> bool.

(** Inserts [x], which stood before every element of [l] in the input,
    into the sorted [l]: after the elements that are strictly before
    it, and before the first one that is not. *)
Fixpoint insert_sorted (x : A) (l : list A) : list A :=
  match l with
  | [] => [x]
  | y :: l' => if before y x then y :: insert_sorted x l' else x :: y :: l'
  end.

(** Stable insertion sort: elements that compare equal keep the order
    they had in the input. *)
Definition py_sort (l : list A) : list A :=
  fold_right (fun x acc => insert_sorted x acc) [] l.

(** [x] may stand before [y]: [y] is not strictly before [x]. *)
Definition may_precede (x y : A) : Prop := before y x = false.
End Sorting.

(** ** Date heuristics *)

(** [_extract_date_value]'s token list, each token as the list of its
    characters: [[tok for tok in re.split(r"\D+", text) if tok]]. *)
Definition is_token (tok : list string) : bool :=
  match tok with [] => false | _ => true end.

Definition char_tokens (text : list string) : list (list string) :=
  List.filter is_token (PyStr.re_split_nondigits text).

Definition date_tokens (text : string) : list (list string) :=
  char_tokens (PyStr.chars text).

(** [token.startswith(prefix)] on characters. *)
Fixpoint chars_startswith (prefix token : list string) : bool :=
  match prefix, token with
  | [], _ => true
  | p :: prefix', c :: token' => String.eqb p c && chars_startswith prefix' token'
  | _ :: _, [] => false
  end.

Definition is_year_token (token : list string) : bool :=
  (List.length token =? 4)%nat
  && (chars_startswith (PyStr.chars "19") token
      || chars_startswith (PyStr.chars "20") token).

(** The body of the loop of [_extract_date_value] once a year token is
    found at [idx]. *)
Definition date_value_at (tokens : list (list string)) (idx : nat)
    (token : list string) : Z :=
  let year := token in
  let '(month, day) :=
    match tokens !! (idx + 1)%nat with
    | Some t1 =>
        if (List.length t1 =? 2)%nat then
          let candidate_month := PyStr.int_of_chars t1 in
          if (1 <=? candidate_month) && (candidate_month <=? 12) then
            (PyStr.fmt02 candidate_month,
             match tokens !! (idx + 2)%nat with
             | Some t2 =>
                 if (List.length t2 =? 2)%nat then
                   let candidate_day := PyStr.int_of_chars t2 in
                   if (1 <=? candidate_day) && (candidate_day <=? 31)
                   then PyStr.fmt02 candidate_day else "00"%string
                 else "00"%string
             | None => "00"%string
             end)
          else ("00"%string, "00"%string)
        else ("00"%string, "00"%string)
    | None => ("00"%string, "00"%string)
    end in
  PyStr.int_of_chars (year ++ PyStr.chars month ++ PyStr.chars day).

(** [for idx, token in enumerate(tokens)] with its early return. *)
Fixpoint extract_date_loop (tokens : list (list string)) (idxs : list nat) : bool * Z :=
  match idxs with
  | [] => (false, 0)
  | idx :: later =>
      match tokens !! idx with
      | Some token =>
          if is_year_token token then (true, date_value_at tokens idx token)
          else extract_date_loop tokens later
      | None => extract_date_loop tokens later
      end
  end.

Definition _extract_date_value (rel_path : string) : bool * Z :=
  let tokens := date_tokens rel_path in
  extract_date_loop tokens (seq 0 (List.length tokens)).

(** [Path.parts] of a relative POSIX path: the components between
    slashes; empty components and [.] are dropped by [pathlib]. *)
Definition parts (p : string) : list string :=
  List.filter (fun s => PyStr.nonempty s && negb (String.eqb s "."))
              (PyStr.split "/" p).

(** [Path.name] and [Path.parent.name]. *)
Definition path_name (p : string) : string := List.last (parts p) EmptyString.
Definition parent_name (p : string) : string :=
  List.last (List.removelast (parts p)) EmptyString.

(** What [guess_date_hint] does with one path component: [Some hint] when
    the loop returns at this component, [None] when it goes on. *)
Definition hint_of_part (part : string) : option string :=
  let normalized := PyStr.replace "-" "_" part in
  if (PyStr.len normalized =? 4)%nat && PyStr.isdigit normalized
  then Some normalized
  else if (8 <=? PyStr.len normalized)%nat && PyStr.prefix_isdigit 4 normalized
  then
    let cleaned := PyStr.replace "_" "-" normalized in
    if (2 <=? PyStr.count "-" cleaned)%nat then Some cleaned else None
  else None.

(** [for part in relative_path.parts[::-1]] with its early return. *)
Fixpoint guess_date_hint_loop (rev_parts : list string) : option string :=
  match rev_parts with
  | [] => None
  | part :: more =>
      match hint_of_part part with
      | Some hint => Some hint
      | None => guess_date_hint_loop more
      end
  end.

Definition guess_date_hint (relative_path : string) : option string :=
  guess_date_hint_loop (rev (parts relative_path)).

(** ** The file tree and its scanner *)

(** A directory entry. The children of a directory are kept in the order
    in which the operating system lists them ([Path.iterdir], [os.walk]);
    the scanner sorts them itself. Symbolic links are not modelled. *)
Inductive node : Type :=
| File (name : string) (size : Z)
| Dir (name : string) (children : list node).

Definition node_name (n : node) : string :=
  match n with File name _ => name | Dir name _ => name end.

(** A path below the root, as its components. The root itself is [[]]. *)
Definition path := list string.

(** [str(p.relative_to(root)).replace(os.sep, "/")]. *)
Definition rel_str (p : path) : string := PyStr.join "/" p.

Definition SUPPORTED_EXTENSIONS : list string :=
  [".jpg"; ".jpeg"; ".png"; ".gif"; ".bmp"; ".tif"; ".tiff"; ".webp"]%string.

Definition IGNORED_DIRECTORIES : list string := [".Trash-1000"%string].

Definition is_ignored_name (name : string) : bool :=
  existsb (String.eqb name) IGNORED_DIRECTORIES || PyStr.startswith "." name.

(** [name.rfind(".")]: [None] stands for -1. *)
Fixpoint rfind_dot (i : nat) (s : string) : option nat :=
  match s with
  | EmptyString => None
  | String c s' =>
      match rfind_dot (S i) s' with
      | Some j => Some j
      | None => if Ascii.eqb c "." then Some i else None
      end
  end.

(** [Path(name).suffix]: the last dot and what follows, unless the dot is
    the first or the last character. *)
Definition suffix (name : string) : string :=
  match rfind_dot 0 name with
  | Some i =>
      if ((0 <? i) && (i <? String.length name - 1))%nat
      then String.substring i (String.length name - i) name
      else EmptyString
  | None => EmptyString
  end.

Definition is_image_name (name : string) : bool :=
  existsb (String.eqb (PyStr.lower (suffix name)))
          (List.map PyStr.lower SUPPORTED_EXTENSIONS).

(** The order of [key=str.lower] / [key=lambda p: p.name.lower()]. *)
Definition lower_before (a b : string) : bool :=
  PyStr.lt (PyStr.lower a) (PyStr.lower b).

Definition find_dir (name : string) (children : list node) : option (list node) :=
  match List.find (fun n => match n with
                            | Dir d _ => String.eqb d name
                            | File _ _ => false
                            end) children with
  | Some (Dir _ ch) => Some ch
  | _ => None
  end.

(** The listing of the directory at [p], if [p] is a directory. *)
Fixpoint lookup_dir (tree : list node) (p : path) : option (list node) :=
  match p with
  | [] => Some tree
  | name :: rest =>
      match find_dir name tree with
      | Some ch => lookup_dir ch rest
      | None => None
      end
  end.

(** The image file names of one listing, sorted case-insensitively. *)
Definition image_names (children : list node) : list string :=
  List.filter is_image_name
    (py_sort lower_before
       (flat_map (fun n => match n with
                           | File name _ => [name]
                           | Dir _ _ => []
                           end) children)).

(** [os.walk] below a directory node, as [iter_images_recursive] drives
    it: the images of the directory itself in case-insensitive name
    order, then those of each subdirectory that is not ignored, the
    subdirectories in case-insensitive name order. The result is relative
    to the node. The subtrees are walked before the directory names are
    sorted; the sort is stable and looks at the names only, so this is
    the order of the generator. *)
Fixpoint walk_images (n : node) : list path :=
  match n with
  | File _ _ => []
  | Dir _ children =>
      let subs :=
        flat_map (fun c => match c with
                           | Dir d _ =>
                               if is_ignored_name d then []
                               else [(d, walk_images c)]
                           | File _ _ => []
                           end) children in
      let ordered := py_sort (fun a b => lower_before (fst a) (fst b)) subs in
      List.map (fun f => [f]) (image_names children)
      ++ flat_map (fun '(d, ps) => List.map (cons d) ps) ordered
  end.

(** [iter_images_recursive(path, limit)], the paths relative to the root.
    A missing directory yields nothing ([os.walk] swallows the error).
    The limit is tested after each yield, so at least one image is
    produced when there is one. *)
Definition iter_images_recursive (tree : list node) (p : path)
    (limit : option Z) : list path :=
  match lookup_dir tree p with
  | None => []
  | Some children =>
      let all := List.map (app p) (walk_images (Dir EmptyString children)) in
      match limit with
      | None => all
      | Some n => firstn (Z.to_nat (Z.max 1 n)) all
      end
  end.

(** [iter_directories(path)] for a directory [path]: the subdirectories
    that are not ignored, in the order of their lower-cased names, as
    paths below the root. For a path that is no directory [Path.iterdir]
    raises; the list is empty there, and nothing below reads it: the
    handler of the listing refuses a target that is no directory before
    anything is listed, [directory_payload] below answers [None] for it,
    and [next_folder_first_image] lists the root and the parents of a
    directory. *)
Definition iter_directories (tree : list node) (p : path) : list path :=
  match lookup_dir tree p with
  | None => []
  | Some children =>
      List.map (fun d => p ++ [d])
        (List.filter (fun d => negb (is_ignored_name d))
           (py_sort lower_before
              (flat_map (fun n => match n with
                                  | Dir d _ => [d]
                                  | File _ _ => []
                                  end) children)))
  end.

(** [iter_images(path)] for a directory [path]: its image files with
    their sizes, in the order of their lower-cased names; empty, as
    above, where [Path.iterdir] raises. *)
Definition iter_images (tree : list node) (p : path) : list (path * Z) :=
  match lookup_dir tree p with
  | None => []
  | Some children =>
      List.map (fun '(name, size) => (p ++ [name], size))
        (List.filter (fun e => is_image_name (fst e))
           (py_sort (fun a b => lower_before (fst a) (fst b))
              (flat_map (fun n => match n with
                                  | File name size => [(name, size)]
                                  | Dir _ _ => []
                                  end) children)))
  end.

Definition first_image_in_tree (tree : list node) (p : path) : option path :=
  List.head (iter_images_recursive tree p (Some 1)).

(** [l.index(x)], [None] for [ValueError]. *)
Fixpoint py_index {A} (eqb : A -> A -> bool) (x : A) (l : list A) : option nat :=
  match l with
  | [] => None
  | y :: l' => if eqb y x then Some 0%nat else option_map S (py_index eqb x l')
  end.

Definition path_eqb (a b : path) : bool := bool_decide (a = b).

(** [for candidate in candidates: found = first_image_in_tree(candidate);
    if found: return found]. *)
Fixpoint first_found (tree : list node) (candidates : list path) : option path :=
  match candidates with
  | [] => None
  | candidate :: more =>
      match first_image_in_tree tree candidate with
      | Some found => Some found
      | None => first_found tree more
      end
  end.

(** [siblings[i + 1:]] where [i] is the index of [x], or -1 when [x] is
    not in the list. *)
Definition after_index (x : path) (siblings : list path) : list path :=
  match py_index path_eqb x siblings with
  | Some i => skipn (i + 1) siblings
  | None => siblings
  end.

(** [next_folder_first_image(root, target)], by recursion on the target
    read from its last component upwards ([target.parent] drops it). *)
Fixpoint next_folder_first_image_up (tree : list node) (rev_target : list string)
  : option path :=
  match rev_target with
  | [] => first_found tree (iter_directories tree [])
  | _ :: rev_parent =>
      let target := rev rev_target in
      let parent := rev rev_parent in
      let siblings := iter_directories tree parent in
      match first_found tree (after_index target siblings) with
      | Some found => Some found
      | None =>
          if path_eqb parent [] then
            let parent_siblings := iter_directories tree [] in
            first_found tree (after_index parent parent_siblings)
          else next_folder_first_image_up tree rev_parent
      end
  end.

Definition next_folder_first_image (tree : list node) (target : path) : option path :=
  next_folder_first_image_up tree (rev target).

(** ** Python slices *)

(** How [l[a:b]] reads one bound: a negative bound counts from the end,
    and both are clipped to [0 .. len(l)]. *)
Definition slice_bound (len i : Z) : Z :=
  if i <? 0 then Z.max (i + len) 0 else Z.min i len.

(** [l[start:stop]]. *)
Definition py_slice {A} (l : list A) (start stop : Z) : list A :=
  let len := Z.of_nat (List.length l) in
  let a := slice_bound len start in
  let b := slice_bound len stop in
  firstn (Z.to_nat (b - a)) (skipn (Z.to_nat a) l).

(** ** The index cache *)

Definition IMAGE_CACHE_TTL_SECONDS : Q := 30 # 1.

Definition Qltb (x y : Q) : bool := negb (Qle_bool y x).

(** [os.sep]. *)
Definition os_sep : ascii := "/".

(** One image of a subgroup's member list in [build_hierarchy]. *)
Record image_item : Type := {
  item_name : string;
  item_path : string;
  item_dateHint : string;
  item_dateValue : Z;
  item_hasDate : bool;
}.

(** The part of the hierarchy the pagination reads: [images_by_group]. *)
Record hierarchy : Type := {
  images_by_group : gmap string (list image_item);
}.

(** [_IMAGE_CACHE]. *)
Record cache : Type := {
  cache_root : option string;
  cache_generated : Q;
  cache_paths : list string;
  cache_hierarchy_root : option string;
  cache_hierarchy_generated : Q;
  cache_hierarchy : option hierarchy;
}.

Definition initial_cache : cache := {|
  cache_root := None;
  cache_generated := 0;
  cache_paths := [];
  cache_hierarchy_root := None;
  cache_hierarchy_generated := 0;
  cache_hierarchy := None;
|}.

(** The state of the world a call sees: the listing below the root and
    the reading of [time.time()]. *)
Record world : Type := {
  tree : list node;
  now : Q;
}.

(** The relative paths of all images, in scan order. *)
Definition scan_paths (t : list node) : list string :=
  List.map rel_str (iter_images_recursive t [] None).

(** The scan loop of [sorted_image_paths]: [dated] and [undated]. *)
Fixpoint split_dated (scan : list string) : list (Z * string) * list string :=
  match scan with
  | [] => ([], [])
  | relative :: more =>
      let '(dated, undated) := split_dated more in
      let '(has_date, value) := _extract_date_value relative in
      if has_date then ((value, relative) :: dated, undated)
      else (dated, relative :: undated)
  end.

(** [key=lambda item: (item[0], item[1].lower())], compared as tuples. *)
Definition dated_before (a b : Z * string) : bool :=
  (fst a <? fst b)
  || ((fst a =? fst b) && PyStr.lt (PyStr.lower (snd a)) (PyStr.lower (snd b))).

(** The list [sorted_image_paths] stores in the cache after a scan. *)
Definition build_sorted_paths (scan : list string) : list string :=
  let '(dated, undated) := split_dated scan in
  List.map snd (py_sort dated_before dated) ++ py_sort lower_before undated.

(** The second loop of [sorted_image_paths]: [dated_paths] and
    [undated_paths]. *)
Fixpoint split_has_date (paths : list string) : list string * list string :=
  match paths with
  | [] => ([], [])
  | p :: more =>
      let '(dated_paths, undated_paths) := split_has_date more in
      if fst (_extract_date_value p) then (p :: dated_paths, undated_paths)
      else (dated_paths, p :: undated_paths)
  end.

Definition order_paths (cache_paths : list string) (order : string) : list string :=
  if String.eqb order "asc" then cache_paths
  else
    let '(dated_paths, undated_paths) := split_has_date cache_paths in
    rev dated_paths ++ undated_paths.

Definition paths_cache_fresh (w : world) (root : string) (c : cache) : bool :=
  bool_decide (cache_root c = Some root)
  && Qltb (now w - cache_generated c) IMAGE_CACHE_TTL_SECONDS.

(** [sorted_image_paths(root, order)]: the result and the cache after it. *)
Definition sorted_image_paths (w : world) (root : string) (order : string)
    (c : cache) : list string * cache :=
  let '(paths, c') :=
    if paths_cache_fresh w root c then (cache_paths c, c)
    else
      let paths := build_sorted_paths (scan_paths (tree w)) in
      (paths, {| cache_root := Some root;
                 cache_generated := now w;
                 cache_paths := paths;
                 cache_hierarchy_root := cache_hierarchy_root c;
                 cache_hierarchy_generated := cache_hierarchy_generated c;
                 cache_hierarchy := cache_hierarchy c |}) in
  (order_paths paths order, c').

(** ** The timeline *)

Record timeline_item : Type := {
  tl_name : string;
  tl_path : string;
  tl_dateHint : string;
}.

Record timeline_section : Type := {
  sec_label : option string;
  sec_items : list timeline_item;
}.

Record timeline_page : Type := {
  sections : list timeline_section;
  tl_nextCursor : option string;
}.

(** [hint or rel_path.parent.name or "Unknown"]: the first operand that is
    neither [None] nor empty. *)
Definition label_of (hint : option string) (rel_path : string) : string :=
  match hint with
  | Some h => if PyStr.nonempty h then h
              else if PyStr.nonempty (parent_name rel_path)
                   then parent_name rel_path else "Unknown"%string
  | None => if PyStr.nonempty (parent_name rel_path)
            then parent_name rel_path else "Unknown"%string
  end.

(** [hint or label]. *)
Definition hint_or (hint : option string) (label : string) : string :=
  match hint with
  | Some h => if PyStr.nonempty h then h else label
  | None => label
  end.

(** The state of the sectioning loop: [sections], [current_label] and
    [current_items]. *)
Definition section_state : Type :=
  list timeline_section * option string * list timeline_item.

Definition section_step (st : section_state) (rel_path_str : string) : section_state :=
  let '(secs, current_label, current_items) := st in
  let hint := guess_date_hint rel_path_str in
  let label := label_of hint rel_path_str in
  let '(secs, current_label, current_items) :=
    if bool_decide (Some label = current_label) then (secs, current_label, current_items)
    else
      ((match current_items with
        | [] => secs
        | _ => secs ++ [{| sec_label := current_label; sec_items := current_items |}]
        end), Some label, []) in
  (secs, current_label,
   current_items ++ [{| tl_name := path_name rel_path_str;
                        tl_path := rel_path_str;
                        tl_dateHint := hint_or hint label |}]).

Definition build_sections (slice_paths : list string) : list timeline_section :=
  let '(secs, current_label, current_items) :=
    fold_left section_step slice_paths ([], None, []) in
  match current_items with
  | [] => secs
  | _ => secs ++ [{| sec_label := current_label; sec_items := current_items |}]
  end.

(** A cursor is used when it is neither [None] nor the empty string. *)
Definition cursor_given (cursor : option string) : option string :=
  match cursor with
  | Some c => if PyStr.nonempty c then Some (PyStr.replace os_sep "/" c) else None
  | None => None
  end.

(** [start_index] of [timeline_sections]. *)
Definition timeline_start (paths : list string) (cursor : option string) : Z :=
  match cursor_given cursor with
  | Some c =>
      match py_index String.eqb c paths with
      | Some i => Z.of_nat i + 1
      | None => 0
      end
  | None => 0
  end.

(** [timeline_sections] once [paths] is known. *)
Definition timeline_of_paths (paths : list string) (cursor : option string)
    (limit : Z) : timeline_page :=
  match paths with
  | [] => {| sections := []; tl_nextCursor := None |}
  | _ =>
      let start_index := timeline_start paths cursor in
      let slice_paths := py_slice paths start_index (start_index + limit) in
      match slice_paths with
      | [] => {| sections := []; tl_nextCursor := None |}
      | _ =>
          {| sections := build_sections slice_paths;
             tl_nextCursor :=
               if start_index + Z.of_nat (List.length slice_paths)
                  <? Z.of_nat (List.length paths)
               then List.last (List.map Some slice_paths) None
               else None |}
      end
  end.

Definition timeline_sections (w : world) (root : string) (cursor : option string)
    (limit : Z) (order : string) (c : cache) : timeline_page * cache :=
  let '(paths, c') := sorted_image_paths w root order c in
  (timeline_of_paths paths cursor limit, c').

(** The items of a page, section after section. *)
Definition timeline_items (pg : timeline_page) : list timeline_item :=
  flat_map sec_items (sections pg).

(** ** The hierarchy *)

(** The subgroup key and label of an image: its first two components, or
    its only one. [None] when the path has no component ([continue]). *)
Definition subgroup_of (relative_str : string) : option (string * string) :=
  match parts relative_str with
  | [] => None
  | [p0] => Some (p0, p0)
  | p0 :: p1 :: _ => Some (p0 +:+ "/" +:+ p1, p1)
  end.

(** [guess_date_hint(rel_path) or subgroup_label]. *)
Definition make_image_item (relative_str subgroup_label : string) : image_item :=
  let '(has_date, date_value) := _extract_date_value relative_str in
  {| item_name := path_name relative_str;
     item_path := relative_str;
     item_dateHint := hint_or (guess_date_hint relative_str) subgroup_label;
     item_dateValue := date_value;
     item_hasDate := has_date |}.

(** [images_by_group.setdefault(subgroup_key, []).append(image_item)]. *)
Definition append_to_group (m : gmap string (list image_item)) (key : string)
    (it : image_item) : gmap string (list image_item) :=
  <[key := default [] (m !! key) ++ [it]]> m.

(** One turn of the scan loop of [build_hierarchy]. *)
Definition hierarchy_step (m : gmap string (list image_item))
    (relative_str : string) : gmap string (list image_item) :=
  match subgroup_of relative_str with
  | None => m
  | Some (subgroup_key, subgroup_label) =>
      append_to_group m subgroup_key (make_image_item relative_str subgroup_label)
  end.

(** The sort key [(1 if hasDate else 0, dateValue, path.lower())]. *)
Definition item_key (it : image_item) : Z * Z * string :=
  (if item_hasDate it then 1 else 0, item_dateValue it, PyStr.lower (item_path it)).

(** The strict order of Python on these tuples. *)
Definition key_lt (a b : Z * Z * string) : bool :=
  let '(a1, a2, a3) := a in
  let '(b1, b2, b3) := b in
  (a1 <? b1)
  || ((a1 =? b1) && ((a2 <? b2) || ((a2 =? b2) && PyStr.lt a3 b3))).

(** [image_list.sort(key=..., reverse=True)]: the larger key first; equal
    keys keep their order. *)
Definition item_before (a b : image_item) : bool := key_lt (item_key b) (item_key a).

Definition scan_hierarchy (scan : list string) : hierarchy :=
  let grouped := fold_left hierarchy_step scan ∅ in
  {| images_by_group := py_sort item_before <$> grouped |}.

Definition hierarchy_cache_fresh (w : world) (root : string) (c : cache) : bool :=
  bool_decide (cache_hierarchy_root c = Some root)
  && Qltb (now w - cache_hierarchy_generated c) IMAGE_CACHE_TTL_SECONDS.

(** [build_hierarchy(root)]: the hierarchy and the cache after it. *)
Definition build_hierarchy (w : world) (root : string) (c : cache)
  : hierarchy * cache :=
  match cache_hierarchy c with
  | Some cached_hierarchy =>
      if hierarchy_cache_fresh w root c then (cached_hierarchy, c)
      else
        let h := scan_hierarchy (scan_paths (tree w)) in
        (h, {| cache_root := cache_root c;
               cache_generated := cache_generated c;
               cache_paths := cache_paths c;
               cache_hierarchy_root := Some root;
               cache_hierarchy_generated := now w;
               cache_hierarchy := Some h |})
  | None =>
      let h := scan_hierarchy (scan_paths (tree w)) in
      (h, {| cache_root := cache_root c;
             cache_generated := cache_generated c;
             cache_paths := cache_paths c;
             cache_hierarchy_root := Some root;
             cache_hierarchy_generated := now w;
             cache_hierarchy := Some h |})
  end.

(** ** The images of one group *)

Record group_image : Type := {
  gi_name : string;
  gi_path : string;
  gi_dateHint : string;
}.

Record group_page : Type := {
  images : list group_image;
  gp_nextCursor : option string;
}.

(** [for idx, item in enumerate(sequence): if item["path"] == cursor:
    start_index = idx + 1; break]. *)
Fixpoint find_cursor (cursor : string) (idx : Z) (sequence : list image_item) : Z :=
  match sequence with
  | [] => 0
  | item :: more =>
      if String.eqb (item_path item) cursor then idx + 1
      else find_cursor cursor (idx + 1) more
  end.

Definition group_start (sequence : list image_item) (cursor : option string) : Z :=
  match cursor_given cursor with
  | Some c => find_cursor c 0 sequence
  | None => 0
  end.

Definition response_image (item : image_item) : group_image :=
  {| gi_name := item_name item;
     gi_path := item_path item;
     gi_dateHint := item_dateHint item |}.

(** [group_images_payload] once [sequence] is known. *)
Definition group_page_of (sequence : list image_item) (cursor : option string)
    (limit : Z) : group_page :=
  let start_index := group_start sequence cursor in
  let slice_items := py_slice sequence start_index (start_index + limit) in
  match slice_items with
  | [] => {| images := []; gp_nextCursor := None |}
  | _ =>
      {| images := List.map response_image slice_items;
         gp_nextCursor :=
           if start_index + Z.of_nat (List.length slice_items)
              <? Z.of_nat (List.length sequence)
           then List.last (List.map (fun it => Some (item_path it)) slice_items) None
           else None |}
  end.

(** [images if order == "desc" else list(reversed(images))]. *)
Definition group_sequence (imgs : list image_item) (order : string) : list image_item :=
  if String.eqb order "desc" then imgs else rev imgs.

(** [group_images_payload] once the hierarchy is known. *)
Definition group_images_of (h : hierarchy) (group_key : string)
    (cursor : option string) (limit : Z) (order : string) : group_page :=
  match images_by_group h !! group_key with
  | None => {| images := []; gp_nextCursor := None |}
  | Some imgs => group_page_of (group_sequence imgs order) cursor limit
  end.

Definition group_images_payload (w : world) (root : string) (group_key : string)
    (cursor : option string) (limit : Z) (order : string) (c : cache)
  : group_page * cache :=
  let '(data, c') := build_hierarchy w root c in
  (group_images_of data group_key cursor limit order, c').

(** ** The request handlers of the two paginated endpoints *)

Inductive exn : Type :=
| ValueError (msg : string)
| IndexError.

Inductive result (A : Type) : Type :=
| Ok (a : A)
| Raise (e : exn).
Arguments Ok {A} a.
Arguments Raise {A} e.

Definition bind {A B} (r : result A) (k : A -> result B) : result B :=
  match r with
  | Ok a => k a
  | Raise e => Raise e
  end.

Notation "'do' x <- r ;; k" := (bind r (fun x => k))
  (at level 10, x name, r at level 99, k at level 200).

(** [params.get(key, [dflt])[0]], the query being a dictionary of lists. *)
Definition first_param {A} (params : gmap string (list string)) (key : string)
    (found : string -> A) (dflt : A) : result A :=
  match params !! key with
  | Some (v :: _) => Ok (found v)
  | Some [] => Raise IndexError
  | None => Ok dflt
  end.

Section Handlers.
(** [int(s)]: [None] when Python raises [ValueError]. *)
Variable py_int : string -> option Z.

(** [int(limit_value) if limit_value else 120], a [ValueError] turned
    into [ValueError("Invalid limit")]. *)
Definition parse_limit (limit_value : string) : result Z :=
  if PyStr.nonempty limit_value then
    match py_int limit_value with
    | Some n => Ok n
    | None => Raise (ValueError "Invalid limit")
    end
  else Ok 120.

(** [max(20, min(500, limit))]. *)
Definition clamp_limit (limit : Z) : Z := Z.max 20 (Z.min 500 limit).

(** [order.lower()], replaced by ["desc"] unless it is ["asc"] or ["desc"]. *)
Definition normalize_order (order : string) : string :=
  let order := PyStr.lower order in
  if String.eqb order "asc" || String.eqb order "desc" then order
  else "desc"%string.

Definition api_group_images (w : world) (root : string)
    (params : gmap string (list string)) (c : cache)
  : result group_page * cache :=
  let prepared :=
    do group_key <- first_param params "group" id EmptyString ;;
    if negb (PyStr.nonempty group_key) then Raise (ValueError "Missing group key")
    else
      do cursor <- first_param params "cursor" Some None ;;
      do limit_value <- first_param params "limit" id EmptyString ;;
      do limit <- parse_limit limit_value ;;
      let limit := clamp_limit limit in
      do order <- first_param params "order" id "desc"%string ;;
      Ok (group_key, cursor, limit, normalize_order order) in
  match prepared with
  | Ok (group_key, cursor, limit, order) =>
      let '(payload, c') := group_images_payload w root group_key cursor limit order c in
      (Ok payload, c')
  | Raise e => (Raise e, c)
  end.

Definition api_timeline (w : world) (root : string)
    (params : gmap string (list string)) (c : cache)
  : result timeline_page * cache :=
  let prepared :=
    do cursor <- first_param params "cursor" Some None ;;
    do limit_str <- first_param params "limit" id EmptyString ;;
    do limit <- parse_limit limit_str ;;
    let limit := clamp_limit limit in
    do order <- first_param params "order" id "desc"%string ;;
    Ok (cursor, limit, normalize_order order) in
  match prepared with
  | Ok (cursor, limit, order) =>
      let '(payload, c') := timeline_sections w root cursor limit order c in
      (Ok payload, c')
  | Raise e => (Raise e, c)
  end.
End Handlers.

(** ** Directory listings *)

Record directory_entry : Type := {
  de_name : string;
  de_path : string;
  de_hasImages : bool;
}.

Record image_ref : Type := {
  ir_name : string;
  ir_path : string;
  ir_dateHint : option string;
  ir_size : Z;
}.

Record listing : Type := {
  ls_path : string;
  ls_breadcrumbs : list (string * string);
  ls_directories : list directory_entry;
  ls_images : list image_ref;
  ls_totalImages : Z;
  ls_nextFolderImage : option string;
}.

(** [build_breadcrumbs]: the pairs of a name and the path it leads to. *)
Fixpoint breadcrumbs_from (accumulated : path) (segments : list string)
  : list (string * string) :=
  match segments with
  | [] => []
  | segment :: more =>
      (segment, rel_str (accumulated ++ [segment]))
      :: breadcrumbs_from (accumulated ++ [segment]) more
  end.

Definition build_breadcrumbs (target : path) : list (string * string) :=
  ("Home"%string, EmptyString) :: breadcrumbs_from [] target.

(** [directory_payload(root, target)]; [None] when [target] is not a
    directory of the tree, where [Path.iterdir] raises. *)
Definition directory_payload (t : list node) (target : path) : option listing :=
  match lookup_dir t target with
  | None => None
  | Some _ =>
      let directories :=
        List.map (fun directory =>
                    {| de_name := List.last directory EmptyString;
                       de_path := rel_str directory;
                       de_hasImages :=
                         match iter_images_recursive t directory (Some 1) with
                         | [] => false
                         | _ => true
                         end |})
                 (iter_directories t target) in
      let imgs :=
        List.map (fun '(image_path, size) =>
                    {| ir_name := List.last image_path EmptyString;
                       ir_path := rel_str image_path;
                       ir_dateHint := guess_date_hint (rel_str image_path);
                       ir_size := size |})
                 (iter_images t target) in
      let next_image := next_folder_first_image t target in
      Some {| ls_path := rel_str target;
              ls_breadcrumbs := build_breadcrumbs target;
              ls_directories := directories;
              ls_images := imgs;
              ls_totalImages := Z.of_nat (List.length imgs);
              ls_nextFolderImage := option_map rel_str next_image |}
  end.

(** ** SHA-256 ([hashlib.sha256], FIPS 180-4) *)

Module SHA256.

Definition w32 (x : Z) : Z := x mod 2 ^ 32.

Definition add32 (x y : Z) : Z := w32 (x + y).

Definition rotr (n x : Z) : Z :=
  Z.lor (Z.shiftr x n) (w32 (Z.shiftl x (32 - n))).

Definition Ch (x y z : Z) : Z :=
  Z.lxor (Z.land x y) (Z.land (w32 (Z.lnot x)) z).

Definition Maj (x y z : Z) : Z :=
  Z.lxor (Z.lxor (Z.land x y) (Z.land x z)) (Z.land y z).

Definition Sigma0 (x : Z) : Z := Z.lxor (Z.lxor (rotr 2 x) (rotr 13 x)) (rotr 22 x).
Definition Sigma1 (x : Z) : Z := Z.lxor (Z.lxor (rotr 6 x) (rotr 11 x)) (rotr 25 x).
Definition sigma0 (x : Z) : Z := Z.lxor (Z.lxor (rotr 7 x) (rotr 18 x)) (Z.shiftr x 3).
Definition sigma1 (x : Z) : Z := Z.lxor (Z.lxor (rotr 17 x) (rotr 19 x)) (Z.shiftr x 10).

(** The round constants, in decimal: the first 32 bits of the fractional
    parts of the cube roots of the first 64 primes. *)
Definition K : list Z := [
  1116352408; 1899447441; 3049323471; 3921009573; 961987163; 1508970993; 2453635748; 2870763221;
  3624381080; 310598401; 607225278; 1426881987; 1925078388; 2162078206; 2614888103; 3248222580;
  3835390401; 4022224774; 264347078; 604807628; 770255983; 1249150122; 1555081692; 1996064986;
  2554220882; 2821834349; 2952996808; 3210313671; 3336571891; 3584528711; 113926993; 338241895;
  666307205; 773529912; 1294757372; 1396182291; 1695183700; 1986661051; 2177026350; 2456956037;
  2730485921; 2820302411; 3259730800; 3345764771; 3516065817; 3600352804; 4094571909; 275423344;
  430227734; 506948616; 659060556; 883997877; 958139571; 1322822218; 1537002063; 1747873779;
  1955562222; 2024104815; 2227730452; 2361852424; 2428436474; 2756734187; 3204031479; 3329325298].

(** The initial hash value, in decimal: from the square roots of the
    first 8 primes. *)
Definition H0 : list Z := [
  1779033703; 3144134277; 1013904242; 2773480762; 1359893119; 2600822924; 528734635; 1541459225].

Definition bytes_of_string (s : string) : list Z :=
  List.map (fun c => Z.of_nat (nat_of_ascii c)) (list_ascii_of_string s).

(** The big-endian bytes of [x], [n] of them. *)
Fixpoint be_bytes (n : nat) (x : Z) : list Z :=
  match n with
  | O => []
  | S n' => be_bytes n' (x / 256) ++ [x mod 256]
  end.

(** The message, a [0x80] byte, zeros up to 56 modulo 64, and the length
    in bits on eight bytes. *)
Definition pad (msg : list Z) : list Z :=
  let len := Z.of_nat (List.length msg) in
  let zeros := Z.to_nat ((55 - len) mod 64) in
  msg ++ [128] ++ List.repeat 0 zeros ++ be_bytes 8 (8 * len).

Fixpoint be_word (bs : list Z) (acc : Z) : Z :=
  match bs with
  | [] => acc
  | b :: bs' => be_word bs' (acc * 256 + b)
  end.

(** Cuts a list into pieces of [n] elements; [fuel] bounds their number. *)
Fixpoint chunks {A} (fuel n : nat) (l : list A) : list (list A) :=
  match fuel with
  | O => []
  | S fuel' =>
      match l with
      | [] => []
      | _ => firstn n l :: chunks fuel' n (skipn n l)
      end
  end.

Definition words_of_block (block : list Z) : list Z :=
  List.map (fun bs => be_word bs 0) (chunks 16 4 block).

(** The message schedule of one block. *)
Definition schedule (block_words : list Z) : list Z :=
  fold_left (fun w t =>
               w ++ [add32 (add32 (sigma1 (nth (t - 2) w 0)) (nth (t - 7) w 0))
                           (add32 (sigma0 (nth (t - 15) w 0)) (nth (t - 16) w 0))])
            (seq 16 48) block_words.

Definition round (st : list Z) (kw : Z * Z) : list Z :=
  match st with
  | [a; b; c; d; e; f; g; h] =>
      let t1 := add32 (add32 (add32 h (Sigma1 e)) (add32 (Ch e f g) (fst kw))) (snd kw) in
      let t2 := add32 (Sigma0 a) (Maj a b c) in
      [add32 t1 t2; a; b; c; add32 d t1; e; f; g]
  | _ => st
  end.

Definition compress (h : list Z) (block : list Z) : list Z :=
  let w := schedule (words_of_block block) in
  let st := fold_left round (List.combine K w) h in
  List.map (fun p => add32 (fst p) (snd p)) (List.combine h st).

Definition digest_words (msg : list Z) : list Z :=
  let padded := pad msg in
  fold_left compress (chunks (List.length padded) 64 padded) H0.

Definition hex_alphabet : list ascii :=
  ["0"; "1"; "2"; "3"; "4"; "5"; "6"; "7"; "8"; "9"; "a"; "b"; "c"; "d"; "e"; "f"]%char.

Definition hex_digit (x : Z) : ascii := nth (Z.to_nat (x mod 16)) hex_alphabet "0"%char.

Definition hex8 (x : Z) (rest : string) : string :=
  String (hex_digit (x / 268435456)) (String (hex_digit (x / 16777216))
  (String (hex_digit (x / 1048576)) (String (hex_digit (x / 65536))
  (String (hex_digit (x / 4096)) (String (hex_digit (x / 256))
  (String (hex_digit (x / 16)) (String (hex_digit x) rest))))))).

(** [hashlib.sha256(data).hexdigest()]. *)
Definition hexdigest (data : string) : string :=
  let h := digest_words (bytes_of_string data) in
  hex8 (nth 0 h 0) (hex8 (nth 1 h 0) (hex8 (nth 2 h 0) (hex8 (nth 3 h 0)
  (hex8 (nth 4 h 0) (hex8 (nth 5 h 0) (hex8 (nth 6 h 0) (hex8 (nth 7 h 0)
  EmptyString))))))).

End SHA256.

(** ** The thumbnail cache key *)

(** What [thumbnail_cache_key] reads: the resolved path of the image, its
    [st_size] and [st_mtime_ns], and the requested size. *)
Record thumbnail_source : Type := {
  resolved_path : string;
  st_size : Z;
  st_mtime_ns : Z;
  max_size : Z;
}.

(** [f"{image_path.resolve()}|{stat.st_size}|{stat.st_mtime_ns}|{max_size}"]. *)
Definition fingerprint (src : thumbnail_source) : string :=
  resolved_path src +:+ "|" +:+ PyStr.str (st_size src) +:+ "|"
  +:+ PyStr.str (st_mtime_ns src) +:+ "|" +:+ PyStr.str (max_size src).

Definition thumbnail_cache_key (src : thumbnail_source) : string :=
  SHA256.hexdigest (fingerprint src).

(** ** Definitions the properties are stated with *)

(** *** The shape of a character *)

Fixpoint high_bytes (c : string) : bool :=
  match c with
  | EmptyString => true
  | String b c' => (128 <=? PyStr.code b)%N && high_bytes c'
  end.

(** The first [n] bytes of [s] are there and are no ASCII bytes. *)
Fixpoint high_prefix (n : nat) (s : string) : bool :=
  match n, s with
  | O, _ => true
  | S k, String b s' => (128 <=? PyStr.code b)%N && high_prefix k s'
  | S _, EmptyString => false
  end.

(** A character is one byte, or a leading byte and bytes that follow it,
    none of them ASCII. *)
Definition char_shape (c : string) : Prop :=
  (exists b, c = String b EmptyString)
  \/ (exists b rest, c = String b rest /\ (194 <=? PyStr.code b)%N = true
                     /\ high_bytes rest = true).

(** [s] is empty or starts with a byte that continues no character. *)
Definition starts_clean (s : string) : bool :=
  match s with
  | EmptyString => true
  | String b _ => negb (PyStr.is_continuation b)
  end.

(** *** Maximal digit runs *)

Definition no_digit (s : list string) : bool :=
  forallb (fun c => negb (PyStr.is_decimal c)) s.

(** [s] is empty or starts with a character that is not a digit. *)
Definition digit_free_start (s : list string) : bool :=
  match s with
  | [] => true
  | c :: _ => negb (PyStr.is_decimal c)
  end.

Definition all_decimal (s : list string) : bool :=
  match s with
  | [] => false
  | _ => forallb PyStr.is_decimal s
  end.

(** [digit_runs s l]: [l] lists, in order, the maximal runs of decimal
    digits of the characters [s]. Each run is non-empty, preceded by
    characters that are not digits, and followed by the end of [s] or by
    one that is not a digit. *)
Inductive digit_runs : list string -> list (list string) -> Prop :=
| runs_none s : no_digit s = true -> digit_runs s []
| runs_next pre d post rest :
    no_digit pre = true ->
    all_decimal d = true ->
    digit_free_start post = true ->
    digit_runs post rest ->
    digit_runs (pre ++ d ++ post) (d :: rest).

(** *** The date value as the specification words it *)

(** The first year token and the tokens that follow it. *)
Fixpoint first_year_token (tokens : list (list string))
  : option (list string * list (list string)) :=
  match tokens with
  | [] => None
  | t :: following =>
      if is_year_token t then Some (t, following) else first_year_token following
  end.

(** The value of a two-digit token when it lies in [lo .. hi]. *)
Definition two_digit_between (lo hi : Z) (token : list string) : option Z :=
  if (List.length token =? 2)%nat
     && (lo <=? PyStr.int_of_chars token) && (PyStr.int_of_chars token <=? hi)
  then Some (PyStr.int_of_chars token) else None.

(** Month and day read after the year: the month is the next token when it
    is a two-digit 1..12, the day the token after a month when it is a
    two-digit 1..31; a component that is not there counts as 0. *)
Definition month_and_day (following : list (list string)) : Z * Z :=
  match following with
  | t1 :: after_month =>
      match two_digit_between 1 12 t1 with
      | Some month =>
          (month,
           match after_month with
           | t2 :: _ => default 0 (two_digit_between 1 31 t2)
           | [] => 0
           end)
      | None => (0, 0)
      end
  | [] => (0, 0)
  end.

Definition date_value_of_runs (runs : list (list string)) : bool * Z :=
  match first_year_token runs with
  | Some (year, following) =>
      let '(month, day) := month_and_day following in
      (true, PyStr.int_of_chars year * 10000 + month * 100 + day)
  | None => (false, 0)
  end.

(** *** The date hint as the specification words it *)

Definition has_date (p : string) : bool := fst (_extract_date_value p).
Definition date_of (p : string) : Z := snd (_extract_date_value p).

(** [_] turned into [-]; [-] stays. *)
Definition normalize_separators (segment : string) : string :=
  PyStr.replace "_" "-" segment.

Definition separators (segment : string) : nat :=
  (PyStr.count "-" segment + PyStr.count "_" segment)%nat.

Definition bare_year (segment : string) : bool :=
  (PyStr.len segment =? 4)%nat && PyStr.isdigit segment.

Definition long_token (segment : string) : bool :=
  (8 <=? PyStr.len segment)%nat && PyStr.prefix_isdigit 4 segment.

(** The segments the specification lets qualify. *)
Definition qualifies_as_stated (segment : string) : bool :=
  bare_year segment || long_token segment.

(** The segments the code lets qualify: a long token needs two separators. *)
Definition qualifies (segment : string) : bool :=
  bare_year segment || (long_token segment && (2 <=? separators segment)%nat).

(** The first segment, from the leaf, that satisfies [q], normalized. *)
Definition first_hint (q : string -> bool) (relative_path : string) : option string :=
  option_map normalize_separators (List.find q (rev (parts relative_path))).

(** *** Orders on paths and members *)

(** [(dateValue, path)] ascending, the path compared as it is. *)
Definition date_path_le (a b : string) : bool :=
  (date_of a <? date_of b) || ((date_of a =? date_of b) && PyStr.le a b).

(** [(dateValue, lower-cased path)] ascending. *)
Definition date_lower_le (a b : string) : bool :=
  (date_of a <? date_of b)
  || ((date_of a =? date_of b) && PyStr.le (PyStr.lower a) (PyStr.lower b)).

(** The lower-cased paths ascending. *)
Definition lower_le (a b : string) : bool := PyStr.le (PyStr.lower a) (PyStr.lower b).

(** The member order as stated: has a date first, newer first, then the
    smaller path first. *)
Definition member_le_as_stated (a b : image_item) : bool :=
  let ka := if item_hasDate a then 1 else 0 in
  let kb := if item_hasDate b then 1 else 0 in
  (kb <? ka)
  || ((ka =? kb)
      && ((item_dateValue b <? item_dateValue a)
          || ((item_dateValue a =? item_dateValue b)
              && PyStr.le (item_path a) (item_path b)))).

(** The member order of the code: has a date first, newer first, then
    the larger lower-cased path first. *)
Definition member_ge (a b : image_item) : bool :=
  let ka := if item_hasDate a then 1 else 0 in
  let kb := if item_hasDate b then 1 else 0 in
  (kb <? ka)
  || ((ka =? kb)
      && ((item_dateValue b <? item_dateValue a)
          || ((item_dateValue a =? item_dateValue b)
              && PyStr.le (PyStr.lower (item_path b)) (PyStr.lower (item_path a))))).

(** Every element is in relation with every later one. *)
Fixpoint sortedb {A} (le : A -> A -> bool) (l : list A) : bool :=
  match l with
  | [] => true
  | x :: l' => forallb (le x) l' && sortedb le l'
  end.

(** *** Pagination as the specification words it *)

Section Paginate.
Context {A : Type}.
(** The identifier of an item. *)
Variable ident : A -> string.

Fixpoint index_of (c : string) (sequence : list A) : option nat :=
  match sequence with
  | [] => None
  | x :: more =>
      if String.eqb (ident x) c then Some 0%nat
      else option_map S (index_of c more)
  end.

(** Where the page starts: after the item the cursor names, at 0 when
    there is no cursor or no such item. *)
Definition page_start (sequence : list A) (cursor : option string) : nat :=
  match cursor with
  | Some c =>
      if PyStr.nonempty c then
        match index_of c sequence with
        | Some i => S i
        | None => 0%nat
        end
      else 0%nat
  | None => 0%nat
  end.

(** [limit] items from the start, and the identifier of the last of
    them unless the page is empty or reaches the end. *)
Definition paginate (sequence : list A) (cursor : option string) (limit : nat)
  : list A * option string :=
  let start := page_start sequence cursor in
  let page := firstn limit (skipn start sequence) in
  (page,
   match page with
   | [] => None
   | _ =>
       if (start + List.length page <? List.length sequence)%nat
       then option_map ident (List.last (List.map Some page) None)
       else None
   end).
End Paginate.

(** Follows [nextCursor] from page to page and collects the items;
    [None] when [fuel] pages did not reach the end. *)
Fixpoint chain_pages {B} (fuel : nat) (fetch : option string -> list B * option string)
    (cursor : option string) : option (list B) :=
  match fuel with
  | O => None
  | S fuel' =>
      let '(items, next) := fetch cursor in
      match next with
      | None => Some items
      | Some c => option_map (app items) (chain_pages fuel' fetch (Some c))
      end
  end.

Definition timeline_fetch (paths : list string) (limit : Z) (cursor : option string)
  : list timeline_item * option string :=
  let pg := timeline_of_paths paths cursor limit in
  (timeline_items pg, tl_nextCursor pg).

Definition group_fetch (sequence : list image_item) (limit : Z) (cursor : option string)
  : list group_image * option string :=
  let pg := group_page_of sequence cursor limit in
  (images pg, gp_nextCursor pg).

(** The item the timeline shows for a path. *)
Definition timeline_item_of (rel_path_str : string) : timeline_item :=
  let hint := guess_date_hint rel_path_str in
  {| tl_name := path_name rel_path_str;
     tl_path := rel_path_str;
     tl_dateHint := hint_or hint (label_of hint rel_path_str) |}.

(** All the items the sectioning loop has taken in. *)
Definition taken_in (st : section_state) : list timeline_item :=
  flat_map sec_items (fst (fst st)) ++ snd st.

(** The text of the [limit] parameter of a query, empty when absent. *)
Definition limit_text (params : gmap string (list string)) : string :=
  match params !! "limit"%string with
  | Some (v :: _) => v
  | _ => EmptyString
  end.

(** All the strings of [n] characters over an alphabet. *)
Fixpoint all_strings (alphabet : list ascii) (n : nat) : list string :=
  match n with
  | O => [EmptyString]
  | S n' => flat_map (fun c => List.map (String c) (all_strings alphabet n')) alphabet
  end.
Arguments all_strings : simpl never.

(** One image file per number, all of the same size, time and requested
    size: [/0], [/1], [/2], ... *)
Definition numbered_source (i : nat) : thumbnail_source :=
  {| resolved_path := String "/" (PyStr.str (Z.of_nat i));
     st_size := 0;
     st_mtime_ns := 0;
     max_size := 320 |}.

(** The images of the scan that fall into the subgroup [key], in scan order. *)
Definition members_of (key : string) (scan : list string) : list image_item :=
  flat_map (fun p => match subgroup_of p with
                     | Some (k, label) =>
                         if String.eqb k key then [make_image_item p label] else []
                     | None => []
                     end) scan.

(** *** Snapshots held by the cache *)

(** The sorted paths a call to [sorted_image_paths] works from. *)
Definition snapshot_paths (w : world) (root : string) (c : cache) : list string :=
  if paths_cache_fresh w root c then cache_paths c
  else build_sorted_paths (scan_paths (tree w)).

(** The cached paths and hierarchy were built by a scan. *)
Definition cache_built (c : cache) : Prop :=
  (exists scan, cache_paths c = build_sorted_paths scan)
  /\ (forall h, cache_hierarchy c = Some h -> exists scan, h = scan_hierarchy scan).

(** *** Fixtures *)

(** The tree of the specification's example. *)
Definition example_tree : list node :=
  [Dir "2022-05-01" [File "a.jpg" 10];
   Dir "2022-05-02" [File "b.jpg" 20];
   Dir "misc" [File "c.jpg" 30]].

Definition example_world : world := {| tree := example_tree; now := 1000 |}.

(** Two images of one month whose names differ in case, and one without
    a date. *)
Definition mixed_case_tree : list node :=
  [Dir "2022" [File "B.jpg" 1; File "a.jpg" 2];
   Dir "misc" [File "c.jpg" 3]].

Definition mixed_case_world : world := {| tree := mixed_case_tree; now := 1000 |}.

(** Two images of one subgroup with the same date value. *)
Definition same_day_tree : list node :=
  [Dir "2022" [Dir "05" [File "a.jpg" 1; File "b.jpg" 2]]].

Definition same_day_world : world := {| tree := same_day_tree; now := 1000 |}.

(** [int] on strings of decimal digits, enough to run the handlers. *)
Definition int_ascii (s : string) : option Z :=
  if all_decimal (PyStr.chars s) then Some (PyStr.int_of_digits s) else None.

(** *** What the scanner reaches *)

(** [image_below children p]: [p] leads from a listing to an image file
    through directories that are not ignored. *)
Inductive image_below : list node -> path -> Prop :=
| image_here children name size :
    In (File name size) children ->
    is_image_name name = true ->
    image_below children [name]
| image_deeper children d sub p :
    In (Dir d sub) children ->
    is_ignored_name d = false ->
    image_below sub p ->
    image_below children (d :: p).



(** ** Calendar dates and their labels *)

(** What a function that formats a date value ends in: a label, [None],
    or the [OverflowError] that [datetime] raises for a year beyond a C
    [int], which the function does not catch. *)
Inductive label_outcome : Type :=
| Label (s : string)
| NoLabel
| IntOverflow.

Definition is_leap (year : Z) : bool :=
  (year mod 4 =? 0) && (negb (year mod 100 =? 0) || (year mod 400 =? 0)).

Definition days_in_month (year month : Z) : Z :=
  if month =? 2 then (if is_leap year then 29 else 28)
  else if (month =? 4) || (month =? 6) || (month =? 9) || (month =? 11) then 30
  else 31.

(** The dates [datetime(year, month, day)] accepts; it raises
    [ValueError] for the others. *)
Definition valid_date (year month day : Z) : bool :=
  (1 <=? year) && (year <=? 9999) && (1 <=? month) && (month <=? 12)
  && (1 <=? day) && (day <=? days_in_month year month).

(** [%B] in the C locale. *)
Definition month_name (month : Z) : string :=
  nth (Z.to_nat (month - 1))
      ["January"; "February"; "March"; "April"; "May"; "June"; "July";
       "August"; "September"; "October"; "November"; "December"]%string
      EmptyString.

(** [datetime(year, month, day).strftime("%B %d, %Y")] for a valid date;
    [%Y] is the year as the C library of Linux prints it, without padding. *)
Definition strftime_B_d_Y (year month day : Z) : string :=
  month_name month +:+ " " +:+ PyStr.fmt02 day +:+ ", " +:+ PyStr.str year.

(** [s.replace(" 0", " ")]. *)
Fixpoint replace_space_zero (s : string) : string :=
  match s with
  | EmptyString => EmptyString
  | String c s' =>
      match s' with
      | String c' s'' =>
          if Ascii.eqb c " " && Ascii.eqb c' "0"
          then String " " (replace_space_zero s'')
          else String c (replace_space_zero s')
      | EmptyString => String c EmptyString
      end
  end.

(** [format_date_value(value)]. *)
Definition format_date_value (value : Z) : label_outcome :=
  if value <=? 0 then NoLabel
  else
    let year := value / 10000 in
    let month := (value mod 10000) / 100 in
    let day := value mod 100 in
    if 2147483647 <? year then IntOverflow
    else if valid_date year month day
    then Label (replace_space_zero (strftime_B_d_Y year month day))
    else NoLabel.

(** The label as it reads: the month, the day without padding, the year. *)
Definition month_day_year (year month day : Z) : string :=
  month_name month +:+ " " +:+ PyStr.str day +:+ ", " +:+ PyStr.str year.

Fixpoint no_space (s : string) : bool :=
  match s with
  | EmptyString => true
  | String c s' => negb (Ascii.eqb c " ") && no_space s'
  end.

(** [s] starts with a character that is not [0]. *)
Definition starts_nonzero (s : string) : bool :=
  match s with
  | EmptyString => false
  | String c _ => negb (Ascii.eqb c "0")
  end.


(** *** Sections as runs *)

(** The label the timeline gives the path of an item. *)
Definition item_label (it : timeline_item) : string :=
  label_of (guess_date_hint (tl_path it)) (tl_path it).

(** Each section is a non-empty run of items with the label of the
    section, and two consecutive sections have different labels. *)
Fixpoint well_sectioned (l : list timeline_section) : Prop :=
  match l with
  | [] => True
  | s :: rest =>
      sec_items s <> []
      /\ (forall it, In it (sec_items s) -> sec_label s = Some (item_label it))
      /\ match rest with
         | s' :: _ => sec_label s <> sec_label s'
         | [] => True
         end
      /\ well_sectioned rest
  end.

(** The sections so far and the open run, as sections. *)
Definition closed_sections (st : section_state) : list timeline_section :=
  let '(secs, current_label, current_items) := st in
  match current_items with
  | [] => secs
  | _ => secs ++ [{| sec_label := current_label; sec_items := current_items |}]
  end.

(** What the sectioning loop keeps true of its state. *)
Definition sectioning_invariant (st : section_state) : Prop :=
  well_sectioned (closed_sections st) /\ (snd st = [] -> fst (fst st) = []).

(** ** Paths of requests *)

(** What [Path.resolve()] makes of the components of an absolute path
    when none of them is a symbolic link: a [..] drops the component
    before it, and stays at the root of the file system when there is
    none. [stack] holds the components kept so far, the last one first. *)
Definition resolve_step (stack : list string) (segment : string) : list string :=
  if String.eqb segment ".." then List.tl stack else segment :: stack.

Definition resolve_lexically (full : list string) : list string :=
  rev (fold_left resolve_step full []).

(** [Path.parents]: the proper ancestors, the nearest first. *)
Definition parents (p : list string) : list (list string) :=
  List.map (fun n => firstn n p) (rev (seq 0 (List.length p))).

(** [Path(relative).is_absolute()]. *)
Definition is_absolute (relative : string) : bool := PyStr.startswith "/" relative.

Section ResolvedPaths.
(** [Path.resolve()] on the components of an absolute path, as the file
    system with its symbolic links has it. *)
Variable resolve : list string -> list string.

(** [resolve_relative_path(root, relative)]; [root] and the result are
    absolute paths, as their components. *)
Definition resolve_relative_path (root : list string) (relative : string)
  : result (list string) :=
  if is_absolute relative then Raise (ValueError "Absolute paths are not permitted")
  else
    let full_path := resolve (root ++ parts relative) in
    if path_eqb root full_path then Ok full_path
    else if negb (existsb (path_eqb root) (parents full_path))
    then Raise (ValueError "Requested path escapes the image root")
    else Ok full_path.
End ResolvedPaths.

(** ** Thumbnails *)

Definition THUMBNAIL_DEFAULT_SIZE : Z := 320.

(** [str] of an absolute path given by its components. *)
Definition abs_str (p : list string) : string := String "/" (PyStr.join "/" p).

Inductive thumbnail_response : Type :=
| SendBinary (data : list Byte.byte) (content_type : string)
| SendPlaceholder
| SendThumbnailUnavailable.

Section Thumbnails.
(** What the imaging library does with the file at a path: the value of
    [exif.thumbnail], [None] when there is none or when reading raises;
    and the JPEG data of lines 683 to 695 for a size, [None] when any of
    these lines raises. *)
Variable exif_thumbnail : string -> option (list Byte.byte).
Variable render : string -> Z -> option (list Byte.byte).

(** [extract_exif_thumbnail]: an empty thumbnail counts as none. *)
Definition extract_exif_thumbnail (image_path : string) : option (list Byte.byte) :=
  match exif_thumbnail image_path with
  | Some (b :: thumb) => Some (b :: thumb)
  | _ => None
  end.

(** [thumbnail_cache_path], as the name of the file in [THUMBNAIL_CACHE_DIR]. *)
Definition thumbnail_cache_path (src : thumbnail_source) : string :=
  thumbnail_cache_key src +:+ ".jpg".

(** [generate_thumbnail]; [disk] is the content of [THUMBNAIL_CACHE_DIR],
    and [src] holds the path, what [stat] gives for it and the size asked
    for. *)
Definition generate_thumbnail (src : thumbnail_source)
    (disk : gmap string (list Byte.byte))
  : option (list Byte.byte * string) * gmap string (list Byte.byte) :=
  match extract_exif_thumbnail (resolved_path src) with
  | Some exif_thumb => (Some (exif_thumb, "image/jpeg"%string), disk)
  | None =>
      let cache_file := thumbnail_cache_path src in
      match disk !! cache_file with
      | Some data => (Some (data, "image/jpeg"%string), disk)
      | None =>
          match render (resolved_path src) (max_size src) with
          | None => (None, disk)
          | Some data =>
              (Some (data, "image/jpeg"%string), <[cache_file := data]> disk)
          end
      end
  end.

(** [int(s)], [urllib.parse.unquote], [stat] of a regular file ([None]
    when the path does not exist or is not a file) with its size and its
    time of modification, and whether the placeholder file exists. *)
Variable py_int : string -> option Z.
Variable unquote : string -> string.
Variable stat_file : list string -> option (Z * Z).
Variable placeholder_exists : bool.
(** [Path.resolve()], as for [resolve_relative_path]. *)
Variable resolve : list string -> list string.

(** [int(size_param) if size_param else THUMBNAIL_DEFAULT_SIZE], a
    [ValueError] turned into [ValueError("Invalid thumbnail size")]. *)
Definition parse_size (size_param : string) : result Z :=
  if PyStr.nonempty size_param then
    match py_int size_param with
    | Some n => Ok n
    | None => Raise (ValueError "Invalid thumbnail size")
    end
  else Ok THUMBNAIL_DEFAULT_SIZE.

(** [max(32, min(1024, max_size))]. *)
Definition clamp_size (size : Z) : Z := Z.max 32 (Z.min 1024 size).

(** What [api_thumbnail] ends with: a response, an exception, or
    [FileNotFoundError]. *)
Inductive thumbnail_outcome : Type :=
| Responded (r : thumbnail_response)
| Raised (e : exn)
| RaisedFileNotFound.

Definition api_thumbnail (root : list string) (params : gmap string (list string))
    (disk : gmap string (list Byte.byte))
  : thumbnail_outcome * gmap string (list Byte.byte) :=
  let prepared :=
    do relative <- first_param params "path" id EmptyString ;;
    if negb (PyStr.nonempty relative) then Raise (ValueError "Missing image path")
    else
      do size_param <- first_param params "size" id EmptyString ;;
      do size <- parse_size size_param ;;
      let size := clamp_size size in
      do target <- resolve_relative_path resolve root (unquote relative) ;;
      Ok (target, size) in
  match prepared with
  | Raise e => (Raised e, disk)
  | Ok (target, size) =>
      match stat_file target with
      | None => (RaisedFileNotFound, disk)
      | Some (size_bytes, mtime_ns) =>
          let src := {| resolved_path := abs_str target; st_size := size_bytes;
                        st_mtime_ns := mtime_ns; max_size := size |} in
          match generate_thumbnail src disk with
          | (None, disk') =>
              (Responded (if placeholder_exists then SendPlaceholder
                          else SendThumbnailUnavailable), disk')
          | (Some (data, content_type), disk') =>
              (Responded (SendBinary data content_type), disk')
          end
      end
  end.
End Thumbnails.

(** ** The loader of [load_database.py] *)

(** [f"/{file_path.relative_to(root).as_posix()}"], the [_id] of the
    document of a file. *)
Definition pseudo_path (file_path : path) : string := String "/" (rel_str file_path).

Record load_counts : Type := {
  processed : Z;
  inserted : Z;
  skipped : Z;
}.

Section Loader.
(** The documents of the collection, by [_id], and what [build_document]
    makes of a file and of what [extract_exif] reads from it. *)
Variable document : Type.
Variable build_document : path -> document.

(** One turn of the loop of [process_images]: [count_documents] with the
    [_id], then [insert_one] when there is no such document. *)
Definition process_step (state : gmap string document * load_counts) (file_path : path)
  : gmap string document * load_counts :=
  let '(collection, n) := state in
  let pseudo_path := pseudo_path file_path in
  match collection !! pseudo_path with
  | Some _ =>
      (collection,
       {| processed := processed n + 1; inserted := inserted n;
          skipped := skipped n + 1 |})
  | None =>
      (<[pseudo_path := build_document file_path]> collection,
       {| processed := processed n + 1; inserted := inserted n + 1;
          skipped := skipped n |})
  end.

(** [process_images] on the files found, from the collection as it is. *)
Definition process_images (files : list path) (collection : gmap string document)
  : gmap string document * load_counts :=
  fold_left process_step files
            (collection, {| processed := 0; inserted := 0; skipped := 0 |}).
End Loader.

(** ** Dates in the paths of the loader *)

(** A character of a class [[lo-hi]]. *)
Definition char_between (lo hi c : string) : bool :=
  ((PyStr.ord lo <=? PyStr.ord c) && (PyStr.ord c <=? PyStr.ord hi))%N.

(** [19\d{2}|20\d{2}], [0[1-9]|1[0-2]] and [0[1-9]|[12]\d|3[01]]. *)
Definition re_year (a b c d : string) : bool :=
  ((String.eqb a "1" && String.eqb b "9") || (String.eqb a "2" && String.eqb b "0"))
  && PyStr.is_decimal c && PyStr.is_decimal d.

Definition re_month (a b : string) : bool :=
  (String.eqb a "0" && char_between "1" "9" b)
  || (String.eqb a "1" && char_between "0" "2" b).

Definition re_day (a b : string) : bool :=
  (String.eqb a "0" && char_between "1" "9" b)
  || (char_between "1" "2" a && PyStr.is_decimal b)
  || (String.eqb a "3" && char_between "0" "1" b).

(** [$]: the end of the string, or a newline that ends it. *)
Definition re_end (rest : list string) : bool :=
  match rest with
  | [] => true
  | [c] => String.eqb c (String "010" EmptyString)
  | _ => false
  end.

(** The groups [year], [month] and [day] of a match, each as its
    characters. *)
Definition date_groups : Type := list string * list string * list string.

(** The first and the third of [DATE_SEGMENT_PATTERNS], which differ by
    the separators they take. *)
Definition match_separated (sep : string -> bool) (part : string) : option date_groups :=
  match PyStr.chars part with
  | y1 :: y2 :: y3 :: y4 :: s1 :: m1 :: m2 :: s2 :: d1 :: d2 :: rest =>
      if re_year y1 y2 y3 y4 && sep s1 && re_month m1 m2 && sep s2 && re_day d1 d2
         && re_end rest
      then Some ([y1; y2; y3; y4], [m1; m2], [d1; d2])
      else None
  | _ => None
  end.

(** The second one. *)
Definition match_compact (part : string) : option date_groups :=
  match PyStr.chars part with
  | y1 :: y2 :: y3 :: y4 :: m1 :: m2 :: d1 :: d2 :: rest =>
      if re_year y1 y2 y3 y4 && re_month m1 m2 && re_day d1 d2 && re_end rest
      then Some ([y1; y2; y3; y4], [m1; m2], [d1; d2])
      else None
  | _ => None
  end.

Definition DATE_SEGMENT_PATTERNS : list (string -> option date_groups) :=
  [match_separated (fun c => String.eqb c "_" || String.eqb c "-");
   match_compact;
   match_separated (fun c => String.eqb c "-")].

Definition YEAR_SEGMENT_PATTERN (part : string) : bool :=
  match PyStr.chars part with
  | y1 :: y2 :: y3 :: y4 :: rest => re_year y1 y2 y3 y4 && re_end rest
  | _ => false
  end.

Definition MONTH_SEGMENT_PATTERN (part : string) : bool :=
  match PyStr.chars part with
  | m1 :: m2 :: rest => re_month m1 m2 && re_end rest
  | _ => false
  end.

Definition DAY_SEGMENT_PATTERN (part : string) : bool :=
  match PyStr.chars part with
  | d1 :: d2 :: rest => re_day d1 d2 && re_end rest
  | _ => false
  end.

(** [int(part)] of a part that one of the three patterns above matches:
    [int] ignores white space around the digits, which here is at most
    the newline that [$] lets through. *)
Definition int_of_segment (part : string) : Z :=
  PyStr.int_of_chars (List.filter PyStr.is_decimal (PyStr.chars part)).

(** A [datetime] at midnight UTC, as its year, month and day. *)
Definition date : Type := Z * Z * Z.

Record PathDateInfo : Type := {
  is_date_specific : bool;
  date_value : option date;
}.

(** What the loops try in turn: a candidate is [None] where no pattern
    matches; [datetime] raises [ValueError] for a date that does not
    exist, and the loop goes on. *)
Fixpoint first_datetime (candidates : list (option date)) : option date :=
  match candidates with
  | [] => None
  | None :: rest => first_datetime rest
  | Some (year, month, day) :: rest =>
      if valid_date year month day then Some (year, month, day)
      else first_datetime rest
  end.

Definition date_of_groups (found : option date_groups) : option date :=
  match found with
  | Some (year, month, day) =>
      Some (PyStr.int_of_chars year, PyStr.int_of_chars month,
            PyStr.int_of_chars day)
  | None => None
  end.

Definition segment_candidates (part : string) : list (option date) :=
  List.map (fun pattern => date_of_groups (pattern part)) DATE_SEGMENT_PATTERNS.

Definition triple_candidate (parts : list string) (idx : nat) : option date :=
  let part (i : nat) := nth i parts EmptyString in
  if YEAR_SEGMENT_PATTERN (part idx) && MONTH_SEGMENT_PATTERN (part (idx + 1)%nat)
     && DAY_SEGMENT_PATTERN (part (idx + 2)%nat)
  then Some (int_of_segment (part idx), int_of_segment (part (idx + 1)%nat),
             int_of_segment (part (idx + 2)%nat))
  else None.

Definition detect_path_date (parts : list string) : PathDateInfo :=
  match first_datetime (flat_map segment_candidates parts) with
  | Some date_value => {| is_date_specific := true; date_value := Some date_value |}
  | None =>
      match first_datetime
              (List.map (triple_candidate parts) (seq 0 (List.length parts - 2))) with
      | Some date_value =>
          {| is_date_specific := true; date_value := Some date_value |}
      | None => {| is_date_specific := false; date_value := None |}
      end
  end.

(** The date a single segment stands for, if it stands for one. *)
Definition segment_date (part : string) : option date :=
  first_datetime (segment_candidates part).

(** [YYYY-MM-DD]. *)
Definition iso_date (year month day : Z) : string :=
  PyStr.str year +:+ "-" +:+ PyStr.fmt02 month +:+ "-" +:+ PyStr.fmt02 day.

(** Whether the text written for a year, a month or a day is what the
    patterns expect and reads back as the number. *)
Definition ascii_char (b : ascii) : string := String b EmptyString.

Definition is_ascii_byte (b : ascii) : bool := (PyStr.code b <? 128)%N.

Definition year_text_ok (year : Z) : bool :=
  match list_ascii_of_string (PyStr.str year) with
  | [a; b; c; d] =>
      forallb is_ascii_byte [a; b; c; d]
      && re_year (ascii_char a) (ascii_char b) (ascii_char c) (ascii_char d)
      && (PyStr.int_of_chars [ascii_char a; ascii_char b; ascii_char c; ascii_char d]
          =? year)
  | _ => false
  end.

Definition month_text_ok (month : Z) : bool :=
  match list_ascii_of_string (PyStr.fmt02 month) with
  | [a; b] =>
      forallb is_ascii_byte [a; b] && re_month (ascii_char a) (ascii_char b)
      && (PyStr.int_of_chars [ascii_char a; ascii_char b] =? month)
  | _ => false
  end.

Definition day_text_ok (day : Z) : bool :=
  match list_ascii_of_string (PyStr.fmt02 day) with
  | [a; b] =>
      forallb is_ascii_byte [a; b] && re_day (ascii_char a) (ascii_char b)
      && (PyStr.int_of_chars [ascii_char a; ascii_char b] =? day)
  | _ => false
  end.

Definition range_Z (first : Z) (count : nat) : list Z :=
  List.map (fun i => first + Z.of_nat i) (seq 0 count).

(** ** Names for downloads *)

(** The class of the pattern of [sanitize_zip_component]: the backslash,
    the slash, the colon, the star, the question mark, the double quote,
    the angle brackets and the bar (the backslash, the star and the quote
    by their codes 92, 42 and 34). *)
Definition zip_forbidden (c : ascii) : bool :=
  existsb (Ascii.eqb c) ["092"; "/"; ":"; "042"; "?"; "034"; "<"; ">"; "|"]%char.

(** [re.sub(r"[...]+", "_", s)]: every maximal run of characters of the
    class becomes one underscore. [in_run] tells that the previous
    character was of the class. *)
Fixpoint sub_forbidden_runs (in_run : bool) (s : string) : string :=
  match s with
  | EmptyString => EmptyString
  | String c s' =>
      if zip_forbidden c then
        if in_run then sub_forbidden_runs true s'
        else String "_" (sub_forbidden_runs true s')
      else String c (sub_forbidden_runs false s')
  end.

Definition sanitize_zip_component (component fallback : string) : string :=
  let cleaned := PyStr.strip (sub_forbidden_runs false component) in
  let cleaned := PyStr.replace "000" "_" cleaned in
  if negb (PyStr.nonempty cleaned) then fallback else cleaned.

(** A name that needs no cleaning: not empty, no white space at either
    end, no character of the class and no NUL. *)
Fixpoint plain_chars (s : string) : bool :=
  match s with
  | EmptyString => true
  | String c s' => negb (zip_forbidden c) && negb (Ascii.eqb c "000") && plain_chars s'
  end.

Definition not_space (c : option string) : bool :=
  match c with
  | Some c => negb (PyStr.is_space c)
  | None => false
  end.

Definition clean_name (s : string) : bool :=
  plain_chars s && not_space (List.head (PyStr.chars s))
  && not_space (List.head (rev (PyStr.chars s))).

(** * Properties *)

(** ** Strings *)

Section StringFacts.

Lemma append_nil (b : string) : EmptyString +:+ b = b.
Proof. reflexivity. Qed.

Lemma append_cons (c : ascii) (a b : string) : String c a +:+ b = String c (a +:+ b).
Proof. reflexivity. Qed.

Lemma append_assoc (a b c : string) : (a +:+ b) +:+ c = a +:+ (b +:+ c).
Proof.
  induction a as [|x a IH]; [done|]. by rewrite !append_cons, IH.
Qed.

Lemma append_empty_r (a : string) : a +:+ EmptyString = a.
Proof. induction a as [|x a IH]; [done|]. by rewrite append_cons, IH. Qed.

Lemma length_append (a b : string) :
  String.length (a +:+ b) = (String.length a + String.length b)%nat.
Proof.
  induction a as [|x a IH]; [done|]. rewrite append_cons. simpl. by rewrite IH.
Qed.

Lemma replace_same (a : ascii) (s : string) : PyStr.replace a a s = s.
Proof.
  induction s as [|c s IH]; simpl; [done|].
  rewrite IH. destruct (Ascii.eqb c a) eqn:E; [|done].
  apply Ascii.eqb_eq in E. by subst.
Qed.

Lemma replace_append (a b : ascii) (s t : string) :
  PyStr.replace a b (s +:+ t) = PyStr.replace a b s +:+ PyStr.replace a b t.
Proof.
  induction s as [|c s IH]; [done|].
  rewrite append_cons. cbn [PyStr.replace]. by rewrite append_cons, IH.
Qed.

Lemma count_append (a : ascii) (s t : string) :
  PyStr.count a (s +:+ t) = (PyStr.count a s + PyStr.count a t)%nat.
Proof.
  induction s as [|c s IH]; [done|].
  rewrite append_cons. cbn [PyStr.count]. rewrite IH. lia.
Qed.

Lemma int_chars_from_acc (s : list string) (acc : Z) :
  PyStr.int_chars_from acc s
  = acc * 10 ^ Z.of_nat (List.length s) + PyStr.int_chars_from 0 s.
Proof.
  revert acc. induction s as [|c s IH]; intros acc.
  - simpl. lia.
  - cbn [PyStr.int_chars_from List.length]. rewrite IH, (IH (10 * 0 + _)).
    rewrite Nat2Z.inj_succ, Z.pow_succ_r by lia. lia.
Qed.

Lemma int_chars_from_app (a b : list string) (acc : Z) :
  PyStr.int_chars_from acc (a ++ b)
  = PyStr.int_chars_from (PyStr.int_chars_from acc a) b.
Proof.
  revert acc. induction a as [|c a IH]; intros acc; [done|].
  cbn [app PyStr.int_chars_from]. apply IH.
Qed.

Lemma int_of_chars_app (a b : list string) :
  PyStr.int_of_chars (a ++ b)
  = PyStr.int_of_chars a * 10 ^ Z.of_nat (List.length b) + PyStr.int_of_chars b.
Proof.
  unfold PyStr.int_of_chars.
  by rewrite int_chars_from_app, int_chars_from_acc.
Qed.

Lemma fmt02_value (n : Z) :
  0 <= n <= 31 ->
  List.length (PyStr.chars (PyStr.fmt02 n)) = 2%nat
  /\ PyStr.int_of_chars (PyStr.chars (PyStr.fmt02 n)) = n.
Proof.
  intros Hn.
  assert (exists k, (k < 32)%nat /\ n = Z.of_nat k) as (k & Hk & ->)
    by (exists (Z.to_nat n); lia).
  do 32 (destruct k as [|k]; [by vm_compute|]). lia.
Qed.

End StringFacts.

(** ** The characters of a string *)

Section Characters.

Lemma concat_app (a b : list string) :
  PyStr.concat (a ++ b) = PyStr.concat a +:+ PyStr.concat b.
Proof.
  induction a as [|x a IH]; [done|].
  cbn [app PyStr.concat fold_right]. fold (PyStr.concat (a ++ b)) (PyStr.concat a).
  by rewrite IH, append_assoc.
Qed.

Lemma chars_aux_start (s : string) : fst (PyStr.chars_aux 0 s) = EmptyString.
Proof.
  destruct s as [|b s]; [done|]. cbn [PyStr.chars_aux].
  by destruct (PyStr.chars_aux (PyStr.width b s - 1) s).
Qed.

Lemma chars_aux_concat (pending : nat) (s : string) :
  fst (PyStr.chars_aux pending s) +:+ PyStr.concat (snd (PyStr.chars_aux pending s)) = s.
Proof.
  revert pending. induction s as [|b s IH]; intros pending; [done|].
  cbn [PyStr.chars_aux]. destruct pending as [|k].
  - specialize (IH (PyStr.width b s - 1)%nat).
    destruct (PyStr.chars_aux (PyStr.width b s - 1) s) as [cur rest].
    cbn [fst snd] in *. cbn [PyStr.concat fold_right]. fold (PyStr.concat rest).
    by rewrite append_nil, append_cons, IH.
  - specialize (IH k). destruct (PyStr.chars_aux k s) as [cur rest].
    cbn [fst snd] in *. by rewrite append_cons, IH.
Qed.

(** A string is its characters one after the other. *)
Lemma concat_chars (s : string) : PyStr.concat (PyStr.chars s) = s.
Proof.
  pose proof (chars_aux_concat 0 s) as H. rewrite chars_aux_start in H. exact H.
Qed.

Lemma valid2_high (b0 b1 : ascii) :
  PyStr.valid2 b0 b1 = true ->
  (194 <=? PyStr.code b0)%N = true /\ (128 <=? PyStr.code b1)%N = true.
Proof.
  unfold PyStr.valid2, PyStr.is_continuation, PyStr.between.
  rewrite !andb_true_iff, !N.leb_le. lia.
Qed.

Lemma valid3_high (b0 b1 b2 : ascii) :
  PyStr.valid3 b0 b1 b2 = true ->
  (194 <=? PyStr.code b0)%N = true /\ (128 <=? PyStr.code b1)%N = true
  /\ (128 <=? PyStr.code b2)%N = true.
Proof.
  unfold PyStr.valid3, PyStr.is_continuation, PyStr.between.
  rewrite !andb_true_iff, !orb_true_iff, !andb_true_iff, !N.leb_le, !N.eqb_eq. lia.
Qed.

Lemma valid4_high (b0 b1 b2 b3 : ascii) :
  PyStr.valid4 b0 b1 b2 b3 = true ->
  (194 <=? PyStr.code b0)%N = true /\ (128 <=? PyStr.code b1)%N = true
  /\ (128 <=? PyStr.code b2)%N = true /\ (128 <=? PyStr.code b3)%N = true.
Proof.
  unfold PyStr.valid4, PyStr.is_continuation, PyStr.between.
  rewrite !andb_true_iff, !orb_true_iff, !andb_true_iff, !N.leb_le, !N.eqb_eq. lia.
Qed.

(** The bytes that a character takes after its first one are there, and
    a character of several bytes starts with a leading byte and has no
    ASCII byte. *)
Lemma width_high (b : ascii) (s : string) :
  high_prefix (PyStr.width b s - 1) s = true
  /\ (PyStr.width b s <> 1%nat -> (194 <=? PyStr.code b)%N = true).
Proof.
  unfold PyStr.width.
  destruct s as [|b1 [|b2 [|b3 s]]]; [done| | |].
  - destruct (PyStr.valid2 b b1) eqn:H2; [|done].
    apply valid2_high in H2 as [H0 H1]. cbn. by rewrite H1.
  - destruct (PyStr.valid2 b b1) eqn:H2.
    { apply valid2_high in H2 as [H0 H1]. cbn. by rewrite H1. }
    destruct (PyStr.valid3 b b1 b2) eqn:H3; [|done].
    apply valid3_high in H3 as (H0 & H1 & H2'). cbn. by rewrite H1, H2'.
  - destruct (PyStr.valid2 b b1) eqn:H2.
    { apply valid2_high in H2 as [H0 H1]. cbn. by rewrite H1. }
    destruct (PyStr.valid3 b b1 b2) eqn:H3.
    { apply valid3_high in H3 as (H0 & H1 & H2'). cbn. by rewrite H1, H2'. }
    destruct (PyStr.valid4 b b1 b2 b3) eqn:H4; [|done].
    apply valid4_high in H4 as (H0 & H1 & H2' & H3'). cbn. by rewrite H1, H2', H3'.
Qed.

Lemma chars_aux_shape (pending : nat) (s : string) :
  high_prefix pending s = true ->
  high_bytes (fst (PyStr.chars_aux pending s)) = true
  /\ Forall char_shape (snd (PyStr.chars_aux pending s)).
Proof.
  revert pending. induction s as [|b s IH]; intros pending Hp; [by split|].
  cbn [PyStr.chars_aux]. destruct pending as [|k].
  - destruct (width_high b s) as [Hw Hb].
    specialize (IH _ Hw). pose proof (chars_aux_start s) as Hstart.
    destruct (PyStr.chars_aux (PyStr.width b s - 1) s) as [cur rest] eqn:Haux.
    cbn [fst snd] in *. destruct IH as [Hcur Hrest]. split; [done|].
    constructor; [|done].
    destruct (decide (PyStr.width b s = 1%nat)) as [H1 | H1].
    + left. exists b. rewrite H1 in Haux. cbn [Nat.sub] in Haux.
      rewrite Haux in Hstart. cbn [fst] in Hstart. by rewrite Hstart.
    + right. exists b, cur. by rewrite (Hb H1).
  - cbn [high_prefix] in Hp. apply andb_prop in Hp as [Hb Hk].
    specialize (IH _ Hk). destruct (PyStr.chars_aux k s) as [cur rest].
    cbn [fst snd] in *. destruct IH as [Hcur Hrest]. split; [|done].
    cbn [high_bytes]. by rewrite Hb, Hcur.
Qed.

Lemma chars_shape (s : string) : Forall char_shape (PyStr.chars s).
Proof. by apply (chars_aux_shape 0 s). Qed.

Lemma char_shape_cases (c : string) :
  char_shape c -> (exists b, c = String b EmptyString) \/ high_bytes c = true.
Proof.
  intros [H | (b & rest & -> & Hb%N.leb_le & Hrest)]; [by left|]. right.
  cbn [high_bytes]. rewrite Hrest, andb_true_r. apply N.leb_le. lia.
Qed.

(** The characters after any point are the characters of what follows. *)
Lemma chars_aux_rest (pending : nat) (s : string) :
  PyStr.chars (PyStr.concat (snd (PyStr.chars_aux pending s)))
  = snd (PyStr.chars_aux pending s).
Proof.
  revert pending. induction s as [|b s IH]; intros pending; [done|].
  destruct pending as [|k].
  - pose proof (chars_aux_concat 0 (String b s)) as Hc.
    rewrite chars_aux_start, append_nil in Hc. by rewrite Hc.
  - cbn [PyStr.chars_aux]. specialize (IH k).
    by destruct (PyStr.chars_aux k s).
Qed.

Lemma chars_tail (s c : string) (rest : list string) :
  PyStr.chars s = c :: rest -> PyStr.chars (PyStr.concat rest) = rest.
Proof.
  destruct s as [|b s]; [done|]. unfold PyStr.chars at 1. cbn [PyStr.chars_aux].
  pose proof (chars_aux_rest (PyStr.width b s - 1) s) as H.
  destruct (PyStr.chars_aux (PyStr.width b s - 1) s) as [cur rest'].
  cbn [snd] in *. by intros [= _ <-].
Qed.

Lemma chars_suffix (s : string) (pre l : list string) :
  PyStr.chars s = pre ++ l -> PyStr.chars (PyStr.concat l) = l.
Proof.
  revert s. induction pre as [|c pre IH]; intros s Hs.
  - cbn [app] in Hs. by rewrite <- Hs, concat_chars.
  - apply (IH (PyStr.concat (pre ++ l))). by apply (chars_tail s c).
Qed.

Lemma not_continuation (b : ascii) (first last : N) :
  PyStr.is_continuation b = false -> (128 <= first)%N -> (last <= 191)%N ->
  PyStr.between first last (PyStr.code b) = false.
Proof.
  unfold PyStr.is_continuation, PyStr.between. intros H Hf Hl.
  apply andb_false_iff in H as [H%N.leb_gt | H%N.leb_gt].
  - rewrite (proj2 (N.leb_gt first (PyStr.code b))) by lia. done.
  - rewrite (proj2 (N.leb_gt (PyStr.code b) last)) by lia. apply andb_false_r.
Qed.

Lemma valid2_cont (b0 x : ascii) :
  PyStr.is_continuation x = false -> PyStr.valid2 b0 x = false.
Proof. unfold PyStr.valid2. intros ->. apply andb_false_r. Qed.

Lemma valid3_cont1 (b0 x y : ascii) :
  PyStr.is_continuation x = false -> PyStr.valid3 b0 x y = false.
Proof.
  intros H. unfold PyStr.valid3.
  rewrite !(not_continuation x _ _ H) by lia. rewrite H.
  by rewrite !andb_false_r.
Qed.

Lemma valid3_cont2 (b0 x y : ascii) :
  PyStr.is_continuation y = false -> PyStr.valid3 b0 x y = false.
Proof. unfold PyStr.valid3. intros ->. apply andb_false_r. Qed.

Lemma valid4_cont1 (b0 x y z : ascii) :
  PyStr.is_continuation x = false -> PyStr.valid4 b0 x y z = false.
Proof.
  intros H. unfold PyStr.valid4.
  rewrite !(not_continuation x _ _ H) by lia. rewrite H.
  by rewrite !andb_false_r.
Qed.

Lemma valid4_cont2 (b0 x y z : ascii) :
  PyStr.is_continuation y = false -> PyStr.valid4 b0 x y z = false.
Proof. unfold PyStr.valid4. intros ->. by rewrite andb_false_r. Qed.

Lemma valid4_cont3 (b0 x y z : ascii) :
  PyStr.is_continuation z = false -> PyStr.valid4 b0 x y z = false.
Proof. unfold PyStr.valid4. intros ->. apply andb_false_r. Qed.

(** What follows a character does not change it when it starts with a
    byte that continues no character. *)
Lemma width_app (b0 : ascii) (s t : string) :
  starts_clean t = true -> PyStr.width b0 (s +:+ t) = PyStr.width b0 s.
Proof.
  intros Ht. destruct t as [|x t]; [by rewrite append_empty_r|].
  cbn [starts_clean] in Ht. apply negb_true_iff in Ht.
  unfold PyStr.width.
  destruct s as [|b1 [|b2 [|b3 s]]]; rewrite ?append_cons, ?append_nil.
  - rewrite (valid2_cont _ _ Ht).
    destruct t as [|y [|z t]]; [done|by rewrite (valid3_cont1 _ _ _ Ht)|].
    by rewrite (valid3_cont1 _ _ _ Ht), (valid4_cont1 _ _ _ _ Ht).
  - destruct (PyStr.valid2 b0 b1); [by destruct t|].
    destruct t as [|y t]; [by rewrite (valid3_cont2 _ _ _ Ht)|].
    by rewrite (valid3_cont2 _ _ _ Ht), (valid4_cont2 _ _ _ _ Ht).
  - destruct (PyStr.valid2 b0 b1); [done|].
    destruct (PyStr.valid3 b0 b1 b2); [done|].
    by rewrite (valid4_cont3 _ _ _ _ Ht).
  - done.
Qed.

Lemma high_prefix_app (n : nat) (s t : string) :
  high_prefix n s = true -> high_prefix n (s +:+ t) = true.
Proof.
  revert s. induction n as [|n IH]; intros [|b s]; try done.
  cbn [high_prefix]. rewrite append_cons. cbn [high_prefix].
  intros [-> Hs]%andb_prop. by apply IH.
Qed.

Lemma chars_aux_app (pending : nat) (s t : string) :
  starts_clean t = true -> high_prefix pending s = true ->
  PyStr.chars_aux pending (s +:+ t)
  = (fst (PyStr.chars_aux pending s), snd (PyStr.chars_aux pending s) ++ PyStr.chars t).
Proof.
  intros Ht. revert pending. induction s as [|b s IH]; intros pending Hp.
  - destruct pending; [|done]. rewrite append_nil. unfold PyStr.chars.
    pose proof (chars_aux_start t) as Hstart. cbn [PyStr.chars_aux fst snd app].
    destruct (PyStr.chars_aux 0 t) as [cur rest]. cbn [fst snd] in *. by subst.
  - rewrite append_cons. cbn [PyStr.chars_aux]. destruct pending as [|k].
    + rewrite (width_app _ _ _ Ht), IH by apply width_high.
      by destruct (PyStr.chars_aux (PyStr.width b s - 1) s).
    + cbn [high_prefix] in Hp. apply andb_prop in Hp as [_ Hk].
      rewrite IH by done. by destruct (PyStr.chars_aux k s).
Qed.

Lemma chars_app (s t : string) :
  starts_clean t = true -> PyStr.chars (s +:+ t) = PyStr.chars s ++ PyStr.chars t.
Proof. intros Ht. unfold PyStr.chars at 1. by rewrite chars_aux_app. Qed.

(** The characters before a clean start are the characters of what
    stands before it. *)
Lemma chars_prefix (s : string) (l post : list string) :
  PyStr.chars s = l ++ post -> starts_clean (PyStr.concat post) = true ->
  PyStr.chars (PyStr.concat l) = l.
Proof.
  intros Hs Hpost.
  assert (Hsplit : s = PyStr.concat l +:+ PyStr.concat post)
    by (by rewrite <- concat_app, <- Hs, concat_chars).
  pose proof (chars_suffix s l post Hs) as Hsuffix.
  rewrite Hsplit, (chars_app _ _ Hpost), Hsuffix in Hs.
  by apply app_inv_tail in Hs.
Qed.

End Characters.

(** ** Replacing and counting ASCII characters *)

Section AsciiReplace.
Variables a b : ascii.
Hypothesis a_ascii : (PyStr.code a <? 128)%N = true.
Hypothesis b_ascii : (PyStr.code b <? 128)%N = true.

Lemma replace_between (first last : N) (x : ascii) :
  (128 <= first)%N ->
  PyStr.between first last (PyStr.code (if Ascii.eqb x a then b else x))
  = PyStr.between first last (PyStr.code x).
Proof.
  intros Hf. destruct (Ascii.eqb_spec x a) as [-> | _]; [|done].
  apply N.ltb_lt in a_ascii, b_ascii. unfold PyStr.between.
  rewrite (proj2 (N.leb_gt first (PyStr.code a))) by lia.
  by rewrite (proj2 (N.leb_gt first (PyStr.code b))) by lia.
Qed.

Lemma replace_code_eqb (k : N) (x : ascii) :
  (128 <= k)%N ->
  (PyStr.code (if Ascii.eqb x a then b else x) =? k)%N = (PyStr.code x =? k)%N.
Proof.
  intros Hk. destruct (Ascii.eqb_spec x a) as [-> | _]; [|done].
  apply N.ltb_lt in a_ascii, b_ascii.
  rewrite (proj2 (N.eqb_neq (PyStr.code a) k)) by lia.
  by rewrite (proj2 (N.eqb_neq (PyStr.code b) k)) by lia.
Qed.

Lemma width_replace (x : ascii) (s : string) :
  PyStr.width (if Ascii.eqb x a then b else x) (PyStr.replace a b s) = PyStr.width x s.
Proof.
  unfold PyStr.width.
  destruct s as [|b1 [|b2 [|b3 s]]]; cbn [PyStr.replace]; [done|..];
    unfold PyStr.valid2, PyStr.valid3, PyStr.valid4, PyStr.is_continuation;
    rewrite ?replace_between, ?replace_code_eqb by lia; done.
Qed.

Lemma chars_aux_replace (pending : nat) (s : string) :
  PyStr.chars_aux pending (PyStr.replace a b s)
  = (PyStr.replace a b (fst (PyStr.chars_aux pending s)),
     List.map (PyStr.replace a b) (snd (PyStr.chars_aux pending s))).
Proof.
  revert pending. induction s as [|x s IH]; intros pending; [done|].
  cbn [PyStr.replace PyStr.chars_aux]. destruct pending as [|k].
  - rewrite width_replace, IH.
    by destruct (PyStr.chars_aux (PyStr.width x s - 1) s).
  - rewrite IH. by destruct (PyStr.chars_aux k s).
Qed.

(** Replacing an ASCII character by another replaces it among the
    characters. *)
Lemma chars_replace (s : string) :
  PyStr.chars (PyStr.replace a b s) = List.map (PyStr.replace a b) (PyStr.chars s).
Proof. unfold PyStr.chars. by rewrite chars_aux_replace. Qed.

Lemma len_replace (s : string) : PyStr.len (PyStr.replace a b s) = PyStr.len s.
Proof. unfold PyStr.len. by rewrite chars_replace, length_map. Qed.

Lemma replace_high (c : string) : high_bytes c = true -> PyStr.replace a b c = c.
Proof.
  induction c as [|x c IH]; [done|]. cbn [high_bytes PyStr.replace].
  intros [Hx Hc]%andb_prop. rewrite IH by done.
  destruct (Ascii.eqb_spec x a) as [-> | _]; [|done].
  apply N.leb_le in Hx. apply N.ltb_lt in a_ascii. lia.
Qed.

Lemma count_high (c : string) : high_bytes c = true -> PyStr.count a c = 0%nat.
Proof.
  induction c as [|x c IH]; [done|]. cbn [high_bytes PyStr.count].
  intros [Hx Hc]%andb_prop. rewrite IH by done.
  destruct (Ascii.eqb_spec x a) as [-> | _]; [|done].
  apply N.leb_le in Hx. apply N.ltb_lt in a_ascii. lia.
Qed.

Lemma replace_concat (l : list string) :
  PyStr.replace a b (PyStr.concat l) = PyStr.concat (List.map (PyStr.replace a b) l).
Proof.
  induction l as [|c l IH]; [done|].
  cbn [PyStr.concat fold_right List.map]. fold (PyStr.concat l).
  fold (PyStr.concat (List.map (PyStr.replace a b) l)).
  by rewrite replace_append, IH.
Qed.

Lemma count_concat (l : list string) :
  PyStr.count a (PyStr.concat l) = list_sum (List.map (PyStr.count a) l).
Proof.
  induction l as [|c l IH]; [done|].
  cbn [PyStr.concat fold_right List.map list_sum]. fold (PyStr.concat l).
  by rewrite count_append, IH.
Qed.

(** The class of a character that is not [a] is kept, and so is that of
    [a] when [a] and [b] are in the class or out of it together. *)
Lemma class_replace (class : string -> bool) (c : string) :
  class (String a EmptyString) = class (String b EmptyString) ->
  char_shape c -> class (PyStr.replace a b c) = class c.
Proof.
  intros Hab [[x ->] | Hc]%char_shape_cases; [|by rewrite replace_high].
  cbn [PyStr.replace]. by destruct (Ascii.eqb_spec x a) as [-> | _].
Qed.

Lemma forallb_class_replace (class : string -> bool) (l : list string) :
  class (String a EmptyString) = class (String b EmptyString) ->
  Forall char_shape l ->
  forallb class (List.map (PyStr.replace a b) l) = forallb class l.
Proof.
  intros Hab. induction 1 as [|c l Hc _ IH]; [done|].
  cbn [List.map forallb]. by rewrite class_replace, IH.
Qed.

(** A character of a class that [a] is not in is not [a]. *)
Lemma replace_class (class : string -> bool) (l : list string) :
  class (String a EmptyString) = false ->
  Forall char_shape l -> forallb class l = true ->
  List.map (PyStr.replace a b) l = l /\ list_sum (List.map (PyStr.count a) l) = 0%nat.
Proof.
  intros Ha. induction 1 as [|c l Hc _ IH]; [done|].
  cbn [forallb]. intros [Hcl Hl]%andb_prop.
  destruct (IH Hl) as [Hmap Hsum].
  assert (Hone : PyStr.replace a b c = c /\ PyStr.count a c = 0%nat).
  { apply char_shape_cases in Hc.
    destruct Hc as [[x ->] | Hc]; [|by rewrite replace_high, count_high].
    cbn [PyStr.replace PyStr.count].
    destruct (Ascii.eqb_spec x a) as [-> | _]; [congruence|done]. }
  destruct Hone as [Hr Hc0]. split.
  - cbn [List.map]. by rewrite Hr, Hmap.
  - change (list_sum (List.map (PyStr.count a) (c :: l)))
      with (PyStr.count a c + list_sum (List.map (PyStr.count a) l))%nat.
    by rewrite Hc0, Hsum.
Qed.

End AsciiReplace.

(** ** Tokens of a path *)

Section DateTokens.

Lemma tokens_from_sep (s : list string) :
  List.filter is_token (PyStr.re_split_nondigits_from true s)
  = List.filter is_token (PyStr.re_split_nondigits_from false s).
Proof. destruct s as [|c s]; simpl; [done|]. by destruct (PyStr.is_decimal c). Qed.

Lemma char_tokens_nondigit (c : string) (s : list string) :
  PyStr.is_decimal c = false -> char_tokens (c :: s) = char_tokens s.
Proof.
  intros Hc. unfold char_tokens, PyStr.re_split_nondigits. simpl. rewrite Hc. simpl.
  apply tokens_from_sep.
Qed.

Lemma char_tokens_no_digit (pre s : list string) :
  no_digit pre = true -> char_tokens (pre ++ s) = char_tokens s.
Proof.
  induction pre as [|c pre IH]; [done|]. cbn [no_digit forallb].
  intros [Hc Hpre]%andb_prop. apply negb_true_iff in Hc.
  cbn [app]. rewrite char_tokens_nondigit by done. auto.
Qed.

Lemma re_split_digit_run (d post : list string) (b : bool) :
  all_decimal d = true -> digit_free_start post = true ->
  exists rest, PyStr.re_split_nondigits_from b (d ++ post) = d :: rest
               /\ List.filter is_token rest = char_tokens post.
Proof.
  revert b. induction d as [|c d IH]; intros b Hd Hpost; [done|].
  cbn [all_decimal forallb] in Hd. apply andb_prop in Hd as [Hc Hd].
  cbn [app PyStr.re_split_nondigits_from]. rewrite Hc. destruct d as [|c' d].
  - cbn [app]. destruct post as [|n post].
    + by exists [].
    + cbn [digit_free_start] in Hpost. apply negb_true_iff in Hpost.
      cbn [PyStr.re_split_nondigits_from]. rewrite Hpost.
      exists (PyStr.re_split_nondigits_from true post). split; [done|].
      unfold char_tokens, PyStr.re_split_nondigits.
      cbn [PyStr.re_split_nondigits_from]. by rewrite Hpost.
  - destruct (IH false) as (rest & -> & Hrest); [done..|].
    by exists rest.
Qed.

Lemma char_tokens_digit_run (d post : list string) :
  all_decimal d = true -> digit_free_start post = true ->
  char_tokens (d ++ post) = d :: char_tokens post.
Proof.
  intros Hd Hpost. unfold char_tokens at 1, PyStr.re_split_nondigits.
  destruct (re_split_digit_run d post false Hd Hpost) as (rest & -> & Hrest).
  cbn [List.filter]. destruct d; [done|]. cbn [is_token]. by rewrite Hrest.
Qed.

(** The runs of a text are the tokens the code computes. *)
Lemma digit_runs_tokens (s : list string) (l : list (list string)) :
  digit_runs s l -> l = char_tokens s.
Proof.
  induction 1 as [s Hs | pre d post rest Hpre Hd Hpost _ IH].
  - rewrite <- (app_nil_r s), char_tokens_no_digit by done. done.
  - rewrite char_tokens_no_digit, char_tokens_digit_run by done. by rewrite IH.
Qed.

Lemma digit_prefix (s : list string) :
  exists d post, s = d ++ post /\ forallb PyStr.is_decimal d = true
                 /\ digit_free_start post = true.
Proof.
  induction s as [|c s (d & post & -> & Hd & Hpost)].
  - by exists [], [].
  - destruct (PyStr.is_decimal c) eqn:Hc.
    + exists (c :: d), post. cbn [forallb]. by rewrite Hc.
    + exists [], (c :: d ++ post). cbn [digit_free_start]. by rewrite Hc.
Qed.

Lemma digit_runs_nondigit (c : string) (s : list string) (l : list (list string)) :
  PyStr.is_decimal c = false -> digit_runs s l -> digit_runs (c :: s) l.
Proof.
  intros Hc [s' Hs | pre d post rest Hpre Hd Hpost Hrest].
  - apply runs_none. cbn [no_digit forallb]. by rewrite Hc.
  - change (c :: pre ++ d ++ post) with ((c :: pre) ++ d ++ post).
    apply (runs_next (c :: pre)); [|done..]. cbn [no_digit forallb]. by rewrite Hc.
Qed.

(** The tokens the code computes are runs of the text. *)
Lemma char_tokens_runs (s : list string) : digit_runs s (char_tokens s).
Proof.
  remember (List.length s) as n eqn:Hn.
  revert s Hn. induction (lt_wf n) as [n _ IH]. intros s ->.
  destruct s as [|c s]; [by apply runs_none|].
  destruct (PyStr.is_decimal c) eqn:Hc.
  - destruct (digit_prefix s) as (d & post & -> & Hd & Hpost).
    change (c :: d ++ post) with ((c :: d) ++ post).
    rewrite char_tokens_digit_run; [|by cbn [all_decimal forallb]; rewrite Hc|done].
    apply (runs_next [] (c :: d) post); [done| |done|].
    + cbn [all_decimal forallb]. by rewrite Hc.
    + eapply IH; [|done]. cbn [List.length]. rewrite length_app. lia.
  - rewrite char_tokens_nondigit by done.
    apply digit_runs_nondigit; [done|]. eapply IH; [|done]. cbn [List.length]. lia.
Qed.

End DateTokens.

(** ** The date value of a path (C5) *)

Section DateValue.

Lemma int_of_year_month_day (year : list string) (month day : string) :
  List.length (PyStr.chars month) = 2%nat -> List.length (PyStr.chars day) = 2%nat ->
  PyStr.int_of_chars (year ++ PyStr.chars month ++ PyStr.chars day)
  = PyStr.int_of_chars year * 10000
    + PyStr.int_of_chars (PyStr.chars month) * 100 + PyStr.int_of_chars (PyStr.chars day).
Proof.
  intros Hm Hd. rewrite !int_of_chars_app, length_app, Hm, Hd.
  change (Z.of_nat (2 + 2)) with 4. change (Z.of_nat 2) with 2. lia.
Qed.

Lemma date_value_at_runs (pre following : list (list string)) (year : list string) :
  date_value_at (pre ++ year :: following) (List.length pre) year
  = PyStr.int_of_chars year * 10000
    + fst (month_and_day following) * 100 + snd (month_and_day following).
Proof.
  unfold date_value_at.
  replace ((pre ++ year :: following) !! (List.length pre + 1)%nat)
    with (following !! 0%nat).
  2:{ rewrite lookup_app_r by lia.
      by replace (List.length pre + 1 - List.length pre)%nat with 1%nat by lia. }
  replace ((pre ++ year :: following) !! (List.length pre + 2)%nat)
    with (following !! 1%nat).
  2:{ rewrite lookup_app_r by lia.
      by replace (List.length pre + 2 - List.length pre)%nat with 2%nat by lia. }
  assert (H00 : PyStr.int_of_chars (year ++ PyStr.chars "00" ++ PyStr.chars "00")
                = PyStr.int_of_chars year * 10000 + 0 * 100 + 0)
    by (by rewrite int_of_year_month_day).
  destruct following as [|t1 after_month]; [done|].
  cbn [lookup list_lookup month_and_day]. unfold two_digit_between.
  destruct (List.length t1 =? 2)%nat; [|done]. cbn [andb].
  destruct (1 <=? PyStr.int_of_chars t1) eqn:Hlo; [|done].
  destruct (PyStr.int_of_chars t1 <=? 12) eqn:Hhi; [|done].
  cbn [andb fst snd].
  destruct (fmt02_value (PyStr.int_of_chars t1)) as [Hlm Hvm]; [lia|].
  assert (Hm0 : PyStr.int_of_chars
                  (year ++ PyStr.chars (PyStr.fmt02 (PyStr.int_of_chars t1))
                        ++ PyStr.chars "00")
                = PyStr.int_of_chars year * 10000 + PyStr.int_of_chars t1 * 100 + 0)
    by (by rewrite int_of_year_month_day, Hvm).
  destruct after_month as [|t2 rest]; [done|].
  cbn [lookup list_lookup].
  destruct (List.length t2 =? 2)%nat; [|done]. cbn [andb].
  destruct (1 <=? PyStr.int_of_chars t2) eqn:Hlo2; [|done].
  destruct (PyStr.int_of_chars t2 <=? 31) eqn:Hhi2; [|done].
  cbn [andb default].
  destruct (fmt02_value (PyStr.int_of_chars t2)) as [Hld Hvd]; [lia|].
  by rewrite int_of_year_month_day, Hvm, Hvd.
Qed.

Lemma extract_date_loop_runs (pre suf : list (list string)) :
  extract_date_loop (pre ++ suf) (seq (List.length pre) (List.length suf))
  = date_value_of_runs suf.
Proof.
  revert pre. induction suf as [|t suf IH]; intros pre; [done|].
  cbn [List.length seq extract_date_loop].
  rewrite lookup_app_r by lia. rewrite Nat.sub_diag. cbn [lookup list_lookup].
  unfold date_value_of_runs. cbn [first_year_token].
  destruct (is_year_token t).
  - rewrite date_value_at_runs. by destruct (month_and_day suf).
  - specialize (IH (pre ++ [t])).
    rewrite <- app_assoc, length_app in IH. cbn [List.length app] in IH.
    by rewrite Nat.add_1_r in IH.
Qed.

Lemma extract_date_value_tokens (rel_path : string) :
  _extract_date_value rel_path = date_value_of_runs (date_tokens rel_path).
Proof. apply (extract_date_loop_runs []). Qed.

(** C5. The maximal runs of decimal digits among the characters of a path
    exist, and [_extract_date_value] is what the specification reads
    from them: the first run of four digits starting with 19 or 20 is
    the year, the next run is the month when it has two digits and lies
    in 1..12, the run after a month is the day when it has two digits
    and lies in 1..31, a component that is not read counts as 00, the
    result is [(true, YYYYMMDD)], and [(false, 0)] when there is no
    year. *)
Theorem extract_date_value_spec (rel_path : string) :
  (exists runs, digit_runs (PyStr.chars rel_path) runs)
  /\ (forall runs, digit_runs (PyStr.chars rel_path) runs ->
        _extract_date_value rel_path = date_value_of_runs runs).
Proof.
  split.
  - exists (date_tokens rel_path). apply char_tokens_runs.
  - intros runs ->%digit_runs_tokens. apply extract_date_value_tokens.
Qed.

Lemma extract_date_value_spec_witness :
  digit_runs (PyStr.chars "2022-05-01/a.jpg")
             (List.map PyStr.chars ["2022"; "05"; "01"]%string)
  /\ _extract_date_value "2022-05-01/a.jpg" = (true, 20220501).
Proof.
  assert (H : digit_runs (PyStr.chars "2022-05-01/a.jpg")
                         (List.map PyStr.chars ["2022"; "05"; "01"]%string)).
  { vm_compute.
    apply (runs_next [] ["2"; "0"; "2"; "2"]%string
             ["-"; "0"; "5"; "-"; "0"; "1"; "/"; "a"; "."; "j"; "p"; "g"]%string);
      [done..|].
    apply (runs_next ["-"%string] ["0"; "5"]%string
             ["-"; "0"; "1"; "/"; "a"; "."; "j"; "p"; "g"]%string); [done..|].
    apply (runs_next ["-"%string] ["0"; "1"]%string
             ["/"; "a"; "."; "j"; "p"; "g"]%string); [done..|].
    by apply runs_none. }
  split; [exact H|].
  exact (proj2 (extract_date_value_spec "2022-05-01/a.jpg") _ H).
Defined.

(** The digits are those of [\D] and [int], beyond ASCII. *)
Example extract_date_value_beyond_ascii :
  _extract_date_value "20٢٣/a.jpg" = (true, 20230000)
  /\ _extract_date_value "2022年０５月/a.jpg" = (true, 20220500).
Proof. by vm_compute. Qed.

End DateValue.

(** ** The date hint of a path (C6) *)

Section DateHint.

Lemma dash_ascii : (PyStr.code "-" <? 128)%N = true.
Proof. reflexivity. Qed.

Lemma underscore_ascii : (PyStr.code "_" <? 128)%N = true.
Proof. reflexivity. Qed.

Lemma separators_no_digits :
  PyStr.is_digit "-" = false /\ PyStr.is_digit "_" = false.
Proof. by vm_compute. Qed.

Lemma isdigit_chars_map (f : string -> string) (l : list string) :
  forallb PyStr.is_digit (List.map f l) = forallb PyStr.is_digit l ->
  PyStr.isdigit_chars (List.map f l) = PyStr.isdigit_chars l.
Proof. by destruct l. Qed.

Lemma isdigit_replace_dash (s : string) :
  PyStr.isdigit (PyStr.replace "-" "_" s) = PyStr.isdigit s.
Proof.
  unfold PyStr.isdigit.
  rewrite (chars_replace _ _ dash_ascii underscore_ascii).
  apply isdigit_chars_map, forallb_class_replace; [apply dash_ascii| |apply chars_shape].
  by destruct separators_no_digits as [-> ->].
Qed.

Lemma prefix_isdigit_replace_dash (s : string) :
  PyStr.prefix_isdigit 4 (PyStr.replace "-" "_" s) = PyStr.prefix_isdigit 4 s.
Proof.
  unfold PyStr.prefix_isdigit.
  rewrite (chars_replace _ _ dash_ascii underscore_ascii), firstn_map.
  apply isdigit_chars_map, forallb_class_replace; [apply dash_ascii| |].
  - by destruct separators_no_digits as [-> ->].
  - apply Forall_take, chars_shape.
Qed.

Lemma isdigit_forallb (s : string) :
  PyStr.isdigit s = true -> forallb PyStr.is_digit (PyStr.chars s) = true.
Proof. unfold PyStr.isdigit. by destruct (PyStr.chars s). Qed.

(** A string of digits holds no ASCII character that is no digit. *)
Lemma replace_digits (a b : ascii) (s : string) :
  (PyStr.code a <? 128)%N = true -> PyStr.is_digit (String a EmptyString) = false ->
  PyStr.isdigit s = true -> PyStr.replace a b s = s.
Proof.
  intros Ha Hd Hs%isdigit_forallb.
  destruct (replace_class a b Ha PyStr.is_digit (PyStr.chars s) Hd (chars_shape s) Hs)
    as [Hmap _].
  rewrite <- (concat_chars s) at 1. by rewrite replace_concat, Hmap, concat_chars.
Qed.

Lemma count_digits (a : ascii) (s : string) :
  (PyStr.code a <? 128)%N = true -> PyStr.is_digit (String a EmptyString) = false ->
  PyStr.isdigit s = true -> PyStr.count a s = 0%nat.
Proof.
  intros Ha Hd Hs%isdigit_forallb.
  destruct (replace_class a a Ha PyStr.is_digit (PyStr.chars s) Hd (chars_shape s) Hs)
    as [_ Hsum].
  by rewrite <- (concat_chars s), count_concat.
Qed.

Lemma replace_back (s : string) :
  PyStr.replace "_" "-" (PyStr.replace "-" "_" s) = PyStr.replace "_" "-" s.
Proof.
  induction s as [|c s IH]; [done|]. simpl. rewrite IH. f_equal.
  destruct (Ascii.eqb c "-") eqn:E1; [|done].
  apply Ascii.eqb_eq in E1. by subst.
Qed.

Lemma count_dash_normalized (s : string) :
  PyStr.count "-" (PyStr.replace "_" "-" s) = separators s.
Proof.
  unfold separators. induction s as [|c s IH]; [done|]. simpl. rewrite IH.
  destruct (Ascii.eqb c "_") eqn:E1.
  - apply Ascii.eqb_eq in E1. subst. simpl. lia.
  - destruct (Ascii.eqb c "-"); simpl; lia.
Qed.

(** One turn of the loop, in the words of [qualifies]. *)
Lemma hint_of_part_qualifies (part : string) :
  hint_of_part part
  = if qualifies part then Some (normalize_separators part) else None.
Proof.
  unfold hint_of_part, qualifies, bare_year, long_token, normalize_separators.
  rewrite (len_replace _ _ dash_ascii underscore_ascii), isdigit_replace_dash,
    prefix_isdigit_replace_dash.
  rewrite replace_back, count_dash_normalized.
  destruct ((PyStr.len part =? 4)%nat && PyStr.isdigit part) eqn:Hy.
  - apply andb_prop in Hy as [_ Hd].
    cbn [orb]. destruct separators_no_digits as [Hdash Hunder].
    by rewrite !replace_digits.
  - cbn [orb].
    by destruct ((8 <=? PyStr.len part)%nat && PyStr.prefix_isdigit 4 part),
      (2 <=? separators part)%nat.
Qed.

Lemma guess_date_hint_loop_find (l : list string) :
  guess_date_hint_loop l = option_map normalize_separators (List.find qualifies l).
Proof.
  induction l as [|part l IH]; [done|]. simpl.
  rewrite hint_of_part_qualifies. by destruct (qualifies part).
Qed.

(** What the loop returns has four characters, or two dashes at least. *)
Lemma guess_date_hint_shape (p hint : string) :
  guess_date_hint p = Some hint ->
  PyStr.len hint = 4%nat \/ (2 <= PyStr.count "-" hint)%nat.
Proof.
  unfold guess_date_hint. rewrite guess_date_hint_loop_find.
  destruct (List.find qualifies _) as [seg|] eqn:Hfind; [|done].
  intros [= <-]. apply find_some in Hfind as [_ Hq].
  unfold qualifies, bare_year in Hq. unfold normalize_separators.
  rewrite (len_replace _ _ underscore_ascii dash_ascii), count_dash_normalized.
  apply orb_prop in Hq as [[H4 _]%andb_prop | [_ H2]%andb_prop].
  - left. by apply Nat.eqb_eq.
  - right. by apply Nat.leb_le.
Qed.

(** A segment of eight digits or more is never the hint. *)
Lemma guess_date_hint_not_digits (p seg : string) :
  PyStr.isdigit seg = true -> (8 <= PyStr.len seg)%nat ->
  guess_date_hint p <> Some seg.
Proof.
  intros Hd Hlen Hg. apply guess_date_hint_shape in Hg as [H4 | H2]; [lia|].
  destruct separators_no_digits as [Hdash _].
  rewrite count_digits in H2; [lia|apply dash_ascii|done..].
Qed.

(** C6, as stated, fails: the leaf-most segment that qualifies in
    ["20220501/a.jpg"] is ["20220501"], and [guess_date_hint] returns
    nothing; and on no path is a segment of eight or more contiguous
    digits returned. *)
Lemma guess_date_hint_as_stated_fails :
  (first_hint qualifies_as_stated "20220501/a.jpg" = Some "20220501"%string
   /\ guess_date_hint "20220501/a.jpg" = None)
  /\ ~ (exists p seg,
          List.find qualifies_as_stated (rev (parts p)) = Some seg
          /\ PyStr.isdigit seg = true /\ (8 <= PyStr.len seg)%nat
          /\ guess_date_hint p = Some seg).
Proof.
  split; [by vm_compute|].
  intros (p & seg & _ & Hd & Hlen & Hg).
  by apply (guess_date_hint_not_digits p seg).
Qed.

(** C6, amended. [guess_date_hint] returns the first segment, from the
    leaf, that is a bare four-digit year or has eight characters or more,
    four leading digits and two separators ([-] or [_]) at least, with
    [_] turned into [-]; it returns nothing exactly when no segment
    qualifies in this sense; eight contiguous digits do not qualify.
    Characters are counted and digits are told as [len] and
    [str.isdigit] do. *)
Theorem guess_date_hint_spec (relative_path : string) :
  guess_date_hint relative_path = first_hint qualifies relative_path
  /\ (guess_date_hint relative_path = None
      <-> forall segment, In segment (parts relative_path) -> qualifies segment = false)
  /\ qualifies "20220501" = false.
Proof.
  split; [apply guess_date_hint_loop_find|]. split; [|by vm_compute].
  unfold guess_date_hint. rewrite guess_date_hint_loop_find. split.
  - intros Hnone segment Hin.
    destruct (List.find qualifies (rev (parts relative_path))) eqn:Hfind; [done|].
    destruct (qualifies segment) eqn:Hq; [|done].
    eapply find_none in Hfind; [|by apply in_rev in Hin; rewrite ?rev_involutive in Hin].
    congruence.
  - intros Hall.
    destruct (List.find qualifies (rev (parts relative_path))) as [seg|] eqn:Hfind; [|done].
    apply find_some in Hfind as [Hin Hq].
    apply in_rev in Hin. rewrite (Hall seg Hin) in Hq. done.
Qed.

Lemma guess_date_hint_spec_witness :
  guess_date_hint "misc/c.jpg" = None.
Proof.
  apply (proj2 (proj1 (proj2 (guess_date_hint_spec "misc/c.jpg")))).
  intros segment [<- | [<- | []]]; by vm_compute.
Defined.

(** A year in the digits of another script is a bare year, and a segment
    is measured in characters: ["2022-é-"] has seven. *)
Example guess_date_hint_beyond_ascii :
  guess_date_hint "٢٠٢٢/a.jpg" = Some "٢٠٢٢"%string
  /\ guess_date_hint "2022-é-/x.jpg" = None
  /\ guess_date_hint "2022-é-x-/x.jpg" = Some "2022-é-x-"%string.
Proof. by vm_compute. Qed.

End DateHint.

(** ** Stable sorting *)

Section SortingFacts.
Context {A : Type} (before : A -> A -> bool).

Lemma insert_sorted_perm (x : A) (l : list A) :
  Permutation (insert_sorted before x l) (x :: l).
Proof.
  induction l as [|y l IH]; [done|]. simpl.
  destruct (before y x); [|done].
  rewrite IH. apply perm_swap.
Qed.

Lemma py_sort_perm (l : list A) : Permutation (py_sort before l) l.
Proof.
  induction l as [|x l IH]; [done|]. simpl.
  rewrite insert_sorted_perm. by constructor.
Qed.

Hypothesis before_asym : forall x y, before x y = true -> before y x = false.
Hypothesis precede_trans :
  forall x y z, may_precede before x y -> may_precede before y z ->
                may_precede before x z.

Lemma insert_sorted_sorted (x : A) (l : list A) :
  StronglySorted (may_precede before) l ->
  StronglySorted (may_precede before) (insert_sorted before x l).
Proof.
  induction 1 as [|y l Hl IH Hy]; simpl.
  - repeat constructor.
  - destruct (before y x) eqn:Hyx.
    + constructor; [done|].
      eapply Permutation_Forall; [symmetry; apply insert_sorted_perm|].
      constructor; [|done]. by apply before_asym.
    + constructor; [by constructor|].
      constructor; [done|].
      eapply Forall_impl; [exact Hy|]. intros z Hz.
      by apply (precede_trans x y z).
Qed.

Lemma py_sort_sorted (l : list A) : StronglySorted (may_precede before) (py_sort before l).
Proof.
  induction l as [|x l IH]; simpl; [constructor|].
  by apply insert_sorted_sorted.
Qed.
End SortingFacts.

Lemma sortedb_strongly {A} (le : A -> A -> bool) (l : list A) :
  StronglySorted (fun x y => le x y = true) l -> sortedb le l = true.
Proof.
  induction 1 as [|x l _ IH Hx]; [done|]. simpl.
  rewrite IH, andb_true_r. apply forallb_forall.
  intros y Hy. by eapply List.Forall_forall in Hx.
Qed.

Lemma strongly_sorted_map {A B} (f : A -> B) (R : A -> A -> Prop)
    (R' : B -> B -> Prop) (l : list A) :
  (forall x y, In x l -> In y l -> R x y -> R' (f x) (f y)) ->
  StronglySorted R l -> StronglySorted R' (List.map f l).
Proof.
  intros Hf Hl. induction Hl as [|x l Hl IH Hx]; [constructor|].
  simpl. constructor.
  - apply IH. intros a b Ha Hb. apply Hf; by right.
  - apply List.Forall_forall. intros y (a & <- & Ha)%in_map_iff.
    apply Hf; [by left | by right |]. by eapply List.Forall_forall in Hx.
Qed.

(** ** The order of Python on strings *)

Section StringOrder.

Lemma codes_lt_asym (a b : list N) :
  PyStr.codes_lt a b = true -> PyStr.codes_lt b a = false.
Proof.
  revert b. induction a as [|x a IH]; intros [|y b]; try done.
  cbn [PyStr.codes_lt].
  destruct (N.ltb_spec x y), (N.ltb_spec y x), (N.eqb_spec x y), (N.eqb_spec y x);
    cbn [orb andb]; try done; try lia. apply IH.
Qed.

Lemma codes_lt_trans (a b c : list N) :
  PyStr.codes_lt a b = true -> PyStr.codes_lt b c = true -> PyStr.codes_lt a c = true.
Proof.
  revert b c. induction a as [|x a IH]; intros [|y b] [|z c]; try done.
  cbn [PyStr.codes_lt].
  destruct (N.ltb_spec x y), (N.ltb_spec y z), (N.ltb_spec x z),
    (N.eqb_spec x y), (N.eqb_spec y z), (N.eqb_spec x z);
    cbn [orb andb]; try done; try lia. apply IH.
Qed.

Lemma codes_not_lt_eq (a b : list N) :
  PyStr.codes_lt a b = false -> PyStr.codes_lt b a = false -> a = b.
Proof.
  revert b. induction a as [|x a IH]; intros [|y b]; try done.
  cbn [PyStr.codes_lt].
  destruct (N.ltb_spec x y), (N.ltb_spec y x), (N.eqb_spec x y), (N.eqb_spec y x);
    cbn [orb andb]; try done; try lia.
  intros Hab Hba. subst. f_equal. by apply IH.
Qed.

Lemma str_lt_asym (a b : string) : PyStr.lt a b = true -> PyStr.lt b a = false.
Proof. apply codes_lt_asym. Qed.

Lemma str_lt_irrefl (a : string) : PyStr.lt a a = false.
Proof.
  destruct (PyStr.lt a a) eqn:H; [|done]. by rewrite (str_lt_asym a a H) in H.
Qed.

Lemma str_lt_trans (a b c : string) :
  PyStr.lt a b = true -> PyStr.lt b c = true -> PyStr.lt a c = true.
Proof. apply codes_lt_trans. Qed.

(** [a <= b] and [b <= c] give [a <= c], [x <= y] read as [not (y < x)]. *)
Lemma str_le_trans (a b c : string) :
  PyStr.lt b a = false -> PyStr.lt c b = false -> PyStr.lt c a = false.
Proof.
  unfold PyStr.lt. intros Hba Hcb.
  destruct (PyStr.codes_lt (PyStr.codes c) (PyStr.codes a)) eqn:Hca; [|done].
  destruct (PyStr.codes_lt (PyStr.codes a) (PyStr.codes b)) eqn:Hab.
  - by rewrite (codes_lt_trans _ _ _ Hca Hab) in Hcb.
  - pose proof (codes_not_lt_eq _ _ Hab Hba) as Heq. rewrite Heq in Hca. congruence.
Qed.

Lemma le_not_lt (a b : string) : PyStr.le a b = negb (PyStr.lt b a).
Proof. done. Qed.

Lemma lower_before_asym (a b : string) :
  lower_before a b = true -> lower_before b a = false.
Proof. apply str_lt_asym. Qed.

Lemma lower_precede_trans (a b c : string) :
  may_precede lower_before a b -> may_precede lower_before b c ->
  may_precede lower_before a c.
Proof. apply str_le_trans. Qed.

Lemma dated_before_asym (a b : Z * string) :
  dated_before a b = true -> dated_before b a = false.
Proof.
  unfold dated_before.
  destruct (Z.ltb_spec (fst a) (fst b)), (Z.ltb_spec (fst b) (fst a)),
    (Z.eqb_spec (fst a) (fst b)), (Z.eqb_spec (fst b) (fst a));
    simpl; try done; try lia.
  apply str_lt_asym.
Qed.

Lemma dated_precede_trans (a b c : Z * string) :
  may_precede dated_before a b -> may_precede dated_before b c ->
  may_precede dated_before a c.
Proof.
  unfold may_precede, dated_before.
  destruct (Z.ltb_spec (fst a) (fst b)), (Z.ltb_spec (fst b) (fst a)),
    (Z.ltb_spec (fst b) (fst c)), (Z.ltb_spec (fst c) (fst b)),
    (Z.ltb_spec (fst a) (fst c)), (Z.ltb_spec (fst c) (fst a)),
    (Z.eqb_spec (fst a) (fst b)), (Z.eqb_spec (fst b) (fst a)),
    (Z.eqb_spec (fst c) (fst b)), (Z.eqb_spec (fst c) (fst a));
    simpl; try done; try lia.
  apply str_le_trans.
Qed.

Lemma key_lt_asym (a b : Z * Z * string) :
  key_lt a b = true -> key_lt b a = false.
Proof.
  destruct a as [[a1 a2] a3], b as [[b1 b2] b3]. unfold key_lt.
  destruct (Z.ltb_spec a1 b1), (Z.ltb_spec b1 a1),
    (Z.eqb_spec a1 b1), (Z.eqb_spec b1 a1),
    (Z.ltb_spec a2 b2), (Z.ltb_spec b2 a2),
    (Z.eqb_spec a2 b2), (Z.eqb_spec b2 a2);
    simpl; try done; try lia.
  apply str_lt_asym.
Qed.

Lemma key_le_trans (a b c : Z * Z * string) :
  key_lt b a = false -> key_lt c b = false -> key_lt c a = false.
Proof.
  destruct a as [[a1 a2] a3], b as [[b1 b2] b3], c as [[c1 c2] c3].
  unfold key_lt.
  destruct (Z.ltb_spec b1 a1), (Z.ltb_spec c1 b1), (Z.ltb_spec c1 a1),
    (Z.eqb_spec b1 a1), (Z.eqb_spec c1 b1), (Z.eqb_spec c1 a1);
    simpl; try done; try lia;
  destruct (Z.ltb_spec b2 a2), (Z.ltb_spec c2 b2), (Z.ltb_spec c2 a2),
    (Z.eqb_spec b2 a2), (Z.eqb_spec c2 b2), (Z.eqb_spec c2 a2);
    simpl; try done; try lia.
  apply str_le_trans.
Qed.

(** The orders of the statements are those of the sort keys of the code. *)
Lemma lower_le_code (a b : string) : lower_le a b = negb (lower_before b a).
Proof. unfold lower_le, lower_before. apply le_not_lt. Qed.

Lemma date_lower_le_code (a b : string) :
  date_lower_le a b = negb (dated_before (date_of b, b) (date_of a, a)).
Proof.
  unfold date_lower_le, dated_before. cbn [fst snd]. rewrite le_not_lt.
  destruct (Z.ltb_spec (date_of a) (date_of b)), (Z.ltb_spec (date_of b) (date_of a)),
    (Z.eqb_spec (date_of a) (date_of b)), (Z.eqb_spec (date_of b) (date_of a));
    simpl; try done; lia.
Qed.

Lemma member_ge_code (a b : image_item) :
  member_ge a b = negb (key_lt (item_key a) (item_key b)).
Proof.
  unfold member_ge, item_key, key_lt. cbn zeta. rewrite le_not_lt.
  destruct (item_hasDate a), (item_hasDate b); cbn [Z.ltb Z.eqb Z.compare orb andb];
    try done;
    destruct (Z.ltb_spec (item_dateValue a) (item_dateValue b)),
      (Z.ltb_spec (item_dateValue b) (item_dateValue a)),
      (Z.eqb_spec (item_dateValue a) (item_dateValue b));
    simpl; try done; lia.
Qed.

End StringOrder.

(** ** The sorted image paths (C1) *)

Section SortedPaths.

Lemma split_dated_filter (scan : list string) :
  split_dated scan
  = (List.map (fun p => (date_of p, p)) (List.filter has_date scan),
     List.filter (fun p => negb (has_date p)) scan).
Proof.
  induction scan as [|p scan IH]; [done|].
  cbn [split_dated List.filter]. rewrite IH. unfold has_date, date_of.
  destruct (_extract_date_value p) as [[] v] eqn:E;
    cbn [fst snd negb List.map]; by rewrite ?E.
Qed.

Lemma split_has_date_filter (paths : list string) :
  split_has_date paths
  = (List.filter has_date paths, List.filter (fun p => negb (has_date p)) paths).
Proof.
  induction paths as [|p paths IH]; [done|].
  cbn [split_has_date List.filter]. rewrite IH. unfold has_date.
  by destruct (fst (_extract_date_value p)).
Qed.

Lemma filter_all {A} (f : A -> bool) (l : list A) :
  Forall (fun x => f x = true) l -> List.filter f l = l.
Proof. induction 1 as [|x l Hx _ IH]; [done|]. simpl. by rewrite Hx, IH. Qed.

Lemma filter_none {A} (f : A -> bool) (l : list A) :
  Forall (fun x => f x = false) l -> List.filter f l = [].
Proof. induction 1 as [|x l Hx _ IH]; [done|]. simpl. by rewrite Hx, IH. Qed.

Lemma filter_partition_perm {A} (f : A -> bool) (l : list A) :
  Permutation (List.filter f l ++ List.filter (fun x => negb (f x)) l) l.
Proof.
  induction l as [|x l IH]; [done|]. simpl. destruct (f x); simpl.
  - by constructor.
  - rewrite <- Permutation_middle. by constructor.
Qed.

Lemma forall_filter {A} (f : A -> bool) (l : list A) :
  Forall (fun x => f x = true) (List.filter f l).
Proof.
  apply List.Forall_forall. intros x Hx. by apply filter_In in Hx as [_ Hx].
Qed.

Lemma strongly_sorted_impl {A} (R R' : A -> A -> Prop) (l : list A) :
  (forall x y, R x y -> R' x y) -> StronglySorted R l -> StronglySorted R' l.
Proof.
  intros HR. induction 1 as [|x l _ IH Hx]; constructor; [done|].
  eapply Forall_impl; [exact Hx|]. auto.
Qed.

(** The two blocks of the list a scan leaves in the cache. *)
Lemma build_sorted_paths_blocks (scan : list string) :
  exists dated undated,
    build_sorted_paths scan = dated ++ undated
    /\ Forall (fun p => has_date p = true) dated
    /\ Forall (fun p => has_date p = false) undated
    /\ sortedb date_lower_le dated = true
    /\ sortedb lower_le undated = true
    /\ Permutation (dated ++ undated) scan.
Proof.
  unfold build_sorted_paths. rewrite split_dated_filter.
  set (D := List.map (fun p => (date_of p, p)) (List.filter has_date scan)).
  set (U := List.filter (fun p => negb (has_date p)) scan).
  exists (List.map snd (py_sort dated_before D)), (py_sort lower_before U).
  assert (HD : Forall (fun x => x = (date_of (snd x), snd x) /\ has_date (snd x) = true)
                      (py_sort dated_before D)).
  { eapply Permutation_Forall; [symmetry; apply py_sort_perm|].
    apply List.Forall_forall. intros x (p & <- & Hp)%in_map_iff.
    by apply filter_In in Hp as [_ Hp]. }
  split; [done|]. split; [|split; [|split; [|split]]].
  - apply List.Forall_forall. intros p (x & <- & Hx)%in_map_iff.
    eapply List.Forall_forall in HD; [|done]. by destruct HD.
  - eapply Permutation_Forall; [symmetry; apply py_sort_perm|].
    apply List.Forall_forall. intros p Hp.
    apply filter_In in Hp as [_ Hp]. by apply negb_true_iff.
  - apply sortedb_strongly.
    eapply strongly_sorted_map;
      [|apply py_sort_sorted; [apply dated_before_asym | apply dated_precede_trans]].
    intros x y Hx Hy Hxy.
    eapply List.Forall_forall in Hx; [|exact HD].
    eapply List.Forall_forall in Hy; [|exact HD].
    destruct Hx as [Hx _], Hy as [Hy _]. rewrite date_lower_le_code.
    rewrite <- Hx, <- Hy. unfold may_precede in Hxy. by rewrite Hxy.
  - apply sortedb_strongly.
    eapply strongly_sorted_impl;
      [|apply py_sort_sorted; [apply lower_before_asym | apply lower_precede_trans]].
    intros x y Hxy. rewrite lower_le_code. unfold may_precede in Hxy. by rewrite Hxy.
  - rewrite (Permutation_map snd (py_sort_perm dated_before D)).
    rewrite (py_sort_perm lower_before U). subst D U.
    rewrite List.map_map. simpl. rewrite List.map_id.
    apply filter_partition_perm.
Qed.

Lemma order_paths_blocks (dated undated : list string) (order : string) :
  Forall (fun p => has_date p = true) dated ->
  Forall (fun p => has_date p = false) undated ->
  order_paths (dated ++ undated) order
  = if String.eqb order "asc" then dated ++ undated else rev dated ++ undated.
Proof.
  intros Hd Hu. unfold order_paths. destruct (String.eqb order "asc"); [done|].
  rewrite split_has_date_filter, !List.filter_app.
  rewrite (filter_all has_date dated Hd), (filter_none has_date undated Hu).
  rewrite (filter_none (fun p => negb (has_date p)) dated),
    (filter_all (fun p => negb (has_date p)) undated).
  - by rewrite app_nil_r.
  - eapply Forall_impl; [exact Hu|]. by intros p ->.
  - eapply Forall_impl; [exact Hd|]. by intros p ->.
Qed.

Lemma sorted_image_paths_snapshot (w : world) (root order : string) (c : cache) :
  fst (sorted_image_paths w root order c)
  = order_paths (snapshot_paths w root c) order.
Proof.
  unfold sorted_image_paths, snapshot_paths.
  by destruct (paths_cache_fresh w root c).
Qed.

Lemma reversed_blocks_differ (dated undated : list string) :
  Forall (fun p => has_date p = true) dated ->
  Forall (fun p => has_date p = false) undated ->
  dated <> [] -> undated <> [] ->
  rev dated ++ undated <> rev (dated ++ undated).
Proof.
  intros Hd Hu Hdn Hun Heq. rewrite rev_app_distr in Heq.
  destruct (rev dated) as [|x rd] eqn:Erd.
  { apply Hdn. by rewrite <- (rev_involutive dated), Erd. }
  destruct (rev undated) as [|y ru] eqn:Eru.
  { apply Hun. by rewrite <- (rev_involutive undated), Eru. }
  injection Heq as -> _.
  assert (Hy1 : In y dated) by (apply in_rev; rewrite Erd; by left).
  assert (Hy2 : In y undated) by (apply in_rev; rewrite Eru; by left).
  eapply List.Forall_forall in Hy1; [|exact Hd].
  eapply List.Forall_forall in Hy2; [|exact Hu].
  simpl in *. congruence.
Qed.

(** C1, as stated, fails: with ["2022/B.jpg"] and ["2022/a.jpg"] under one
    date value the ascending list has ["2022/a.jpg"] first, though
    ["2022/B.jpg"] is the smaller path. *)
Lemma sorted_image_paths_as_stated_fails :
  let asc := fst (sorted_image_paths mixed_case_world "/pictures" "asc" initial_cache) in
  asc = ["2022/a.jpg"; "2022/B.jpg"; "misc/c.jpg"]%string
  /\ List.filter has_date asc = ["2022/a.jpg"; "2022/B.jpg"]%string
  /\ sortedb date_path_le (List.filter has_date asc) = false.
Proof. by vm_compute. Qed.

(** C1, amended. The list [sorted_image_paths] works from is that of a
    scan (the scan of the call itself unless the cache is fresh). In it
    all dated images come first, ordered by date value and then by
    lower-cased path, ascending, followed by all undated images ordered
    by lower-cased path, ascending. ["asc"] returns this list; ["desc"]
    returns the dated block reversed followed by the same undated block;
    so the two results are not the reverse of one another when both
    blocks are non-empty. *)
Theorem sorted_image_paths_blocks (w : world) (root : string) (c : cache) :
  cache_built c ->
  exists scan dated undated,
    (paths_cache_fresh w root c = false -> scan = scan_paths (tree w))
    /\ Permutation (dated ++ undated) scan
    /\ Forall (fun p => has_date p = true) dated
    /\ Forall (fun p => has_date p = false) undated
    /\ sortedb date_lower_le dated = true
    /\ sortedb lower_le undated = true
    /\ fst (sorted_image_paths w root "asc" c) = dated ++ undated
    /\ fst (sorted_image_paths w root "desc" c) = rev dated ++ undated
    /\ (dated <> [] -> undated <> [] ->
        fst (sorted_image_paths w root "desc" c)
        <> rev (fst (sorted_image_paths w root "asc" c))).
Proof.
  intros [[cached Hcached] _].
  set (scan := if paths_cache_fresh w root c then cached else scan_paths (tree w)).
  assert (Hsnap : snapshot_paths w root c = build_sorted_paths scan).
  { unfold snapshot_paths, scan. by destruct (paths_cache_fresh w root c). }
  destruct (build_sorted_paths_blocks scan)
    as (dated & undated & Hb & Hd & Hu & Hsd & Hsu & Hperm).
  exists scan, dated, undated.
  rewrite !sorted_image_paths_snapshot, Hsnap, Hb.
  rewrite !order_paths_blocks by done. cbn [String.eqb Ascii.eqb].
  split; [by intros Hf; unfold scan; rewrite Hf|].
  repeat (split; [done|]).
  by apply reversed_blocks_differ.
Qed.

Lemma sorted_image_paths_blocks_witness :
  exists scan dated undated,
    (paths_cache_fresh example_world "/pictures" initial_cache = false ->
     scan = scan_paths (tree example_world))
    /\ Permutation (dated ++ undated) scan
    /\ Forall (fun p => has_date p = true) dated
    /\ Forall (fun p => has_date p = false) undated
    /\ sortedb date_lower_le dated = true
    /\ sortedb lower_le undated = true
    /\ fst (sorted_image_paths example_world "/pictures" "asc" initial_cache)
       = dated ++ undated
    /\ fst (sorted_image_paths example_world "/pictures" "desc" initial_cache)
       = rev dated ++ undated
    /\ (dated <> [] -> undated <> [] ->
        fst (sorted_image_paths example_world "/pictures" "desc" initial_cache)
        <> rev (fst (sorted_image_paths example_world "/pictures" "asc" initial_cache))).
Proof.
  apply (sorted_image_paths_blocks example_world "/pictures" initial_cache).
  split; [by exists [] | by intros h [=]].
Defined.

(** The example of the specification. *)
Example sorted_image_paths_example :
  fst (sorted_image_paths example_world "/pictures" "desc" initial_cache)
  = ["2022-05-02/b.jpg"; "2022-05-01/a.jpg"; "misc/c.jpg"]%string
  /\ fst (sorted_image_paths example_world "/pictures" "asc" initial_cache)
     = ["2022-05-01/a.jpg"; "2022-05-02/b.jpg"; "misc/c.jpg"]%string.
Proof. by vm_compute. Qed.

(** The paths are lower-cased as [str.lower] does it, beyond ASCII:
    ["É.jpg"] is compared as ["é.jpg"] and goes after ["á.jpg"]. *)
Example sorted_paths_beyond_ascii :
  PyStr.lower "É.jpg" = "é.jpg"%string
  /\ PyStr.lower "ΌΣΟΣ" = "όσος"%string
  /\ build_sorted_paths ["É.jpg"; "á.jpg"] = ["á.jpg"; "É.jpg"]%string.
Proof. by vm_compute. Qed.

End SortedPaths.

(** ** The member lists of the hierarchy (C2, C10) *)

Section Hierarchy.

Lemma item_before_asym (a b : image_item) :
  item_before a b = true -> item_before b a = false.
Proof. apply key_lt_asym. Qed.

Lemma item_precede_trans (a b c : image_item) :
  may_precede item_before a b -> may_precede item_before b c ->
  may_precede item_before a c.
Proof.
  unfold may_precede, item_before. intros Hab Hbc.
  by apply (key_le_trans (item_key c) (item_key b) (item_key a)).
Qed.

Lemma sortedb_lookup {A} (le : A -> A -> bool) (l : list A) (i j : nat) (a b : A) :
  sortedb le l = true -> (i < j)%nat -> l !! i = Some a -> l !! j = Some b ->
  le a b = true.
Proof.
  revert i j. induction l as [|x l IH]; intros i j Hs Hij Hi Hj; [done|].
  simpl in Hs. apply andb_prop in Hs as [Hx Hl].
  destruct j as [|j]; [lia|]. destruct i as [|i].
  - simpl in Hi, Hj. injection Hi as ->.
    eapply forallb_forall in Hx; [done|].
    apply list_elem_of_In. by eapply list_elem_of_lookup_2.
  - simpl in Hi, Hj. apply (IH i j); [done|lia|done..].
Qed.

(** The member lists of a scanned hierarchy are sorted, larger key first. *)
Lemma scan_hierarchy_sorted (scan : list string) (key : string)
    (members : list image_item) :
  images_by_group (scan_hierarchy scan) !! key = Some members ->
  sortedb member_ge members = true.
Proof.
  unfold scan_hierarchy. cbn [images_by_group]. rewrite lookup_fmap.
  destruct (fold_left hierarchy_step scan ∅ !! key) as [l|]; [|done].
  intros [= <-]. apply sortedb_strongly.
  eapply strongly_sorted_impl;
    [|apply py_sort_sorted; [apply item_before_asym | apply item_precede_trans]].
  intros x y Hxy. rewrite member_ge_code.
  unfold may_precede, item_before in Hxy. by rewrite Hxy.
Qed.

(** What [build_hierarchy] returns was built by a scan. *)
Lemma build_hierarchy_scanned (w : world) (root : string) (c : cache) :
  cache_built c -> exists scan, fst (build_hierarchy w root c) = scan_hierarchy scan.
Proof.
  intros [_ Hh]. unfold build_hierarchy.
  destruct (cache_hierarchy c) as [h|] eqn:Hc; [|by eexists].
  destruct (hierarchy_cache_fresh w root c); [|by eexists].
  by apply Hh.
Qed.

(** C2, as stated, fails: the subgroup ["2022/05"] of two images of the
    same date value is stored with ["2022/05/b.jpg"] before
    ["2022/05/a.jpg"], the larger path first. *)
Lemma build_hierarchy_as_stated_fails :
  exists members,
    images_by_group (fst (build_hierarchy same_day_world "/pictures" initial_cache))
      !! "2022/05"%string = Some members
    /\ List.map item_path members = ["2022/05/b.jpg"; "2022/05/a.jpg"]%string
    /\ List.map item_hasDate members = [true; true]
    /\ List.map item_dateValue members = [20220500; 20220500]
    /\ sortedb member_le_as_stated members = false.
Proof. eexists. split; [by vm_compute|]. by vm_compute. Qed.

(** C2, amended. After [build_hierarchy] every subgroup's member list is
    sorted by the key (has a date, date value, lower-cased path), all
    three descending: a member never has a smaller key than a later one,
    and of two members with the same [hasDate] and [dateValue] the one
    that comes first does not have the smaller lower-cased path. *)
Theorem build_hierarchy_members_sorted (w : world) (root : string) (c : cache)
    (key : string) (members : list image_item) :
  cache_built c ->
  images_by_group (fst (build_hierarchy w root c)) !! key = Some members ->
  sortedb member_ge members = true
  /\ forall (i j : nat) (a b : image_item),
       (i < j)%nat -> members !! i = Some a -> members !! j = Some b ->
       item_hasDate a = item_hasDate b -> item_dateValue a = item_dateValue b ->
       PyStr.lt (PyStr.lower (item_path a)) (PyStr.lower (item_path b)) = false.
Proof.
  intros Hc Hm. destruct (build_hierarchy_scanned w root c Hc) as [scan Hscan].
  rewrite Hscan in Hm. apply scan_hierarchy_sorted in Hm. split; [done|].
  intros i j a b Hij Hi Hj Hd Hv.
  pose proof (sortedb_lookup member_ge members i j a b Hm Hij Hi Hj) as Hab.
  rewrite member_ge_code in Hab. unfold item_key, key_lt in Hab. rewrite Hd, Hv in Hab.
  rewrite Z.ltb_irrefl, Z.eqb_refl in Hab. cbn [orb andb] in Hab.
  rewrite Z.ltb_irrefl, Z.eqb_refl in Hab. cbn [orb andb] in Hab.
  by apply negb_true_iff in Hab.
Qed.

Lemma build_hierarchy_members_sorted_witness :
  sortedb member_ge
    (py_sort item_before
       [make_image_item "2022/05/a.jpg" "05"; make_image_item "2022/05/b.jpg" "05"])
  = true.
Proof.
  refine (proj1 (build_hierarchy_members_sorted same_day_world "/pictures"
                   initial_cache "2022/05" _ _ _)).
  - split; [by exists [] | by intros h [=]].
  - by vm_compute.
Defined.

Lemma group_images_payload_fst (w : world) (root group_key : string)
    (cursor : option string) (limit : Z) (order : string) (c : cache) :
  fst (group_images_payload w root group_key cursor limit order c)
  = group_images_of (fst (build_hierarchy w root c)) group_key cursor limit order.
Proof.
  unfold group_images_payload. by destruct (build_hierarchy w root c).
Qed.

(** C10. For a group key that is not in [images_by_group],
    [group_images_payload] returns the empty page: no images and no next
    cursor. *)
Theorem group_images_payload_unknown_group (w : world) (root group_key : string)
    (cursor : option string) (limit : Z) (order : string) (c : cache) :
  images_by_group (fst (build_hierarchy w root c)) !! group_key = None ->
  fst (group_images_payload w root group_key cursor limit order c)
  = {| images := []; gp_nextCursor := None |}.
Proof.
  intros Hnone. rewrite group_images_payload_fst.
  unfold group_images_of. by rewrite Hnone.
Qed.

Lemma group_images_payload_unknown_group_witness :
  fst (group_images_payload example_world "/pictures" "1999/01"
         (Some "misc/c.jpg"%string) 120 "desc" initial_cache)
  = {| images := []; gp_nextCursor := None |}.
Proof.
  apply group_images_payload_unknown_group. by vm_compute.
Defined.

End Hierarchy.

(** ** Pagination (C3, C4) *)

Section SlicesAndCursors.

Lemma py_slice_nat {A} (l : list A) (s k : nat) :
  py_slice l (Z.of_nat s) (Z.of_nat s + Z.of_nat k) = firstn k (skipn s l).
Proof.
  unfold py_slice, slice_bound.
  destruct (Z.ltb_spec (Z.of_nat s) 0); [lia|].
  destruct (Z.ltb_spec (Z.of_nat s + Z.of_nat k) 0); [lia|].
  set (len := List.length l).
  destruct (Nat.le_gt_cases s len) as [Hs | Hs].
  - rewrite (Z.min_l (Z.of_nat s)) by lia. rewrite Nat2Z.id.
    destruct (Nat.le_gt_cases k (len - s)) as [Hk | Hk].
    + rewrite Z.min_l by lia. f_equal. lia.
    + rewrite Z.min_r by lia.
      pose proof (length_skipn s l) as Hlen.
      rewrite !firstn_all2; [done|unfold len in *; lia..].
  - rewrite !Z.min_r by lia. rewrite Z.sub_diag.
    change (Z.to_nat 0) with 0%nat. cbn [firstn].
    rewrite (skipn_all2 (n:=s) l) by (unfold len in *; lia). by destruct k.
Qed.

Lemma py_slice_length {A} (l : list A) (start stop : Z) :
  0 <= start ->
  start + Z.of_nat (List.length (py_slice l start stop)) <= Z.of_nat (List.length l)
  \/ py_slice l start stop = [].
Proof.
  intros Hs. unfold py_slice, slice_bound.
  destruct (Z.ltb_spec start 0); [lia|].
  set (len := List.length l).
  destruct (Z.le_gt_cases start (Z.of_nat len)) as [Hle | Hgt].
  - left. rewrite (Z.min_l start) by lia. rewrite length_firstn, length_skipn.
    unfold len in *. lia.
  - right. rewrite (Z.min_r start) by lia. rewrite Nat2Z.id.
    unfold len. rewrite skipn_all. by destruct (Z.to_nat (_ - _)).
Qed.

Lemma py_slice_nil {A} (start stop : Z) : py_slice (@nil A) start stop = [].
Proof. unfold py_slice. by rewrite skipn_nil, firstn_nil. Qed.

Lemma last_map_some {A} (l : list A) :
  List.last (List.map Some l) None = l !! Nat.pred (List.length l).
Proof.
  induction l as [|x [|y l] IH]; [done..|].
  change (List.last (List.map Some (x :: y :: l)) None)
    with (List.last (List.map Some (y :: l)) None).
  by rewrite IH.
Qed.

Lemma last_map_ident {A} (f : A -> string) (l : list A) :
  List.last (List.map (fun x => Some (f x)) l) None
  = option_map f (List.last (List.map Some l) None).
Proof.
  induction l as [|x [|y l] IH]; [done..|].
  change (List.last (List.map (fun x => Some (f x)) (x :: y :: l)) None)
    with (List.last (List.map (fun x => Some (f x)) (y :: l)) None).
  by rewrite IH.
Qed.

Lemma py_index_index_of (c : string) (paths : list string) :
  py_index String.eqb c paths = index_of id c paths.
Proof. induction paths as [|p paths IH]; [done|]. simpl. by rewrite IH. Qed.

Lemma find_cursor_index_of (c : string) (idx : Z) (sequence : list image_item) :
  find_cursor c idx sequence
  = match index_of item_path c sequence with
    | Some i => idx + Z.of_nat i + 1
    | None => 0
    end.
Proof.
  revert idx. induction sequence as [|it sequence IH]; intros idx; [done|].
  simpl. destruct (String.eqb (item_path it) c); [lia|].
  rewrite IH. destruct (index_of item_path c sequence); simpl; lia.
Qed.

Lemma cursor_given_posix (cursor : option string) :
  cursor_given cursor
  = match cursor with
    | Some c => if PyStr.nonempty c then Some c else None
    | None => None
    end.
Proof.
  destruct cursor as [c|]; [|done]. unfold cursor_given, os_sep.
  by rewrite replace_same.
Qed.

Lemma timeline_start_page_start (paths : list string) (cursor : option string) :
  timeline_start paths cursor = Z.of_nat (page_start id paths cursor).
Proof.
  unfold timeline_start, page_start. rewrite cursor_given_posix.
  destruct cursor as [c|]; [|done]. destruct (PyStr.nonempty c); [|done].
  rewrite py_index_index_of. destruct (index_of id c paths); lia.
Qed.

Lemma group_start_page_start (sequence : list image_item) (cursor : option string) :
  group_start sequence cursor = Z.of_nat (page_start item_path sequence cursor).
Proof.
  unfold group_start, page_start. rewrite cursor_given_posix.
  destruct cursor as [c|]; [|done]. destruct (PyStr.nonempty c); [|done].
  rewrite find_cursor_index_of. destruct (index_of item_path c sequence); lia.
Qed.

Lemma index_of_none {A} (ident : A -> string) (c : string) (sequence : list A) :
  ~ In c (List.map ident sequence) -> index_of ident c sequence = None.
Proof.
  induction sequence as [|x sequence IH]; [done|]. simpl. intros Hin.
  destruct (String.eqb_spec (ident x) c) as [Heq | _]; [by destruct Hin; left|].
  rewrite IH; [done|]. intros H. apply Hin. by right.
Qed.

Lemma index_of_lookup {A} (ident : A -> string) (sequence : list A) (i : nat) (x : A) :
  NoDup (List.map ident sequence) -> sequence !! i = Some x ->
  index_of ident (ident x) sequence = Some i.
Proof.
  revert i. induction sequence as [|y sequence IH]; intros i Hnd Hi; [done|].
  simpl in Hnd. apply NoDup_cons in Hnd as [Hy Hnd]. simpl.
  destruct i as [|i].
  - injection Hi as ->. by rewrite String.eqb_refl.
  - simpl in Hi. destruct (String.eqb_spec (ident y) (ident x)) as [Heq | _].
    + destruct Hy. rewrite Heq. apply list_elem_of_fmap.
      exists x. split; [done|]. by eapply list_elem_of_lookup_2.
    + by rewrite (IH i).
Qed.

End SlicesAndCursors.

(** ** The sections of a timeline page *)

Section Sections.

Lemma section_step_taken_in (st : section_state) (p : string) :
  taken_in (section_step st p) = taken_in st ++ [timeline_item_of p].
Proof.
  destruct st as [[secs current_label] current_items].
  unfold section_step, taken_in, timeline_item_of.
  destruct (bool_decide _); cbn [fst snd].
  - by rewrite app_assoc.
  - destruct current_items as [|it its]; cbn [fst snd].
    + by rewrite !app_nil_r.
    + rewrite flat_map_app. cbn [flat_map sec_items]. by rewrite !app_nil_r.
Qed.

Lemma fold_section_step_taken_in (l : list string) (st : section_state) :
  taken_in (fold_left section_step l st)
  = taken_in st ++ List.map timeline_item_of l.
Proof.
  revert st. induction l as [|p l IH]; intros st.
  - by rewrite app_nil_r.
  - cbn [fold_left List.map]. rewrite IH, section_step_taken_in.
    by rewrite <- app_assoc.
Qed.

(** The sections hold the items of the slice, in order. *)
Lemma build_sections_items (slice_paths : list string) :
  flat_map sec_items (build_sections slice_paths)
  = List.map timeline_item_of slice_paths.
Proof.
  unfold build_sections.
  pose proof (fold_section_step_taken_in slice_paths ([], None, [])) as H.
  destruct (fold_left section_step slice_paths ([], None, []))
    as [[secs current_label] current_items].
  unfold taken_in in H. cbn [fst snd flat_map app] in H. rewrite <- H.
  destruct current_items as [|it its].
  - by rewrite app_nil_r.
  - rewrite flat_map_app. cbn [flat_map sec_items]. by rewrite !app_nil_r.
Qed.

Lemma timeline_items_slice (paths : list string) (cursor : option string) (limit : Z) :
  timeline_items (timeline_of_paths paths cursor limit)
  = List.map timeline_item_of
      (py_slice paths (timeline_start paths cursor)
                (timeline_start paths cursor + limit)).
Proof.
  unfold timeline_of_paths, timeline_items.
  destruct paths as [|p paths]; [by rewrite py_slice_nil|].
  destruct (py_slice _ _ _) as [|q slice] eqn:Hs; [done|].
  cbn [sections]. apply build_sections_items.
Qed.

End Sections.

(** ** Chaining pages *)

Section PaginateChain.
Context {A B : Type} (ident : A -> string) (render : A -> B).
Variable sequence : list A.
Variable k : nat.
Variable fetch : option string -> list B * option string.

Hypothesis ids_distinct : NoDup (List.map ident sequence).
Hypothesis ids_nonempty : Forall (fun x => PyStr.nonempty (ident x) = true) sequence.
Hypothesis k_positive : (1 <= k)%nat.
Hypothesis fetch_paginate :
  forall cursor,
    fetch cursor
    = (List.map render (fst (paginate ident sequence cursor k)),
       snd (paginate ident sequence cursor k)).

(** A chain that starts at index [s] collects what follows [s]. *)
Lemma chain_pages_from (fuel : nat) (cursor : option string) :
  (List.length sequence - page_start ident sequence cursor < fuel)%nat ->
  (page_start ident sequence cursor <= List.length sequence)%nat ->
  chain_pages fuel fetch cursor
  = Some (List.map render (skipn (page_start ident sequence cursor) sequence)).
Proof.
  revert cursor. induction fuel as [|fuel IH]; intros cursor Hfuel Hstart; [lia|].
  cbn [chain_pages]. rewrite fetch_paginate. unfold paginate. cbn [fst snd].
  set (s := page_start ident sequence cursor) in *.
  set (rest := skipn s sequence).
  assert (Hrest : List.length rest = (List.length sequence - s)%nat)
    by apply length_skipn.
  destruct (firstn k rest) as [|x page] eqn:Hpage.
  { assert (Hnil : rest = []).
    { destruct rest as [|y rest']; [done|]. by destruct k as [|k']; [lia|]. }
    by rewrite Hnil. }
  rewrite <- Hpage.
  assert (Hplen : List.length (firstn k rest) = Nat.min k (List.length rest))
    by apply length_firstn.
  destruct (Nat.ltb_spec (s + List.length (firstn k rest)) (List.length sequence))
    as [Hmore | Hend].
  - assert (Hk : List.length (firstn k rest) = k) by lia.
    rewrite last_map_some, Hk.
    assert (Hlast : firstn k rest !! Nat.pred k = sequence !! (s + Nat.pred k)%nat).
    { rewrite lookup_take_lt by lia. apply lookup_drop. }
    rewrite Hlast.
    destruct (sequence !! (s + Nat.pred k)%nat) as [y|] eqn:Hy.
    2:{ apply lookup_ge_None in Hy. lia. }
    cbn [option_map].
    assert (Hnext : page_start ident sequence (Some (ident y)) = (s + k)%nat).
    { unfold page_start.
      eapply List.Forall_forall in ids_nonempty as ->;
        [|apply list_elem_of_In; by eapply list_elem_of_lookup_2].
      rewrite (index_of_lookup ident sequence _ y ids_distinct Hy). lia. }
    rewrite IH; rewrite Hnext; [|lia..].
    cbn [option_map]. f_equal. rewrite <- List.map_app. f_equal.
    unfold rest. replace (s + k)%nat with (k + s)%nat by lia.
    rewrite <- skipn_skipn. apply firstn_skipn.
  - f_equal. f_equal. apply firstn_all2. lia.
Qed.

(** Chained pages of [k] items give the whole sequence, as one page of
    all the items does. *)
Lemma chain_pages_whole (fuel : nat) :
  (List.length sequence < fuel)%nat ->
  chain_pages fuel fetch None = Some (List.map render sequence)
  /\ fst (paginate ident sequence None (List.length sequence)) = sequence.
Proof.
  intros Hfuel. split.
  - rewrite chain_pages_from; [done| |]; cbn [page_start]; lia.
  - unfold paginate. cbn [page_start skipn fst]. apply firstn_all.
Qed.
End PaginateChain.

Section PagesAsPaginate.

Lemma option_map_id {A} (o : option A) : option_map id o = o.
Proof. by destruct o. Qed.

(** A timeline page is the page of [paginate] over the paths. *)
Lemma timeline_fetch_paginate (paths : list string) (k : nat) (cursor : option string) :
  timeline_fetch paths (Z.of_nat k) cursor
  = (List.map timeline_item_of (fst (paginate id paths cursor k)),
     snd (paginate id paths cursor k)).
Proof.
  unfold timeline_fetch. rewrite timeline_items_slice.
  unfold timeline_of_paths, paginate. cbn [fst snd].
  rewrite timeline_start_page_start, py_slice_nat.
  set (s := page_start id paths cursor).
  destruct paths as [|p paths].
  { rewrite skipn_nil, firstn_nil. done. }
  destruct (firstn k (skipn s (p :: paths))) as [|x page] eqn:Hpage; [done|].
  cbn [tl_nextCursor]. f_equal. rewrite option_map_id.
  destruct (Z.ltb_spec (Z.of_nat s + Z.of_nat (List.length (x :: page)))
                       (Z.of_nat (List.length (p :: paths)))),
    (Nat.ltb_spec (s + List.length (x :: page)) (List.length (p :: paths)));
    try done; lia.
Qed.

(** A page of a group is the page of [paginate] over its sequence. *)
Lemma group_fetch_paginate (sequence : list image_item) (k : nat)
    (cursor : option string) :
  group_fetch sequence (Z.of_nat k) cursor
  = (List.map response_image (fst (paginate item_path sequence cursor k)),
     snd (paginate item_path sequence cursor k)).
Proof.
  unfold group_fetch, group_page_of, paginate. cbn [fst snd].
  rewrite group_start_page_start, py_slice_nat.
  set (s := page_start item_path sequence cursor).
  destruct (firstn k (skipn s sequence)) as [|x page] eqn:Hpage; [done|].
  cbn [images gp_nextCursor]. f_equal. rewrite last_map_ident.
  destruct (Z.ltb_spec (Z.of_nat s + Z.of_nat (List.length (x :: page)))
                       (Z.of_nat (List.length sequence))),
    (Nat.ltb_spec (s + List.length (x :: page)) (List.length sequence));
    try done; lia.
Qed.

End PagesAsPaginate.

(** ** Pages of the timeline and of a group *)

Section Pages.

Lemma timeline_sections_fst (w : world) (root : string) (cursor : option string)
    (limit : Z) (order : string) (c : cache) :
  fst (timeline_sections w root cursor limit order c)
  = timeline_of_paths (fst (sorted_image_paths w root order c)) cursor limit.
Proof.
  unfold timeline_sections. by destruct (sorted_image_paths w root order c).
Qed.

Lemma timeline_start_not_found (paths : list string) (cursor : string) :
  ~ In cursor paths -> timeline_start paths (Some cursor) = 0.
Proof.
  intros Hin. rewrite timeline_start_page_start. unfold page_start.
  destruct (PyStr.nonempty cursor); [|done].
  rewrite index_of_none; [done|]. by rewrite List.map_id.
Qed.

Lemma group_start_not_found (sequence : list image_item) (cursor : string) :
  ~ In cursor (List.map item_path sequence) -> group_start sequence (Some cursor) = 0.
Proof.
  intros Hin. rewrite group_start_page_start. unfold page_start.
  destruct (PyStr.nonempty cursor); [|done]. by rewrite index_of_none.
Qed.

Lemma group_images_slice (sequence : list image_item) (cursor : option string)
    (limit : Z) :
  images (group_page_of sequence cursor limit)
  = List.map response_image
      (py_slice sequence (group_start sequence cursor)
                (group_start sequence cursor + limit)).
Proof.
  unfold group_page_of. by destruct (py_slice _ _ _).
Qed.

Lemma last_map_map {A B} (f : A -> B) (l : list A) :
  List.last (List.map Some (List.map f l)) None
  = option_map f (List.last (List.map Some l) None).
Proof.
  induction l as [|x [|y l] IH]; [done..|].
  change (List.last (List.map Some (List.map f (x :: y :: l))) None)
    with (List.last (List.map Some (List.map f (y :: l))) None).
  by rewrite IH.
Qed.

Lemma last_some_nonempty {A} (x : A) (l : list A) :
  exists y, List.last (List.map Some (x :: l)) None = Some y.
Proof.
  revert x. induction l as [|z l IH]; intros x; [by exists x|].
  destruct (IH z) as [y Hy]. exists y. by rewrite <- Hy.
Qed.

(** The next cursor of a timeline page. *)
Lemma timeline_next_cursor (paths : list string) (cursor : option string) (limit : Z) :
  let pg := timeline_of_paths paths cursor limit in
  (forall c, tl_nextCursor pg = Some c ->
     exists it, List.last (List.map Some (timeline_items pg)) None = Some it
                /\ tl_path it = c)
  /\ (tl_nextCursor pg = None <->
      timeline_items pg = []
      \/ Z.of_nat (List.length paths)
         <= timeline_start paths cursor + Z.of_nat (List.length (timeline_items pg))).
Proof.
  cbn zeta. rewrite timeline_items_slice. unfold timeline_of_paths.
  destruct paths as [|p paths]; [rewrite py_slice_nil; split; [done | by split; [left|]]|].
  set (start := timeline_start (p :: paths) cursor).
  destruct (py_slice (p :: paths) start (start + limit)) as [|x slice] eqn:Hs.
  { split; [done|]. by split; [left|]. }
  cbn [tl_nextCursor]. rewrite last_map_map, length_map.
  destruct (Z.ltb_spec (start + Z.of_nat (List.length (x :: slice)))
                       (Z.of_nat (List.length (p :: paths)))) as [Hlt | Hge].
  - destruct (last_some_nonempty x slice) as [y Hy]. rewrite Hy. split.
    + intros c [= <-]. by exists (timeline_item_of y).
    + split; [done|]. intros [Hnil | Hlen]; [done | lia].
  - split; [done|]. split; [by right | done].
Qed.

(** The next cursor of a page of a group. *)
Lemma group_next_cursor (sequence : list image_item) (cursor : option string)
    (limit : Z) :
  let pg := group_page_of sequence cursor limit in
  (forall c, gp_nextCursor pg = Some c ->
     exists it, List.last (List.map Some (images pg)) None = Some it
                /\ gi_path it = c)
  /\ (gp_nextCursor pg = None <->
      images pg = []
      \/ Z.of_nat (List.length sequence)
         <= group_start sequence cursor + Z.of_nat (List.length (images pg))).
Proof.
  cbn zeta. rewrite group_images_slice. unfold group_page_of.
  set (start := group_start sequence cursor).
  destruct (py_slice sequence start (start + limit)) as [|x slice] eqn:Hs.
  { split; [done|]. by split; [left|]. }
  cbn [gp_nextCursor]. rewrite last_map_map, length_map, last_map_ident.
  destruct (Z.ltb_spec (start + Z.of_nat (List.length (x :: slice)))
                       (Z.of_nat (List.length sequence))) as [Hlt | Hge].
  - destruct (last_some_nonempty x slice) as [y Hy]. rewrite Hy. split.
    + intros c [= <-]. by exists (response_image y).
    + split; [done|]. intros [Hnil | Hlen]; [done | lia].
  - split; [done|]. split; [by right | done].
Qed.

(** C3. A cursor that names no item of the sequence starts the page at
    index 0: the timeline and the images of a group return their first
    page, the one they return without a cursor. *)
Theorem cursor_not_found_first_page (w : world) (root order : string) (c : cache)
    (cursor : string) (limit : Z) :
  (let paths := fst (sorted_image_paths w root order c) in
   ~ In cursor paths ->
   timeline_start paths (Some cursor) = 0
   /\ fst (timeline_sections w root (Some cursor) limit order c)
      = fst (timeline_sections w root None limit order c)
   /\ timeline_items (fst (timeline_sections w root (Some cursor) limit order c))
      = List.map timeline_item_of (py_slice paths 0 (0 + limit)))
  /\ (forall (group_key : string) (imgs : list image_item),
        images_by_group (fst (build_hierarchy w root c)) !! group_key = Some imgs ->
        let sequence := group_sequence imgs order in
        ~ In cursor (List.map item_path sequence) ->
        group_start sequence (Some cursor) = 0
        /\ fst (group_images_payload w root group_key (Some cursor) limit order c)
           = fst (group_images_payload w root group_key None limit order c)
        /\ images (fst (group_images_payload w root group_key (Some cursor) limit order c))
           = List.map response_image (py_slice sequence 0 (0 + limit))).
Proof.
  split.
  - cbn zeta. intros Hin. pose proof (timeline_start_not_found _ _ Hin) as Hstart.
    split; [done|]. rewrite !timeline_sections_fst. split.
    + unfold timeline_of_paths. by rewrite Hstart.
    + by rewrite timeline_items_slice, Hstart.
  - intros group_key imgs Hg. cbn zeta. intros Hin.
    pose proof (group_start_not_found _ _ Hin) as Hstart.
    split; [done|]. rewrite !group_images_payload_fst.
    unfold group_images_of. rewrite Hg. split.
    + unfold group_page_of. by rewrite Hstart.
    + by rewrite group_images_slice, Hstart.
Qed.

Lemma cursor_not_found_first_page_witness :
  timeline_items (fst (timeline_sections example_world "/pictures"
                         (Some "gone/x.jpg"%string) 2 "desc" initial_cache))
  = List.map timeline_item_of ["2022-05-02/b.jpg"; "2022-05-01/a.jpg"]%string
  /\ List.map gi_path
       (images (fst (group_images_payload example_world "/pictures" "misc/c.jpg"
                       (Some "gone/x.jpg"%string) 2 "desc" initial_cache)))
     = ["misc/c.jpg"%string].
Proof.
  pose proof (cursor_not_found_first_page example_world "/pictures" "desc"
                initial_cache "gone/x.jpg" 2) as [Ht Hg].
  split.
  - cbn zeta in Ht. destruct Ht as (_ & _ & ->); [|by vm_compute].
    intros [H | [H | [H | []]]]; discriminate H.
  - destruct (Hg "misc/c.jpg"%string
                [make_image_item "misc/c.jpg" "c.jpg"]) as (_ & _ & ->);
      [by vm_compute| |by vm_compute].
    intros [H | []]; discriminate H.
Defined.

End Pages.

(** ** Chained pagination (C4) *)

Section ChainedPagination.

Lemma timeline_chain (paths : list string) (k : Z) (fuel : nat) :
  NoDup paths -> Forall (fun p => PyStr.nonempty p = true) paths ->
  1 <= k -> (List.length paths < fuel)%nat ->
  chain_pages fuel (timeline_fetch paths k) None
  = Some (fst (timeline_fetch paths (Z.of_nat (List.length paths)) None))
  /\ fst (timeline_fetch paths (Z.of_nat (List.length paths)) None)
     = List.map timeline_item_of paths.
Proof.
  intros Hnd Hne Hk Hfuel.
  destruct (chain_pages_whole id timeline_item_of paths (Z.to_nat k)
              (timeline_fetch paths k)) with (fuel := fuel) as [Hchain Hone].
  - by rewrite List.map_id.
  - done.
  - lia.
  - intros cursor. rewrite <- timeline_fetch_paginate. by rewrite Z2Nat.id by lia.
  - done.
  - rewrite timeline_fetch_paginate. cbn [fst]. by rewrite Hone.
Qed.

Lemma group_chain (sequence : list image_item) (k : Z) (fuel : nat) :
  NoDup (List.map item_path sequence) ->
  Forall (fun it => PyStr.nonempty (item_path it) = true) sequence ->
  1 <= k -> (List.length sequence < fuel)%nat ->
  chain_pages fuel (group_fetch sequence k) None
  = Some (fst (group_fetch sequence (Z.of_nat (List.length sequence)) None))
  /\ fst (group_fetch sequence (Z.of_nat (List.length sequence)) None)
     = List.map response_image sequence.
Proof.
  intros Hnd Hne Hk Hfuel.
  destruct (chain_pages_whole item_path response_image sequence (Z.to_nat k)
              (group_fetch sequence k)) with (fuel := fuel) as [Hchain Hone].
  - done.
  - done.
  - lia.
  - intros cursor. rewrite <- group_fetch_paginate. by rewrite Z2Nat.id by lia.
  - done.
  - rewrite group_fetch_paginate. cbn [fst]. by rewrite Hone.
Qed.

(** C4. Over a sequence whose items have distinct, non-empty identifiers,
    following [nextCursor] from no cursor with pages of [k >= 1] items
    ends (any fuel above the length suffices) and collects exactly the
    items of the one page of [limit = n], which are all the items in
    order; this for the timeline and for the images of a group. On every
    page [nextCursor] is the identifier of the last item of the page, and
    it is absent exactly when the page is empty or reaches the end of the
    sequence. *)
Theorem pagination_chain (paths : list string) (sequence : list image_item)
    (k : Z) (fuel : nat) (cursor : option string) (limit : Z) :
  (NoDup paths -> Forall (fun p => PyStr.nonempty p = true) paths ->
   1 <= k -> (List.length paths < fuel)%nat ->
   chain_pages fuel (timeline_fetch paths k) None
   = Some (fst (timeline_fetch paths (Z.of_nat (List.length paths)) None))
   /\ fst (timeline_fetch paths (Z.of_nat (List.length paths)) None)
      = List.map timeline_item_of paths)
  /\ (NoDup (List.map item_path sequence) ->
      Forall (fun it => PyStr.nonempty (item_path it) = true) sequence ->
      1 <= k -> (List.length sequence < fuel)%nat ->
      chain_pages fuel (group_fetch sequence k) None
      = Some (fst (group_fetch sequence (Z.of_nat (List.length sequence)) None))
      /\ fst (group_fetch sequence (Z.of_nat (List.length sequence)) None)
         = List.map response_image sequence)
  /\ (let pg := timeline_of_paths paths cursor limit in
      (forall c, tl_nextCursor pg = Some c ->
         exists it, List.last (List.map Some (timeline_items pg)) None = Some it
                    /\ tl_path it = c)
      /\ (tl_nextCursor pg = None <->
          timeline_items pg = []
          \/ Z.of_nat (List.length paths)
             <= timeline_start paths cursor
                + Z.of_nat (List.length (timeline_items pg))))
  /\ (let pg := group_page_of sequence cursor limit in
      (forall c, gp_nextCursor pg = Some c ->
         exists it, List.last (List.map Some (images pg)) None = Some it
                    /\ gi_path it = c)
      /\ (gp_nextCursor pg = None <->
          images pg = []
          \/ Z.of_nat (List.length sequence)
             <= group_start sequence cursor + Z.of_nat (List.length (images pg)))).
Proof.
  split; [apply timeline_chain|]. split; [apply group_chain|].
  split; [apply timeline_next_cursor | apply group_next_cursor].
Qed.

Lemma pagination_chain_witness :
  chain_pages 4 (timeline_fetch
                   ["2022-05-02/b.jpg"; "2022-05-01/a.jpg"; "misc/c.jpg"]%string 2) None
  = Some (List.map timeline_item_of
            ["2022-05-02/b.jpg"; "2022-05-01/a.jpg"; "misc/c.jpg"]%string)
  /\ chain_pages 3 (group_fetch
                      [make_image_item "2022/05/b.jpg" "05";
                       make_image_item "2022/05/a.jpg" "05"] 1) None
     = Some (List.map response_image
               [make_image_item "2022/05/b.jpg" "05";
                make_image_item "2022/05/a.jpg" "05"]).
Proof.
  pose proof (pagination_chain
                ["2022-05-02/b.jpg"; "2022-05-01/a.jpg"; "misc/c.jpg"]%string
                [make_image_item "2022/05/b.jpg" "05";
                 make_image_item "2022/05/a.jpg" "05"] 2 4 None 2)
    as (Ht & _ & _ & _).
  pose proof (pagination_chain
                ["2022-05-02/b.jpg"; "2022-05-01/a.jpg"; "misc/c.jpg"]%string
                [make_image_item "2022/05/b.jpg" "05";
                 make_image_item "2022/05/a.jpg" "05"] 1 3 None 1)
    as (_ & Hg & _ & _).
  split.
  - destruct Ht as [-> ->]; [by apply (bool_decide_unpack _); vm_compute
                            |by repeat constructor|lia|simpl; lia|done].
  - destruct Hg as [-> ->]; [by apply (bool_decide_unpack _); vm_compute
                            |by repeat constructor|lia|simpl; lia|done].
Defined.

End ChainedPagination.

(** ** The page limit of the two endpoints (C9) *)

Section PageLimit.
Variable py_int : string -> option Z.

Lemma first_param_limit (params : gmap string (list string)) (v : string) :
  first_param params "limit" id EmptyString = Ok v -> v = limit_text params.
Proof.
  unfold first_param, limit_text.
  destruct (params !! "limit"%string) as [[|x l]|]; by intros [= <-].
Qed.

Lemma clamp_limit_range (n : Z) : 20 <= clamp_limit n <= 500.
Proof. unfold clamp_limit. lia. Qed.

(** What a request that is served was served with. *)
Lemma api_timeline_served (w : world) (root : string)
    (params : gmap string (list string)) (c : cache) (pg : timeline_page) :
  fst (api_timeline py_int w root params c) = Ok pg ->
  exists cursor order n,
    parse_limit py_int (limit_text params) = Ok n
    /\ pg = fst (timeline_sections w root cursor (clamp_limit n) order c).
Proof.
  unfold api_timeline.
  destruct (first_param params "cursor" Some None) as [cursor|e]; [|done].
  destruct (first_param params "limit" id EmptyString) as [v|e] eqn:Hv; [|done].
  apply first_param_limit in Hv as ->.
  cbn [bind]. destruct (parse_limit py_int (limit_text params)) as [n|e]; [|done].
  cbn [bind].
  destruct (first_param params "order" id "desc"%string) as [order|e]; [|done].
  cbn [bind].
  destruct (timeline_sections w root cursor (clamp_limit n) (normalize_order order) c)
    as [payload c'] eqn:Hp.
  cbn [fst]. intros [= <-]. exists cursor, (normalize_order order), n.
  split; [done|]. by rewrite Hp.
Qed.

Lemma api_group_images_served (w : world) (root : string)
    (params : gmap string (list string)) (c : cache) (pg : group_page) :
  fst (api_group_images py_int w root params c) = Ok pg ->
  exists group_key cursor order n,
    parse_limit py_int (limit_text params) = Ok n
    /\ pg = fst (group_images_payload w root group_key cursor (clamp_limit n) order c).
Proof.
  unfold api_group_images.
  destruct (first_param params "group" id EmptyString) as [group_key|e]; [|done].
  cbn [bind]. destruct (negb (PyStr.nonempty group_key)); [done|].
  destruct (first_param params "cursor" Some None) as [cursor|e]; [|done].
  destruct (first_param params "limit" id EmptyString) as [v|e] eqn:Hv; [|done].
  apply first_param_limit in Hv as ->.
  cbn [bind]. destruct (parse_limit py_int (limit_text params)) as [n|e]; [|done].
  cbn [bind].
  destruct (first_param params "order" id "desc"%string) as [order|e]; [|done].
  cbn [bind].
  destruct (group_images_payload w root group_key cursor (clamp_limit n)
              (normalize_order order) c) as [payload c'] eqn:Hp.
  cbn [fst]. intros [= <-]. exists group_key, cursor, (normalize_order order), n.
  split; [done|]. by rewrite Hp.
Qed.

Lemma parse_limit_cases (v : string) (n : Z) :
  parse_limit py_int v = Ok n ->
  (v = EmptyString -> n = 120)
  /\ (forall m, v <> EmptyString -> py_int v = Some m -> n = m).
Proof.
  unfold parse_limit. destruct v as [|ch v]; cbn [PyStr.nonempty].
  - intros [= <-]. by split.
  - destruct (py_int (String ch v)) as [m|]; [|done].
    intros [= <-]. split; [done|]. by intros m' _ [= <-].
Qed.

Lemma py_slice_at_most {A} (l : list A) (start limit : Z) :
  0 <= start -> 0 <= limit ->
  py_slice l start (start + limit)
  = firstn (Z.to_nat limit) (skipn (Z.to_nat start) l)
  /\ (List.length (py_slice l start (start + limit)) <= Z.to_nat limit)%nat.
Proof.
  intros Hs Hl.
  assert (E : py_slice l start (start + limit)
              = firstn (Z.to_nat limit) (skipn (Z.to_nat start) l)).
  { rewrite <- py_slice_nat. by rewrite !Z2Nat.id. }
  rewrite E. split; [done|]. apply firstn_le_length.
Qed.

Lemma timeline_start_nonneg (paths : list string) (cursor : option string) :
  0 <= timeline_start paths cursor.
Proof. rewrite timeline_start_page_start. lia. Qed.

Lemma group_start_nonneg (sequence : list image_item) (cursor : option string) :
  0 <= group_start sequence cursor.
Proof. rewrite group_start_page_start. lia. Qed.

(** C9. A request to the timeline or to the group images that is served
    is served with a limit between 20 and 500: 120 when the query has no
    limit, the requested number clamped to that range otherwise. So a
    page never has more than 500 items, and a request for fewer than 20
    items is served as one for 20. *)
Theorem page_limit_clamped (w : world) (root : string)
    (params : gmap string (list string)) (c : cache) :
  (forall pg, fst (api_timeline py_int w root params c) = Ok pg ->
     exists cursor order limit,
       pg = fst (timeline_sections w root cursor limit order c)
       /\ 20 <= limit <= 500
       /\ (limit_text params = EmptyString -> limit = 120)
       /\ (forall n, limit_text params <> EmptyString ->
                     py_int (limit_text params) = Some n ->
                     limit = Z.max 20 (Z.min 500 n) /\ (n < 20 -> limit = 20))
       /\ (List.length (timeline_items pg) <= Z.to_nat limit)%nat
       /\ (List.length (timeline_items pg) <= 500)%nat)
  /\ (forall pg, fst (api_group_images py_int w root params c) = Ok pg ->
        exists group_key cursor order limit,
          pg = fst (group_images_payload w root group_key cursor limit order c)
          /\ 20 <= limit <= 500
          /\ (limit_text params = EmptyString -> limit = 120)
          /\ (forall n, limit_text params <> EmptyString ->
                        py_int (limit_text params) = Some n ->
                        limit = Z.max 20 (Z.min 500 n) /\ (n < 20 -> limit = 20))
          /\ (List.length (images pg) <= Z.to_nat limit)%nat
          /\ (List.length (images pg) <= 500)%nat).
Proof.
  split.
  - intros pg (cursor & order & n & Hn & ->)%api_timeline_served.
    exists cursor, order, (clamp_limit n).
    pose proof (clamp_limit_range n) as Hr.
    destruct (parse_limit_cases _ _ Hn) as [Hdefault Hgiven].
    assert (Hlen : (List.length (timeline_items
                      (fst (timeline_sections w root cursor (clamp_limit n) order c)))
                    <= Z.to_nat (clamp_limit n))%nat).
    { rewrite timeline_sections_fst, timeline_items_slice, length_map.
      apply py_slice_at_most; [apply timeline_start_nonneg | lia]. }
    split; [done|]. split; [done|]. split; [by intros ->%Hdefault|].
    split; [|split; [done | lia]].
    intros m Hne Hm. rewrite (Hgiven m Hne Hm). unfold clamp_limit. lia.
  - intros pg (group_key & cursor & order & n & Hn & ->)%api_group_images_served.
    exists group_key, cursor, order, (clamp_limit n).
    pose proof (clamp_limit_range n) as Hr.
    destruct (parse_limit_cases _ _ Hn) as [Hdefault Hgiven].
    assert (Hlen : (List.length (images
                      (fst (group_images_payload w root group_key cursor
                              (clamp_limit n) order c)))
                    <= Z.to_nat (clamp_limit n))%nat).
    { rewrite group_images_payload_fst. unfold group_images_of.
      destruct (images_by_group _ !! group_key) as [imgs|]; [|simpl; lia].
      rewrite group_images_slice, length_map.
      apply py_slice_at_most; [apply group_start_nonneg | lia]. }
    split; [done|]. split; [done|]. split; [by intros ->%Hdefault|].
    split; [|split; [done | lia]].
    intros m Hne Hm. rewrite (Hgiven m Hne Hm). unfold clamp_limit. lia.
Qed.
End PageLimit.

Lemma page_limit_clamped_witness :
  exists cursor order limit,
    fst (timeline_sections example_world "/pictures" None 20 "desc" initial_cache)
    = fst (timeline_sections example_world "/pictures" cursor limit order initial_cache)
    /\ 20 <= limit <= 500
    /\ (limit_text {[ "limit"%string := ["5"%string] ]} = EmptyString -> limit = 120)
    /\ (forall n, limit_text {[ "limit"%string := ["5"%string] ]} <> EmptyString ->
                  int_ascii (limit_text {[ "limit"%string := ["5"%string] ]}) = Some n ->
                  limit = Z.max 20 (Z.min 500 n) /\ (n < 20 -> limit = 20))
    /\ (List.length (timeline_items
          (fst (timeline_sections example_world "/pictures" None 20 "desc" initial_cache)))
        <= Z.to_nat limit)%nat
    /\ (List.length (timeline_items
          (fst (timeline_sections example_world "/pictures" None 20 "desc" initial_cache)))
        <= 500)%nat.
Proof.
  apply (proj1 (page_limit_clamped int_ascii example_world "/pictures"
                  {[ "limit"%string := ["5"%string] ]} initial_cache)).
  by vm_compute.
Defined.

(** ** The next folder (C7) *)

Section NextFolder.

Lemma py_index_root_absent (f : string -> path) (l : list string) :
  (forall d, f d <> []) -> py_index path_eqb [] (List.map f l) = None.
Proof.
  intros Hf. induction l as [|d l IH]; [done|].
  cbn [List.map py_index]. unfold path_eqb at 1.
  rewrite bool_decide_eq_false_2 by apply Hf. by rewrite IH.
Qed.

(** For a top-level directory the search goes through the directories
    after it and then through all the top-level directories from the
    first: the root is never found among its own subdirectories. *)
Lemma next_folder_top_level (t : list node) (name : string) :
  next_folder_first_image t [name]
  = match first_found t (after_index [name] (iter_directories t [])) with
    | Some found => Some found
    | None => first_found t (iter_directories t [])
    end.
Proof.
  unfold next_folder_first_image. cbn [rev app next_folder_first_image_up].
  destruct (first_found t (after_index [name] (iter_directories t []))); [done|].
  replace (path_eqb [] []) with true by done.
  unfold after_index at 1. unfold iter_directories at 1. cbn [lookup_dir].
  rewrite py_index_root_absent; [done|]. by intros d.
Qed.

(** C7, at the failing input. In the tree of the specification's example
    [misc] is the last top-level directory and only the directories
    before it hold images; [nextFolderImage] of its listing is
    nevertheless the first image of the first directory. (For the first
    directory it is the image of the second, as in the example.) *)
Theorem next_folder_image_wraps_around :
  List.map rel_str (iter_directories example_tree [])
  = ["2022-05-01"; "2022-05-02"; "misc"]%string
  /\ option_map ls_nextFolderImage (directory_payload example_tree ["misc"%string])
     = Some (Some "2022-05-01/a.jpg"%string)
  /\ option_map ls_nextFolderImage (directory_payload example_tree ["2022-05-01"%string])
     = Some (Some "2022-05-02/b.jpg"%string).
Proof. by vm_compute. Qed.

End NextFolder.

(** ** The thumbnail cache key (C8) *)

Section DecimalText.

Lemma uint_text_no_bar (d : Decimal.uint) :
  PyStr.count "|" (NilEmpty.string_of_uint d) = 0%nat.
Proof. induction d; simpl; by rewrite ?IHd. Qed.

(** The decimal text of an integer has no [|]. *)
Lemma str_no_bar (n : Z) : PyStr.count "|" (PyStr.str n) = 0%nat.
Proof.
  unfold PyStr.str. destruct (Z.to_int n) as [d | d]; simpl.
  - destruct d; try apply uint_text_no_bar. done.
  - destruct d; try apply (uint_text_no_bar (_ _)). done.
Qed.

(** Different integers have different decimal texts. *)
Lemma str_inj (n m : Z) : PyStr.str n = PyStr.str m -> n = m.
Proof.
  unfold PyStr.str. intros H. apply DecimalZ.to_int_inj.
  assert (Hnil : forall z, Z.to_int z <> Decimal.Pos Decimal.Nil
                           /\ Z.to_int z <> Decimal.Neg Decimal.Nil).
  { intros [|p|p]; simpl; split; try done;
      intros [= Hp]; by apply DecimalPos.Unsigned.to_uint_nonnil in Hp. }
  destruct (Hnil n) as [Hn1 Hn2], (Hnil m) as [Hm1 Hm2].
  pose proof (NilZero.isi _ Hn1 Hn2) as En.
  pose proof (NilZero.isi _ Hm1 Hm2) as Em.
  rewrite H in En. congruence.
Qed.

(** A text is cut in one way only at its last [|]. *)
Lemma append_bar_inj (s1 t1 s2 t2 : string) :
  PyStr.count "|" t1 = 0%nat -> PyStr.count "|" t2 = 0%nat ->
  s1 +:+ String "|" t1 = s2 +:+ String "|" t2 -> s1 = s2 /\ t1 = t2.
Proof.
  intros H1 H2. revert s2.
  induction s1 as [|c s1 IH]; intros [|c' s2]; rewrite ?append_nil, ?append_cons.
  - by intros [= ->].
  - intros [= <- ->]. rewrite count_append in H1. simpl in H1. lia.
  - intros [= -> <-]. rewrite count_append in H2. simpl in H2. lia.
  - intros [= <- Heq]. destruct (IH s2 Heq) as [-> ->]. done.
Qed.

End DecimalText.

Section ThumbnailKey.

(** The fingerprint tells the four components apart. *)
Lemma fingerprint_inj (a b : thumbnail_source) :
  fingerprint a = fingerprint b -> a = b.
Proof.
  destruct a as [p1 s1 m1 x1], b as [p2 s2 m2 x2].
  unfold fingerprint. cbn [resolved_path st_size st_mtime_ns max_size].
  change ("|" +:+ PyStr.str x1) with (String "|" (PyStr.str x1)).
  change ("|" +:+ PyStr.str x2) with (String "|" (PyStr.str x2)).
  intros H.
  assert (Hre : forall p s m x,
            p +:+ "|" +:+ PyStr.str s +:+ "|" +:+ PyStr.str m +:+ String "|" (PyStr.str x)
            = ((p +:+ String "|" (PyStr.str s)) +:+ String "|" (PyStr.str m))
                +:+ String "|" (PyStr.str x)).
  { intros p s m x. rewrite !append_assoc. by rewrite !append_cons, !append_nil. }
  rewrite !Hre in H.
  apply append_bar_inj in H as [H Hx]; [|apply str_no_bar..].
  apply append_bar_inj in H as [H Hm]; [|apply str_no_bar..].
  apply append_bar_inj in H as [Hp Hs]; [|apply str_no_bar..].
  apply str_inj in Hx, Hm, Hs. by subst.
Qed.

Lemma in_all_strings_cons (alphabet : list ascii) (n : nat) (c : ascii) (s : string) :
  In c alphabet -> In s (all_strings alphabet n) ->
  In (String c s) (all_strings alphabet (S n)).
Proof.
  intros Hc Hs. change (all_strings alphabet (S n))
    with (flat_map (fun c => List.map (String c) (all_strings alphabet n)) alphabet).
  apply in_flat_map. exists c. split; [done|]. by apply in_map.
Qed.

Lemma hex_digit_in (x : Z) : In (SHA256.hex_digit x) SHA256.hex_alphabet.
Proof.
  unfold SHA256.hex_digit.
  destruct (nth_in_or_default (Z.to_nat (x mod 16)) SHA256.hex_alphabet "0"%char)
    as [Hin | ->]; [done | by left].
Qed.

Lemma hex8_in (x : Z) (rest : string) (n : nat) :
  In rest (all_strings SHA256.hex_alphabet n) ->
  In (SHA256.hex8 x rest)
     (all_strings SHA256.hex_alphabet (S (S (S (S (S (S (S (S n))))))))).
Proof.
  intros Hrest. unfold SHA256.hex8.
  repeat (apply in_all_strings_cons; [apply hex_digit_in|]). done.
Qed.

(** A digest is one of the strings of 64 hexadecimal digits. *)
Lemma hexdigest_in (data : string) :
  In (SHA256.hexdigest data) (all_strings SHA256.hex_alphabet 64).
Proof.
  unfold SHA256.hexdigest.
  do 8 apply hex8_in. by left.
Qed.

(** No function sends the natural numbers one-to-one into a list. *)
Lemma no_injection_into_list (f : nat -> string) (codomain : list string) :
  (forall i, In (f i) codomain) -> (forall i j, f i = f j -> i = j) -> False.
Proof.
  intros Hin Hinj.
  set (N := List.length codomain).
  assert (Hnd : List.NoDup (List.map f (seq 0 (S N)))).
  { apply NoDup_map_NoDup_ForallPairs; [|apply seq_NoDup].
    intros i j _ _. apply Hinj. }
  apply NoDup_incl_length with (l' := codomain) in Hnd.
  - rewrite length_map, length_seq in Hnd. fold N in Hnd. lia.
  - intros s (i & <- & _)%in_map_iff. apply Hin.
Qed.

Lemma numbered_source_inj (i j : nat) :
  numbered_source i = numbered_source j -> i = j.
Proof.
  unfold numbered_source. intros [= H%str_inj]. lia.
Qed.




(** The digests of the model are those of [hashlib]. *)
Example sha256_abc :
  SHA256.hexdigest "abc"
  = "ba7816bf8f01cfea414140de5dae2223b00361a396177a9cb410ff61f20015ad"%string
  /\ SHA256.hexdigest ""
     = "e3b0c44298fc1c149afbf4c8996fb92427ae41e4649b934ca495991b7852b855"%string.
Proof. by vm_compute. Qed.

Example thumbnail_cache_key_example :
  thumbnail_cache_key {| resolved_path := "/home/barry/a.jpg"; st_size := 1024;
                         st_mtime_ns := 1700000000000000000; max_size := 320 |}
  = "f99ad52450bbf2397c219bb225f298d8f34e46819b7e57cbc5cc09a21f9f6d3a"%string.
Proof. by vm_compute. Qed.

End ThumbnailKey.

(** ** The identifiers of the served sequences *)

Section ServedIdentifiers.

Lemma order_paths_perm (scan : list string) (order : string) :
  Permutation (order_paths (build_sorted_paths scan) order) scan.
Proof.
  destruct (build_sorted_paths_blocks scan)
    as (dated & undated & -> & Hd & Hu & _ & _ & Hperm).
  rewrite order_paths_blocks by done.
  destruct (String.eqb order "asc"); [done|].
  by rewrite <- Hperm, <- (Permutation_rev dated).
Qed.

(** The paths the timeline pages over are distinct and non-empty when
    those of the scan are. *)
Lemma served_paths_distinct (scan : list string) (order : string) :
  NoDup scan -> Forall (fun p => PyStr.nonempty p = true) scan ->
  NoDup (order_paths (build_sorted_paths scan) order)
  /\ Forall (fun p => PyStr.nonempty p = true)
            (order_paths (build_sorted_paths scan) order).
Proof.
  intros Hnd Hne. pose proof (order_paths_perm scan order) as Hperm. split.
  - by rewrite Hperm.
  - eapply Permutation_Forall; [symmetry; exact Hperm | done].
Qed.

Lemma item_path_make (p label : string) : item_path (make_image_item p label) = p.
Proof. unfold make_image_item. by destruct (_extract_date_value p). Qed.

Lemma fold_hierarchy_lookup (scan : list string) (m : gmap string (list image_item))
    (key : string) :
  default [] (fold_left hierarchy_step scan m !! key)
  = default [] (m !! key) ++ members_of key scan.
Proof.
  revert m. induction scan as [|p scan IH]; intros m.
  - by rewrite app_nil_r.
  - cbn [fold_left]. rewrite IH. unfold members_of. cbn [flat_map].
    fold (members_of key scan). unfold hierarchy_step.
    destruct (subgroup_of p) as [[k label]|]; [|done].
    unfold append_to_group. destruct (String.eqb_spec k key) as [-> | Hne].
    + rewrite lookup_insert_eq.
      change (default [] (Some ?x)) with x. by rewrite <- app_assoc.
    + by rewrite lookup_insert_ne.
Qed.

(** A stored member list holds the images of its subgroup, each once. *)
Lemma scan_hierarchy_members (scan : list string) (key : string)
    (members : list image_item) :
  images_by_group (scan_hierarchy scan) !! key = Some members ->
  Permutation members (members_of key scan).
Proof.
  unfold scan_hierarchy. cbn [images_by_group]. rewrite lookup_fmap.
  pose proof (fold_hierarchy_lookup scan ∅ key) as H.
  rewrite lookup_empty in H. change (default [] None ++ ?x) with x in H.
  destruct (fold_left hierarchy_step scan ∅ !! key) as [l|]; [|done].
  change (default [] (Some l)) with l in H. subst l.
  intros [= <-]. apply py_sort_perm.
Qed.

Lemma members_of_paths (key : string) (scan : list string) :
  List.map item_path (members_of key scan)
  = List.filter (fun p => match subgroup_of p with
                          | Some (k, _) => String.eqb k key
                          | None => false
                          end) scan.
Proof.
  induction scan as [|p scan IH]; [done|].
  unfold members_of. cbn [flat_map List.filter]. fold (members_of key scan).
  rewrite List.map_app, IH.
  destruct (subgroup_of p) as [[k label]|]; [|done].
  destruct (String.eqb k key); [|done].
  cbn [List.map app]. by rewrite item_path_make.
Qed.

(** The members a group pages over have distinct, non-empty paths when
    the scan has. *)
Lemma served_members_distinct (scan : list string) (key order : string)
    (members : list image_item) :
  NoDup scan -> Forall (fun p => PyStr.nonempty p = true) scan ->
  images_by_group (scan_hierarchy scan) !! key = Some members ->
  NoDup (List.map item_path (group_sequence members order))
  /\ Forall (fun it => PyStr.nonempty (item_path it) = true)
            (group_sequence members order).
Proof.
  intros Hnd Hne Hm%scan_hierarchy_members.
  assert (Hseq : Permutation (group_sequence members order) (members_of key scan)).
  { unfold group_sequence. destruct (String.eqb order "desc"); [done|].
    by rewrite <- Permutation_rev. }
  assert (Hsub : forall p, In p (List.map item_path (members_of key scan)) -> In p scan).
  { intros p. rewrite members_of_paths. by intros [Hp _]%filter_In. }
  split.
  - rewrite (Permutation_map item_path Hseq), members_of_paths.
    apply NoDup_ListNoDup, List.NoDup_filter. by apply NoDup_ListNoDup.
  - eapply Permutation_Forall; [symmetry; exact Hseq|].
    apply List.Forall_forall. intros it Hit.
    eapply List.Forall_forall in Hne; [exact Hne|].
    apply Hsub. by apply in_map.
Qed.

End ServedIdentifiers.

(** * Further properties of the code *)

(** ** What the scanner yields *)

Section Scanner.

Lemma in_py_sort {A} (before : A -> A -> bool) (x : A) (l : list A) :
  In x (py_sort before l) <-> In x l.
Proof.
  split; apply Permutation_in; [|symmetry]; apply py_sort_perm.
Qed.

Lemma in_image_names (children : list node) (name : string) :
  In name (image_names children)
  <-> is_image_name name = true /\ exists size, In (File name size) children.
Proof.
  unfold image_names. rewrite filter_In, in_py_sort, in_flat_map. split.
  - intros [([f s | d sub] & Hin & Hname) Himg]; [|done].
    destruct Hname as [-> | []]. split; [done|]. by exists s.
  - intros [Himg [size Hin]]. split; [|done].
    exists (File name size). split; [done | by left].
Qed.

(** Induction on a tree, the hypothesis holding for every child. *)
Lemma node_induction (P : node -> Prop) :
  (forall name size, P (File name size)) ->
  (forall name children, Forall P children -> P (Dir name children)) ->
  forall n, P n.
Proof.
  intros Hfile Hdir.
  fix IH 1. intros [name size | name children]; [apply Hfile|].
  apply Hdir. induction children as [|c children IHc]; constructor; [apply IH | done].
Qed.

Lemma in_walk_images_dir (name : string) (children : list node) (p : path) :
  In p (walk_images (Dir name children))
  <-> (exists f, p = [f] /\ In f (image_names children))
      \/ (exists d sub q, p = d :: q /\ In (Dir d sub) children
                          /\ is_ignored_name d = false
                          /\ In q (walk_images (Dir d sub))).
Proof.
  cbn [walk_images]. rewrite in_app_iff, in_map_iff, in_flat_map.
  split.
  - intros [(f & <- & Hf) | ([d ps] & Hin & Hq)].
    + left. by exists f.
    + right. apply in_py_sort, in_flat_map in Hin as ([f s | d' sub] & Hc & Hin); [done|].
      destruct (is_ignored_name d') eqn:Hign; [done|].
      destruct Hin as [[= <- <-] | []].
      apply in_map_iff in Hq as (q & <- & Hq). by exists d', sub, q.
  - intros [(f & -> & Hf) | (d & sub & q & -> & Hin & Hign & Hq)].
    + left. by exists f.
    + right. exists (d, walk_images (Dir d sub)). split.
      * apply in_py_sort, in_flat_map. exists (Dir d sub). split; [done|].
        rewrite Hign. by left.
      * by apply in_map.
Qed.

Lemma walk_images_below (n : node) :
  forall p, In p (walk_images n)
            <-> match n with
                | Dir _ children => image_below children p
                | File _ _ => False
                end.
Proof.
  induction n as [name size | name children IH] using node_induction; [done|].
  intros p. rewrite in_walk_images_dir. split.
  - intros [(f & -> & [Himg [size Hin]]%in_image_names)
           | (d & sub & q & -> & Hin & Hign & Hq)].
    + by eapply image_here.
    + eapply image_deeper; [done..|].
      eapply List.Forall_forall in IH; [|exact Hin]. by apply IH in Hq.
  - intros Hb. destruct Hb as [children name' size Hin Himg | children d sub q Hin Hign Hq].
    + left. exists name'. split; [done|]. apply in_image_names. split; [done|]. by exists size.
    + right. exists d, sub, q. split; [done|]. split; [done|]. split; [done|].
      eapply List.Forall_forall in IH; [|exact Hin]. by apply IH.
Qed.

(** X1. The full scan yields exactly the paths that lead to a file with a
    supported extension through directories that are not ignored. *)
Theorem iter_images_recursive_reaches (t : list node) (p : path) :
  In p (iter_images_recursive t [] None) <-> image_below t p.
Proof.
  unfold iter_images_recursive. cbn [lookup_dir app].
  rewrite List.map_id. apply (walk_images_below (Dir EmptyString t)).
Qed.

End Scanner.

Section Directories.

Lemma image_below_shape (children : list node) (p : path) :
  image_below children p ->
  p <> []
  /\ is_image_name (List.last p EmptyString) = true
  /\ Forall (fun d => is_ignored_name d = false) (List.removelast p).
Proof.
  induction 1 as [children name size Hin Himg | children d sub p Hin Hign Hp IH].
  - split; [done|]. split; [done|]. constructor.
  - destruct IH as (Hne & Hlast & Hdirs). split; [done|].
    destruct p as [|x p]; [done|]. split; [done|].
    change (List.removelast (d :: x :: p)) with (d :: List.removelast (x :: p)).
    by constructor.
Qed.

(** X2. The scan never yields a path with an ignored directory in it (a
    name in [IGNORED_DIRECTORIES] or one that starts with a dot), and
    what it yields ends in a name with a supported extension. *)
Theorem iter_images_recursive_skips_ignored (t : list node) (p : path) :
  In p (iter_images_recursive t [] None) ->
  p <> []
  /\ is_image_name (List.last p EmptyString) = true
  /\ Forall (fun d => is_ignored_name d = false) (List.removelast p).
Proof.
  unfold iter_images_recursive. cbn [lookup_dir app]. rewrite List.map_id.
  intros Hp%(walk_images_below (Dir EmptyString t)). by apply (image_below_shape t).
Qed.

Lemma iter_images_recursive_skips_ignored_witness :
  is_image_name (List.last ["2022-05-01"; "a.jpg"]%string EmptyString) = true.
Proof.
  refine (proj1 (proj2 (iter_images_recursive_skips_ignored example_tree _ _))).
  by vm_compute; left.
Defined.

(** X3. For a target that is a directory, [iter_directories] lists
    exactly its subdirectories whose names are not ignored, in the order
    of their lower-cased names. *)
Theorem iter_directories_lists (t : list node) (p : path) (children : list node) :
  lookup_dir t p = Some children ->
  (forall q, In q (iter_directories t p)
             <-> exists d sub, q = p ++ [d] /\ In (Dir d sub) children
                               /\ is_ignored_name d = false)
  /\ sortedb lower_le
       (List.map (fun q => List.last q EmptyString) (iter_directories t p)) = true.
Proof.
  intros Hc. unfold iter_directories. rewrite Hc. split.
  - intros q. rewrite in_map_iff. split.
    + intros (d & <- & [Hd Hign]%filter_In).
      apply in_py_sort, in_flat_map in Hd as ([f s | d' sub] & Hin & Hd); [done|].
      destruct Hd as [-> | []]. exists d, sub.
      split; [done|]. split; [done|]. by apply negb_true_iff.
    + intros (d & sub & -> & Hin & Hign). exists d. split; [done|].
      apply filter_In. split; [|by rewrite Hign].
      apply in_py_sort, in_flat_map. exists (Dir d sub). split; [done | by left].
  - rewrite List.map_map.
    erewrite List.map_ext; [|intros d; apply last_last]. rewrite List.map_id.
    apply sortedb_strongly.
    set (names := py_sort lower_before _).
    assert (Hs : StronglySorted (may_precede lower_before) names)
      by (apply py_sort_sorted; [apply lower_before_asym | apply lower_precede_trans]).
    clearbody names. induction Hs as [|d l Hl IH Hd]; [constructor|].
    cbn [List.filter]. destruct (negb (is_ignored_name d)); [|done].
    constructor; [done|]. apply List.Forall_forall. intros x [Hx _]%filter_In.
    eapply List.Forall_forall in Hd; [|exact Hx].
    rewrite lower_le_code. unfold may_precede in Hd. by rewrite Hd.
Qed.

Lemma iter_directories_lists_witness :
  (forall q, In q (iter_directories example_tree [])
             <-> exists d sub, q = [] ++ [d] /\ In (Dir d sub) example_tree
                               /\ is_ignored_name d = false)
  /\ sortedb lower_le
       (List.map (fun q => List.last q EmptyString) (iter_directories example_tree []))
     = true.
Proof.
  apply (iter_directories_lists example_tree [] example_tree). reflexivity.
Defined.

End Directories.

(** ** The cache from call to call *)

Section CacheLife.

Lemma Qltb_lt (x y : Q) : Qltb x y = true <-> (x < y)%Q.
Proof.
  unfold Qltb. rewrite negb_true_iff. split.
  - intros H. apply Qnot_le_lt. intros Hle%Qle_bool_iff. congruence.
  - intros H. destruct (Qle_bool y x) eqn:E; [|done].
    apply Qle_bool_iff in E. by apply Qlt_not_le in H.
Qed.

Lemma Qltb_ge (x y : Q) : Qltb x y = false <-> (y <= x)%Q.
Proof.
  unfold Qltb. rewrite negb_false_iff. apply Qle_bool_iff.
Qed.

(** The cache after a call that scanned. *)
Lemma sorted_image_paths_scanned (w : world) (root order : string) (c : cache) :
  paths_cache_fresh w root c = false ->
  sorted_image_paths w root order c
  = (order_paths (build_sorted_paths (scan_paths (tree w))) order,
     {| cache_root := Some root;
        cache_generated := now w;
        cache_paths := build_sorted_paths (scan_paths (tree w));
        cache_hierarchy_root := cache_hierarchy_root c;
        cache_hierarchy_generated := cache_hierarchy_generated c;
        cache_hierarchy := cache_hierarchy c |}).
Proof. unfold sorted_image_paths. by intros ->. Qed.

Lemma sorted_image_paths_hit (w : world) (root order : string) (c : cache) :
  paths_cache_fresh w root c = true ->
  sorted_image_paths w root order c = (order_paths (cache_paths c) order, c).
Proof. unfold sorted_image_paths. by intros ->. Qed.

(** X4. Once a call has scanned the tree for a root, every call for the
    same root whose clock reads less than 30 seconds later is answered
    from that scan, whatever the tree has become, and leaves the cache as
    it is. *)
Theorem sorted_image_paths_within_ttl (w1 w2 : world) (root o1 o2 : string) (c : cache) :
  paths_cache_fresh w1 root c = false ->
  (now w2 - now w1 < IMAGE_CACHE_TTL_SECONDS)%Q ->
  sorted_image_paths w2 root o2 (snd (sorted_image_paths w1 root o1 c))
  = (order_paths (build_sorted_paths (scan_paths (tree w1))) o2,
     snd (sorted_image_paths w1 root o1 c)).
Proof.
  intros Hmiss Hlt. rewrite (sorted_image_paths_scanned w1) by done. cbn [snd].
  rewrite sorted_image_paths_hit; [done|].
  unfold paths_cache_fresh. cbn [cache_root cache_generated].
  rewrite bool_decide_eq_true_2 by done. by apply Qltb_lt.
Qed.

Lemma sorted_image_paths_within_ttl_witness :
  sorted_image_paths {| tree := []; now := 1020 |} "/pictures" "asc"
    (snd (sorted_image_paths example_world "/pictures" "desc" initial_cache))
  = (["2022-05-01/a.jpg"; "2022-05-02/b.jpg"; "misc/c.jpg"]%string,
     snd (sorted_image_paths example_world "/pictures" "desc" initial_cache)).
Proof.
  apply (sorted_image_paths_within_ttl example_world {| tree := []; now := 1020 |}
           "/pictures" "desc" "asc" initial_cache); by vm_compute.
Defined.

(** X5. The cache has one slot and no other invalidation than time: a
    call 30 seconds or more after the scan it holds, or for another root
    than the one it holds, scans the tree again and takes the slot; so
    after a call for one root a call for a different root always scans. *)
Theorem sorted_image_paths_rescans (w1 w2 : world) (root other o1 o2 : string)
    (c : cache) :
  (paths_cache_fresh w1 root c = false ->
   (IMAGE_CACHE_TTL_SECONDS <= now w2 - now w1)%Q ->
   let c1 := snd (sorted_image_paths w1 root o1 c) in
   fst (sorted_image_paths w2 root o2 c1)
   = order_paths (build_sorted_paths (scan_paths (tree w2))) o2
   /\ cache_generated (snd (sorted_image_paths w2 root o2 c1)) = now w2)
  /\ (other <> root ->
      let c1 := snd (sorted_image_paths w1 other o1 c) in
      fst (sorted_image_paths w2 root o2 c1)
      = order_paths (build_sorted_paths (scan_paths (tree w2))) o2
      /\ cache_root (snd (sorted_image_paths w2 root o2 c1)) = Some root).
Proof.
  split.
  - intros Hmiss Hge. cbn zeta. rewrite (sorted_image_paths_scanned w1) by done.
    cbn [snd]. rewrite sorted_image_paths_scanned; [done|].
    unfold paths_cache_fresh. cbn [cache_root cache_generated].
    apply andb_false_iff. right. by apply Qltb_ge.
  - intros Hne. cbn zeta.
    assert (Hroot : cache_root (snd (sorted_image_paths w1 other o1 c)) = Some other).
    { unfold sorted_image_paths. destruct (paths_cache_fresh w1 other c) eqn:Hf; [|done].
      cbn [snd]. apply andb_prop in Hf as [Hf _]. by apply bool_decide_eq_true in Hf. }
    rewrite sorted_image_paths_scanned; [done|].
    unfold paths_cache_fresh. rewrite Hroot.
    rewrite bool_decide_eq_false_2; [done|]. by intros [=].
Qed.

Lemma sorted_image_paths_rescans_witness :
  fst (sorted_image_paths {| tree := mixed_case_tree; now := 1030 |} "/pictures" "asc"
         (snd (sorted_image_paths example_world "/pictures" "desc" initial_cache)))
  = ["2022/a.jpg"; "2022/B.jpg"; "misc/c.jpg"]%string
  /\ fst (sorted_image_paths {| tree := mixed_case_tree; now := 1001 |} "/pictures" "asc"
            (snd (sorted_image_paths example_world "/other" "desc" initial_cache)))
     = ["2022/a.jpg"; "2022/B.jpg"; "misc/c.jpg"]%string.
Proof.
  pose proof (sorted_image_paths_rescans example_world
                {| tree := mixed_case_tree; now := 1030 |}
                "/pictures" "/other" "desc" "asc" initial_cache) as [H1 _].
  pose proof (sorted_image_paths_rescans example_world
                {| tree := mixed_case_tree; now := 1001 |}
                "/pictures" "/other" "desc" "asc" initial_cache) as [_ H2].
  split.
  - destruct H1 as [-> _]; by vm_compute.
  - destruct H2 as [-> _]; [by intros [=] | by vm_compute].
Defined.

Lemma build_hierarchy_scanned_cache (w : world) (root : string) (c : cache) :
  (cache_hierarchy c = None \/ hierarchy_cache_fresh w root c = false) ->
  build_hierarchy w root c
  = (scan_hierarchy (scan_paths (tree w)),
     {| cache_root := cache_root c;
        cache_generated := cache_generated c;
        cache_paths := cache_paths c;
        cache_hierarchy_root := Some root;
        cache_hierarchy_generated := now w;
        cache_hierarchy := Some (scan_hierarchy (scan_paths (tree w))) |}).
Proof.
  unfold build_hierarchy. intros [H | H]; rewrite H; [done|].
  by destruct (cache_hierarchy c).
Qed.

(** X6. The pages of a group are stable within the time to live: once
    [build_hierarchy] has scanned for a root, a request for a page of a
    group less than 30 seconds later is served from the hierarchy of that
    scan, whatever the tree has become. *)
Theorem group_images_payload_within_ttl (w1 w2 : world) (root group_key order : string)
    (cursor : option string) (limit : Z) (c : cache) :
  (cache_hierarchy c = None \/ hierarchy_cache_fresh w1 root c = false) ->
  (now w2 - now w1 < IMAGE_CACHE_TTL_SECONDS)%Q ->
  group_images_payload w2 root group_key cursor limit order (snd (build_hierarchy w1 root c))
  = (group_images_of (scan_hierarchy (scan_paths (tree w1))) group_key cursor limit order,
     snd (build_hierarchy w1 root c)).
Proof.
  intros Hmiss Hlt. rewrite (build_hierarchy_scanned_cache w1) by done. cbn [snd].
  unfold group_images_payload, build_hierarchy. cbn [cache_hierarchy].
  unfold hierarchy_cache_fresh. cbn [cache_hierarchy_root cache_hierarchy_generated].
  rewrite bool_decide_eq_true_2 by done.
  apply Qltb_lt in Hlt. by rewrite Hlt.
Qed.

Lemma group_images_payload_within_ttl_witness :
  List.map gi_path
    (images (fst (group_images_payload {| tree := []; now := 1029 |} "/pictures"
                    "misc/c.jpg" None 20 "desc"
                    (snd (build_hierarchy example_world "/pictures" initial_cache)))))
  = ["misc/c.jpg"%string].
Proof.
  rewrite (group_images_payload_within_ttl example_world {| tree := []; now := 1029 |});
    [by vm_compute | by left | by vm_compute].
Defined.

Lemma cache_built_initial : cache_built initial_cache.
Proof. split; [by exists [] | by intros h [=]]. Qed.

Lemma sorted_image_paths_keeps_built (w : world) (root order : string) (c : cache) :
  cache_built c -> cache_built (snd (sorted_image_paths w root order c)).
Proof.
  intros [Hp Hh]. unfold sorted_image_paths.
  destruct (paths_cache_fresh w root c); [done|]. split; [by eexists | done].
Qed.

Lemma build_hierarchy_keeps_built (w : world) (root : string) (c : cache) :
  cache_built c -> cache_built (snd (build_hierarchy w root c)).
Proof.
  intros Hc. pose proof Hc as [Hp _]. unfold build_hierarchy.
  destruct (cache_hierarchy c) as [h|];
    [destruct (hierarchy_cache_fresh w root c); [exact Hc|]|];
    (split; [done|]; intros h' [= <-]; by eexists).
Qed.

(** X7. The cache always holds what a scan built: this is so at start-up
    and stays so through every call of [sorted_image_paths],
    [build_hierarchy], [timeline_sections], [group_images_payload] and of
    the two handlers, served or not. *)
Theorem cache_built_kept (py_int : string -> option Z) (w : world)
    (root order group_key : string) (cursor : option string) (limit : Z)
    (params : gmap string (list string)) (c : cache) :
  cache_built initial_cache
  /\ (cache_built c ->
      cache_built (snd (sorted_image_paths w root order c))
      /\ cache_built (snd (build_hierarchy w root c))
      /\ cache_built (snd (timeline_sections w root cursor limit order c))
      /\ cache_built (snd (group_images_payload w root group_key cursor limit order c))
      /\ cache_built (snd (api_timeline py_int w root params c))
      /\ cache_built (snd (api_group_images py_int w root params c))).
Proof.
  split; [apply cache_built_initial|]. intros Hc.
  assert (Ht : forall cur lim ord,
             cache_built (snd (timeline_sections w root cur lim ord c))).
  { intros cur lim ord. unfold timeline_sections.
    pose proof (sorted_image_paths_keeps_built w root ord c Hc) as H.
    by destruct (sorted_image_paths w root ord c). }
  assert (Hg : forall key cur lim ord,
             cache_built (snd (group_images_payload w root key cur lim ord c))).
  { intros key cur lim ord. unfold group_images_payload.
    pose proof (build_hierarchy_keeps_built w root c Hc) as H.
    by destruct (build_hierarchy w root c). }
  split; [by apply sorted_image_paths_keeps_built|].
  split; [by apply build_hierarchy_keeps_built|].
  split; [apply Ht|]. split; [apply Hg|]. split.
  - unfold api_timeline.
    destruct (bind _ _) as [[[cur lim] ord]|e]; [|done].
    specialize (Ht cur lim ord).
    by destruct (timeline_sections w root cur lim ord c).
  - unfold api_group_images.
    destruct (bind _ _) as [[[[key cur] lim] ord]|e]; [|done].
    specialize (Hg key cur lim ord).
    by destruct (group_images_payload w root key cur lim ord c).
Qed.

Lemma cache_built_kept_witness :
  cache_built (snd (sorted_image_paths example_world "/pictures" "desc" initial_cache)).
Proof.
  refine (proj1 (proj2 (cache_built_kept int_ascii example_world "/pictures" "desc"
                          "misc" None 20 ∅ initial_cache) _)).
  apply cache_built_initial.
Defined.

End CacheLife.

(** ** The label of a date value *)

Section DateLabels.

Lemma replace_space_zero_other (c : ascii) (s : string) :
  Ascii.eqb c " " = false ->
  replace_space_zero (String c s) = String c (replace_space_zero s).
Proof. intros Hc. destruct s as [|c' s]; simpl; by rewrite ?Hc. Qed.

Lemma replace_space_zero_no_space (a t : string) :
  no_space a = true -> replace_space_zero (a +:+ t) = a +:+ replace_space_zero t.
Proof.
  induction a as [|c a IH]; [done|]. cbn [no_space]. intros [Hc Ha]%andb_prop.
  apply negb_true_iff in Hc. rewrite !append_cons.
  by rewrite replace_space_zero_other, IH.
Qed.

Lemma replace_space_zero_kept (s : string) :
  starts_nonzero s = true ->
  replace_space_zero (String " " s) = String " " (replace_space_zero s).
Proof.
  destruct s as [|c s]; [done|]. cbn [starts_nonzero replace_space_zero].
  intros Hc%negb_true_iff. by rewrite Hc.
Qed.

Lemma uint_text_no_space (d : Decimal.uint) :
  no_space (NilEmpty.string_of_uint d) = true.
Proof. induction d; simpl; by rewrite ?IHd. Qed.

Lemma unorm_head (d : Decimal.uint) :
  match Decimal.unorm d with
  | Decimal.D0 x => x = Decimal.Nil
  | Decimal.Nil => False
  | _ => True
  end.
Proof. induction d; simpl; auto. Qed.

Lemma to_uint_normal (p : positive) : Pos.to_uint p = Decimal.unorm (Pos.to_uint p).
Proof.
  rewrite <- DecimalPos.Unsigned.to_of, DecimalPos.Unsigned.of_to. reflexivity.
Qed.

(** The decimal text of a positive integer has no space and does not
    start with [0]. *)
Lemma str_positive_shape (n : Z) :
  0 < n -> no_space (PyStr.str n) = true /\ starts_nonzero (PyStr.str n) = true.
Proof.
  destruct n as [|p|p]; [lia| |lia]. intros _. unfold PyStr.str. cbn [Z.to_int].
  pose proof (unorm_head (Pos.to_uint p)) as Hh. rewrite <- to_uint_normal in Hh.
  pose proof (DecimalPos.Unsigned.to_uint_nonzero p) as Hz.
  cbn [NilZero.string_of_int]. unfold NilZero.string_of_uint.
  destruct (Pos.to_uint p) as [|d|d|d|d|d|d|d|d|d|d] eqn:E; try done;
    try (split; [|done]; apply (uint_text_no_space (_ d))).
  subst d. done.
Qed.

Lemma month_name_no_space (month : Z) :
  1 <= month <= 12 -> no_space (month_name month) = true.
Proof.
  intros Hm.
  assert (exists k, (k < 12)%nat /\ month = Z.of_nat (S k)) as (k & Hk & ->)
    by (exists (Z.to_nat (month - 1)); lia).
  do 12 (destruct k as [|k]; [by vm_compute|]). lia.
Qed.

(** The replacement strips the padding of the day and nothing else. *)
Lemma strftime_unpadded (year month day : Z) :
  1 <= year -> 1 <= month <= 12 -> 1 <= day <= 31 ->
  replace_space_zero (strftime_B_d_Y year month day) = month_day_year year month day.
Proof.
  intros Hy Hm Hd. unfold strftime_B_d_Y, month_day_year.
  destruct (str_positive_shape year) as [Hy1 Hy2]; [lia|].
  destruct (str_positive_shape day) as [Hd1 Hd2]; [lia|].
  assert (Hyear : replace_space_zero (", " +:+ PyStr.str year) = ", " +:+ PyStr.str year).
  { change (", " +:+ PyStr.str year) with (String "," (String " " (PyStr.str year))).
    rewrite replace_space_zero_other by done.
    rewrite replace_space_zero_kept by done.
    rewrite <- (append_empty_r (PyStr.str year)) at 1.
    rewrite replace_space_zero_no_space by done. cbn [replace_space_zero].
    by rewrite append_empty_r. }
  rewrite replace_space_zero_no_space by (by apply month_name_no_space).
  f_equal. change (" " +:+ ?s) with (String " " s).
  unfold PyStr.fmt02. destruct (day <? 10).
  - rewrite append_cons. cbn [replace_space_zero]. cbn [Ascii.eqb Bool.eqb andb].
    by rewrite replace_space_zero_no_space, Hyear.
  - rewrite replace_space_zero_kept.
    + by rewrite replace_space_zero_no_space, Hyear.
    + destruct (PyStr.str day); [done|]. by rewrite append_cons.
Qed.

Lemma date_value_split (y m d : Z) :
  0 <= m < 100 -> 0 <= d < 100 ->
  (y * 10000 + m * 100 + d) / 10000 = y
  /\ ((y * 10000 + m * 100 + d) mod 10000) / 100 = m
  /\ (y * 10000 + m * 100 + d) mod 100 = d.
Proof.
  intros Hm Hd.
  assert (H1 : (y * 10000 + m * 100 + d) / 10000 = y)
    by (symmetry; apply (Z.div_unique _ _ _ (m * 100 + d)); lia).
  assert (H2 : (y * 10000 + m * 100 + d) mod 10000 = m * 100 + d)
    by (symmetry; apply (Z.mod_unique _ _ y); lia).
  split; [done|]. split.
  - rewrite H2. symmetry. apply (Z.div_unique _ _ _ d); lia.
  - symmetry. apply (Z.mod_unique _ _ (y * 100 + m)); lia.
Qed.

Lemma valid_date_bounds (y m d : Z) :
  valid_date y m d = true -> 1 <= y <= 9999 /\ 1 <= m <= 12 /\ 1 <= d <= 31.
Proof.
  unfold valid_date, days_in_month. intros H.
  repeat (apply andb_prop in H as [H ?]).
  destruct (m =? 2); [destruct (is_leap y)|destruct (_ || _)]; lia.
Qed.

(** X8. [format_date_value] gives a label exactly for the values
    [YYYYMMDD] of a date of the calendar in the years 1 to 9999, and the
    label is the month's name, the day without padding and the year:
    ["May 1, 2022"]. It gives none for a value that is not positive, nor
    for one whose month or day is 00, as the value of a path with a year
    only is. *)
Theorem format_date_value_label (value : Z) :
  (forall y m d, valid_date y m d = true -> value = y * 10000 + m * 100 + d ->
     format_date_value value = Label (month_day_year y m d))
  /\ (forall s, format_date_value value = Label s ->
        0 < value
        /\ valid_date (value / 10000) ((value mod 10000) / 100) (value mod 100) = true
        /\ s = month_day_year (value / 10000) ((value mod 10000) / 100) (value mod 100))
  /\ (value <= 0 \/ value mod 100 = 0 \/ (value mod 10000) / 100 = 0 ->
      forall s, format_date_value value <> Label s).
Proof.
  assert (Hinv : forall s, format_date_value value = Label s ->
            0 < value
            /\ valid_date (value / 10000) ((value mod 10000) / 100) (value mod 100) = true
            /\ s = month_day_year (value / 10000) ((value mod 10000) / 100)
                     (value mod 100)).
  { intros s. unfold format_date_value.
    destruct (Z.leb_spec value 0); [done|].
    destruct (2147483647 <? value / 10000); [done|].
    destruct (valid_date _ _ _) eqn:Hv; [|done].
    intros [= <-]. split; [done|]. split; [done|].
    apply valid_date_bounds in Hv. apply strftime_unpadded; lia. }
  split; [|split; [exact Hinv|]].
  - intros y m d Hv ->. pose proof (valid_date_bounds _ _ _ Hv) as (Hy & Hm & Hd).
    destruct (date_value_split y m d) as (E1 & E2 & E3); [lia..|].
    unfold format_date_value. rewrite E1, E2, E3, Hv.
    destruct (Z.leb_spec (y * 10000 + m * 100 + d) 0); [lia|].
    destruct (Z.ltb_spec 2147483647 y); [lia|].
    f_equal. apply strftime_unpadded; lia.
  - intros Hbad s Hs. apply Hinv in Hs as (Hpos & Hv & _).
    apply valid_date_bounds in Hv. lia.
Qed.

Lemma format_date_value_label_witness :
  format_date_value 20240229 = Label "February 29, 2024"
  /\ (forall s, format_date_value 20220000 <> Label s).
Proof.
  split.
  - apply (proj1 (format_date_value_label 20240229) 2024 2 29); reflexivity.
  - apply (proj2 (proj2 (format_date_value_label 20220000))). right. left. reflexivity.
Defined.

End DateLabels.

(** ** The range of the date value *)

Section DateRange.

Lemma digit_runs_digits (s : list string) (l : list (list string)) :
  digit_runs s l -> Forall (fun d => all_decimal d = true) l.
Proof. induction 1; by constructor. Qed.

Lemma first_year_token_some (tokens : list (list string)) (year : list string)
    (following : list (list string)) :
  first_year_token tokens = Some (year, following) ->
  In year tokens /\ is_year_token year = true.
Proof.
  induction tokens as [|t tokens IH]; [done|]. cbn [first_year_token].
  destruct (is_year_token t) eqn:Ht.
  - intros [= -> ->]. split; [by left | done].
  - intros [Hin Hy]%IH. split; [by right | done].
Qed.

Lemma decimal_value_range (c : string) :
  PyStr.is_decimal c = true -> 0 <= PyStr.decimal_value c <= 9.
Proof.
  unfold PyStr.is_decimal, PyStr.decimal_value, Unicode.is_decimal, Unicode.decimal_value.
  destruct (Unicode.decimal_zero (PyStr.ord c)) as [zero|] eqn:Hz; [|done].
  intros _. apply find_some in Hz as [_ [H1%N.leb_le H2%N.ltb_lt]%andb_prop]. lia.
Qed.

Lemma year_token_range (year : list string) :
  all_decimal year = true -> is_year_token year = true ->
  1900 <= PyStr.int_of_chars year <= 2099.
Proof.
  unfold is_year_token. intros Hd [Hlen Hpre]%andb_prop.
  destruct year as [|c1 [|c2 [|c3 [|c4 [|c5 rest]]]]]; try done.
  cbn [all_decimal forallb] in Hd.
  apply andb_prop in Hd as [_ Hd]. apply andb_prop in Hd as [_ Hd].
  apply andb_prop in Hd as [H3 Hd]. apply andb_prop in Hd as [H4 _].
  apply decimal_value_range in H3, H4.
  unfold PyStr.int_of_chars. cbn [PyStr.int_chars_from].
  change (PyStr.chars "19") with ["1"; "9"]%string in Hpre.
  change (PyStr.chars "20") with ["2"; "0"]%string in Hpre.
  cbn [chars_startswith] in Hpre.
  apply orb_prop in Hpre as [Hp | Hp];
    apply andb_prop in Hp as [<-%String.eqb_eq [<-%String.eqb_eq _]%andb_prop].
  - change (PyStr.decimal_value "1") with 1. change (PyStr.decimal_value "9") with 9. lia.
  - change (PyStr.decimal_value "2") with 2. change (PyStr.decimal_value "0") with 0. lia.
Qed.

Lemma month_and_day_range (following : list (list string)) :
  0 <= fst (month_and_day following) <= 12
  /\ 0 <= snd (month_and_day following) <= 31
  /\ (fst (month_and_day following) = 0 -> snd (month_and_day following) = 0).
Proof.
  unfold month_and_day, two_digit_between.
  destruct following as [|t1 after_month]; [cbn; lia|].
  destruct (_ && _ && (PyStr.int_of_chars t1 <=? 12)) eqn:H1; [|cbn; lia].
  apply andb_prop in H1 as [[_ Hlo%Z.leb_le]%andb_prop Hhi%Z.leb_le]. cbn [fst snd].
  destruct after_month as [|t2 rest]; [lia|].
  destruct (_ && _ && (PyStr.int_of_chars t2 <=? 31)) eqn:H2.
  - change (default 0 (Some ?x)) with x.
    apply andb_prop in H2 as [[_ Hlo2%Z.leb_le]%andb_prop Hhi2%Z.leb_le]. lia.
  - change (default 0 None) with 0. lia.
Qed.

(** X9. A dated path has a date value [YYYYMMDD] with a year from 1900 to
    2099, a month from 00 to 12 and a day from 00 to 31, the day being 00
    when the month is; an undated path has the value 0. So the value is 0
    exactly when the path is undated. *)
Theorem extract_date_value_range (rel_path : string) :
  (fst (_extract_date_value rel_path) = false -> snd (_extract_date_value rel_path) = 0)
  /\ (fst (_extract_date_value rel_path) = true ->
      exists y m d,
        snd (_extract_date_value rel_path) = y * 10000 + m * 100 + d
        /\ 1900 <= y <= 2099 /\ 0 <= m <= 12 /\ 0 <= d <= 31 /\ (m = 0 -> d = 0))
  /\ (snd (_extract_date_value rel_path) = 0 <-> fst (_extract_date_value rel_path) = false).
Proof.
  rewrite extract_date_value_tokens. unfold date_value_of_runs.
  pose proof (digit_runs_digits _ _ (char_tokens_runs (PyStr.chars rel_path))) as Hdig.
  fold (date_tokens rel_path) in Hdig.
  destruct (first_year_token (date_tokens rel_path)) as [[year following]|] eqn:Hy.
  2:{ by cbn. }
  apply first_year_token_some in Hy as [Hin Hyear].
  eapply List.Forall_forall in Hdig; [|exact Hin].
  pose proof (year_token_range year Hdig Hyear) as Hr.
  pose proof (month_and_day_range following) as (Hm & Hd & Hmd).
  destruct (month_and_day following) as [m d]. cbn [fst snd] in *.
  split; [done|]. split.
  - intros _. exists (PyStr.int_of_chars year), m, d. repeat split; lia.
  - split; [lia | done].
Qed.

Lemma extract_date_value_range_witness :
  exists y m d,
    snd (_extract_date_value "2022-05-01/a.jpg") = y * 10000 + m * 100 + d
    /\ 1900 <= y <= 2099 /\ 0 <= m <= 12 /\ 0 <= d <= 31 /\ (m = 0 -> d = 0).
Proof.
  apply (proj1 (proj2 (extract_date_value_range "2022-05-01/a.jpg"))). reflexivity.
Defined.

End DateRange.

(** ** The sections of the timeline *)

Section SectionRuns.

Lemma last_some_snoc {A} (l : list A) (x : A) :
  List.last (List.map Some (l ++ [x])) None = Some x.
Proof.
  induction l as [|a l IH]; [done|].
  change (List.map Some ((a :: l) ++ [x])) with (Some a :: List.map Some (l ++ [x])).
  destruct (List.map Some (l ++ [x])) eqn:E; [by destruct l|]. by rewrite <- IH.
Qed.

Lemma well_sectioned_snoc (l : list timeline_section) (s : timeline_section) :
  well_sectioned (l ++ [s])
  <-> well_sectioned l
      /\ sec_items s <> []
      /\ (forall it, In it (sec_items s) -> sec_label s = Some (item_label it))
      /\ (forall s', List.last (List.map Some l) None = Some s' ->
                     sec_label s' <> sec_label s).
Proof.
  induction l as [|a l IH].
  - cbn. split; [intros (H1 & H2 & _ & _) | intros (_ & H1 & H2 & _)]; done.
  - change ((a :: l) ++ [s]) with (a :: (l ++ [s])).
    cbn [well_sectioned]. rewrite IH. clear IH.
    destruct l as [|b l].
    + cbn. split.
      * intros (H1 & H2 & H3 & _ & H5 & H6 & _).
        repeat split; try done. by intros s' [= <-].
      * intros ((H1 & H2 & _) & H4 & H5 & H6). repeat split; try done.
        by apply H6.
    + change (List.last (List.map Some (a :: b :: l)) None)
        with (List.last (List.map Some (b :: l)) None).
      cbn [app]. tauto.
Qed.

Lemma section_step_invariant (st : section_state) (p : string) :
  sectioning_invariant st -> sectioning_invariant (section_step st p).
Proof.
  destruct st as [[secs current_label] current_items].
  unfold sectioning_invariant, section_step. cbn [fst snd closed_sections].
  set (hint := guess_date_hint p). set (label := label_of hint p).
  set (it := {| tl_name := path_name p; tl_path := p; tl_dateHint := hint_or hint label |}).
  assert (Hit : item_label it = label) by done.
  intros [Hw Hempty].
  destruct (bool_decide (Some label = current_label)) eqn:Hsame.
  - apply bool_decide_eq_true in Hsame. cbn [fst snd closed_sections].
    split; [|by destruct current_items].
    destruct current_items as [|x items].
    + rewrite (Hempty eq_refl). cbn [app well_sectioned sec_items sec_label].
      split; [done|]. split; [|done]. intros it' [<- | []]. by rewrite Hit.
    + cbn [app]. apply well_sectioned_snoc in Hw as (Hs & _ & Hm & Hl).
      cbn [sec_items sec_label] in *.
      apply well_sectioned_snoc. cbn [sec_items sec_label].
      split; [done|]. split; [done|]. split; [|done].
      intros it' [<- | Hin]; [by apply Hm; left|].
      apply in_app_iff in Hin as [Hin | [<- | []]]; [by apply Hm; right|].
      by rewrite Hit.
  - apply bool_decide_eq_false in Hsame. cbn [fst snd closed_sections app].
    split; [|done]. apply well_sectioned_snoc. cbn [sec_items sec_label].
    split; [done|]. split; [done|]. split.
    + intros it' [<- | []]. by rewrite Hit.
    + destruct current_items as [|x items].
      * rewrite (Hempty eq_refl). done.
      * rewrite last_some_snoc. intros s' [= <-]. cbn [sec_label]. congruence.
Qed.

Lemma build_sections_closed (l : list string) :
  build_sections l = closed_sections (fold_left section_step l ([], None, [])).
Proof.
  unfold build_sections, closed_sections.
  by destruct (fold_left section_step l ([], None, [])) as [[secs cl] ci].
Qed.

Lemma fold_section_step_invariant (l : list string) (st : section_state) :
  sectioning_invariant st -> sectioning_invariant (fold_left section_step l st).
Proof.
  revert st. induction l as [|p l IH]; intros st Hst; [done|].
  cbn [fold_left]. by apply IH, section_step_invariant.
Qed.

(** X10. Every section of a timeline page is a non-empty run of items
    that all have the label of the section, and two consecutive sections
    never have the same label: a section ends exactly where the label
    changes. *)
Theorem timeline_sections_are_runs (paths : list string) (cursor : option string)
    (limit : Z) :
  well_sectioned (sections (timeline_of_paths paths cursor limit)).
Proof.
  unfold timeline_of_paths. destruct paths as [|p0 paths]; [done|].
  destruct (py_slice _ _ _) as [|q slice]; [done|]. cbn [sections].
  rewrite build_sections_closed. apply fold_section_step_invariant.
  by split.
Qed.

End SectionRuns.

(** ** Paths of requests stay below the root *)

Section RequestPaths.

Lemma resolve_fold_no_dotdot (full stack : list string) :
  ~ In ".."%string stack -> ~ In ".."%string (fold_left resolve_step full stack).
Proof.
  revert stack. induction full as [|s full IH]; intros stack Hst; [done|].
  cbn [fold_left]. apply IH. unfold resolve_step.
  destruct (String.eqb_spec s "..") as [-> | Hne].
  - destruct stack as [|x stack]; [done|]. intros Hin. apply Hst. by right.
  - intros [Heq | Hin]; [by subst | done].
Qed.

Lemma resolve_no_dotdot (full : list string) : ~ In ".."%string (resolve_lexically full).
Proof.
  unfold resolve_lexically. rewrite <- in_rev. apply resolve_fold_no_dotdot. intros [].
Qed.

Lemma resolve_fold_plain (full stack : list string) :
  ~ In ".."%string full -> fold_left resolve_step full stack = rev full ++ stack.
Proof.
  revert stack. induction full as [|s full IH]; intros stack Hfull; [done|].
  cbn [fold_left]. rewrite IH by (intros H; apply Hfull; by right).
  unfold resolve_step. destruct (String.eqb_spec s "..") as [-> | _].
  - destruct Hfull. by left.
  - cbn [rev]. by rewrite <- app_assoc.
Qed.

Lemma resolve_plain (full : list string) :
  ~ In ".."%string full -> resolve_lexically full = full.
Proof.
  intros H. unfold resolve_lexically. rewrite resolve_fold_plain by done.
  by rewrite app_nil_r, rev_involutive.
Qed.

Lemma in_parents (root p : list string) :
  In root (parents p) <-> exists x rest, p = root ++ x :: rest.
Proof.
  unfold parents. rewrite in_map_iff. split.
  - intros (n & <- & Hn). apply in_rev, in_seq in Hn as [_ Hn]. cbn in Hn.
    destruct (skipn n p) as [|x rest] eqn:Hs.
    + apply skipn_all_iff in Hs. lia.
    + exists x, rest. by rewrite <- Hs, firstn_skipn.
  - intros (x & rest & ->). exists (List.length root). split.
    + by rewrite firstn_app, Nat.sub_diag, firstn_all, app_nil_r.
    + apply in_rev. rewrite rev_involutive. apply in_seq.
      rewrite length_app. cbn. lia.
Qed.

Lemma existsb_path_eqb (root : list string) (l : list (list string)) :
  existsb (path_eqb root) l = true <-> In root l.
Proof.
  rewrite existsb_exists. unfold path_eqb. split.
  - intros (x & Hx & Heq). apply bool_decide_eq_true in Heq. by subst.
  - intros H. exists root. split; [done|]. by apply bool_decide_eq_true.
Qed.



End RequestPaths.

(** ** Requests the handlers refuse, and the order parameter *)

Section BadRequests.
Variable py_int : string -> option Z.

Lemma first_param_head {A} (params : gmap string (list string)) (key v : string)
    (rest : list string) (found : string -> A) (dflt : A) :
  params !! key = Some (v :: rest) -> first_param params key found dflt = Ok (found v).
Proof. unfold first_param. by intros ->. Qed.

Lemma first_param_absent {A} (params : gmap string (list string)) (key : string)
    (found : string -> A) (dflt : A) :
  params !! key = None -> first_param params key found dflt = Ok dflt.
Proof. unfold first_param. by intros ->. Qed.

Lemma first_param_cursor (params : gmap string (list string)) :
  params !! "cursor"%string <> Some [] ->
  exists cursor, first_param params "cursor" Some None = Ok cursor.
Proof.
  unfold first_param. destruct (params !! "cursor"%string) as [[|v l]|]; [done| |];
    by eexists.
Qed.

Lemma parse_limit_invalid (v : string) :
  v <> EmptyString -> py_int v = None ->
  parse_limit py_int v = Raise (ValueError "Invalid limit").
Proof. unfold parse_limit. destruct v; [done|]. cbn [PyStr.nonempty]. by intros _ ->. Qed.

(** X12. A request for a page of a group without a group key, or with an
    empty one, is refused with ["Missing group key"]; a limit that is not
    empty and that [int] does not read is refused with ["Invalid limit"]
    by both handlers; and a refused request leaves the cache as it was:
    the tree is not scanned for it. *)
Theorem handlers_refuse_bad_requests (w : world) (root : string)
    (params : gmap string (list string)) (c : cache) :
  ((params !! "group"%string = None
    \/ exists rest, params !! "group"%string = Some (EmptyString :: rest)) ->
   api_group_images py_int w root params c
   = (Raise (ValueError "Missing group key"), c))
  /\ (forall v rest,
        params !! "limit"%string = Some (v :: rest) -> v <> EmptyString ->
        py_int v = None -> params !! "cursor"%string <> Some [] ->
        api_timeline py_int w root params c = (Raise (ValueError "Invalid limit"), c)
        /\ (forall g others,
              params !! "group"%string = Some (g :: others) -> g <> EmptyString ->
              api_group_images py_int w root params c
              = (Raise (ValueError "Invalid limit"), c)))
  /\ (forall e, (fst (api_timeline py_int w root params c) = Raise e ->
                 snd (api_timeline py_int w root params c) = c)
                /\ (fst (api_group_images py_int w root params c) = Raise e ->
                    snd (api_group_images py_int w root params c) = c)).
Proof.
  split; [|split].
  - unfold api_group_images.
    intros [Hg | [rest Hg]];
      [rewrite (first_param_absent _ _ _ _ Hg)
      |rewrite (first_param_head _ _ _ _ _ _ Hg)]; done.
  - intros v rest Hl Hv Hint Hc.
    destruct (first_param_cursor params Hc) as [cursor Hcur].
    pose proof (parse_limit_invalid v Hv Hint) as Hbad.
    split.
    + unfold api_timeline.
      rewrite Hcur, (first_param_head _ _ _ _ id EmptyString Hl).
      cbn [bind id]. by rewrite Hbad.
    + intros g others Hg Hne. unfold api_group_images.
      rewrite (first_param_head _ _ _ _ id EmptyString Hg). cbn [bind id].
      destruct g; [done|]. cbn [PyStr.nonempty negb].
      rewrite Hcur, (first_param_head _ _ _ _ id EmptyString Hl).
      cbn [bind id]. by rewrite Hbad.
  - intros e. split.
    + unfold api_timeline.
      match goal with |- context [match ?p with Ok _ => _ | Raise _ => _ end] =>
        destruct p as [[[cursor limit] order]|e'] end; [|done].
      by destruct (timeline_sections w root cursor limit order c).
    + unfold api_group_images.
      match goal with |- context [match ?p with Ok _ => _ | Raise _ => _ end] =>
        destruct p as [[[[group_key cursor] limit] order]|e'] end; [|done].
      by destruct (group_images_payload w root group_key cursor limit order c).
Qed.

Lemma normalize_order_cases (order : string) :
  (PyStr.lower order = "asc"%string -> normalize_order order = "asc"%string)
  /\ (PyStr.lower order <> "asc"%string -> normalize_order order = "desc"%string).
Proof.
  unfold normalize_order. split.
  - by intros ->.
  - intros Hne. destruct (String.eqb_spec (PyStr.lower order) "asc"); [done|].
    cbn [orb]. by destruct (String.eqb_spec (PyStr.lower order) "desc").
Qed.

Lemma first_param_insert_ne {A} (params : gmap string (list string)) (key other : string)
    (vs : list string) (found : string -> A) (dflt : A) :
  other <> key ->
  first_param (<[other := vs]> params) key found dflt = first_param params key found dflt.
Proof. intros Hne. unfold first_param. by rewrite lookup_insert_ne. Qed.

Lemma first_param_delete_ne {A} (params : gmap string (list string)) (key other : string)
    (found : string -> A) (dflt : A) :
  other <> key ->
  first_param (delete other params) key found dflt = first_param params key found dflt.
Proof. intros Hne. unfold first_param. by rewrite lookup_delete_ne. Qed.

(** X13. The order of a request is read without regard to case, and any
    order that is not [asc] is served as the default one: a request with
    such an order is answered as the request without an order is, and one
    with [asc] in any case as the request with [asc]. *)
Theorem handlers_order_default (w : world) (root order : string) (others : list string)
    (params : gmap string (list string)) (c : cache) :
  (PyStr.lower order <> "asc"%string ->
   api_timeline py_int w root (<["order"%string := order :: others]> params) c
   = api_timeline py_int w root (delete "order"%string params) c
   /\ api_group_images py_int w root (<["order"%string := order :: others]> params) c
      = api_group_images py_int w root (delete "order"%string params) c)
  /\ (PyStr.lower order = "asc"%string ->
      api_timeline py_int w root (<["order"%string := order :: others]> params) c
      = api_timeline py_int w root (<["order"%string := ["asc"%string]]> params) c
      /\ api_group_images py_int w root (<["order"%string := order :: others]> params) c
         = api_group_images py_int w root (<["order"%string := ["asc"%string]]> params) c).
Proof.
  assert (Hins : forall vs key (A : Type) (found : string -> A) dflt,
             key <> "order"%string ->
             first_param (<["order"%string := vs]> params) key found dflt
             = first_param params key found dflt)
    by (intros; by apply first_param_insert_ne).
  assert (Hdel : forall key (A : Type) (found : string -> A) dflt,
             key <> "order"%string ->
             first_param (delete "order"%string params) key found dflt
             = first_param params key found dflt)
    by (intros; by apply first_param_delete_ne).
  assert (Hhead : forall v vs,
             first_param (<["order"%string := v :: vs]> params) "order" id "desc"%string
             = Ok v)
    by (intros; unfold first_param; by rewrite lookup_insert_eq).
  assert (Hnone : first_param (delete "order"%string params) "order" id "desc"%string
                  = Ok "desc"%string)
    by (unfold first_param; by rewrite lookup_delete_eq).
  split; intros Hord.
  - apply normalize_order_cases in Hord.
    unfold api_timeline, api_group_images.
    rewrite Hhead, Hnone, !Hins, !Hdel by done.
    split.
    + destruct (first_param params "cursor" Some None) as [cursor|e]; [|done].
      destruct (first_param params "limit" id EmptyString) as [v|e]; [|done].
      cbn [bind]. destruct (parse_limit py_int v) as [n|e]; [|done].
      cbn [bind]. by rewrite Hord.
    + destruct (first_param params "group" id EmptyString) as [g|e]; [|done].
      cbn [bind]. destruct (negb (PyStr.nonempty g)); [done|].
      destruct (first_param params "cursor" Some None) as [cursor|e]; [|done].
      destruct (first_param params "limit" id EmptyString) as [v|e]; [|done].
      cbn [bind]. destruct (parse_limit py_int v) as [n|e]; [|done].
      cbn [bind]. by rewrite Hord.
  - apply normalize_order_cases in Hord.
    unfold api_timeline, api_group_images.
    rewrite !Hhead, !Hins by done.
    split.
    + destruct (first_param params "cursor" Some None) as [cursor|e]; [|done].
      destruct (first_param params "limit" id EmptyString) as [v|e]; [|done].
      cbn [bind]. destruct (parse_limit py_int v) as [n|e]; [|done].
      cbn [bind]. by rewrite Hord.
    + destruct (first_param params "group" id EmptyString) as [g|e]; [|done].
      cbn [bind]. destruct (negb (PyStr.nonempty g)); [done|].
      destruct (first_param params "cursor" Some None) as [cursor|e]; [|done].
      destruct (first_param params "limit" id EmptyString) as [v|e]; [|done].
      cbn [bind]. destruct (parse_limit py_int v) as [n|e]; [|done].
      cbn [bind]. by rewrite Hord.
Qed.

End BadRequests.

Lemma handlers_refuse_bad_requests_witness :
  api_timeline (fun _ => None) example_world "/srv"
    {[ "limit"%string := ["many"%string] ]} initial_cache
  = (Raise (ValueError "Invalid limit"), initial_cache).
Proof.
  apply (proj1 (proj2 (handlers_refuse_bad_requests (fun _ => None) example_world "/srv"
                         {[ "limit"%string := ["many"%string] ]} initial_cache))
           "many"%string []); done.
Defined.

Lemma handlers_order_default_witness :
  api_timeline (fun _ => None) example_world "/srv"
    (<["order"%string := ["Newest"%string]]> {[ "limit"%string := ["50"%string] ]}) initial_cache
  = api_timeline (fun _ => None) example_world "/srv" (delete "order"%string {[ "limit"%string := ["50"%string] ]}) initial_cache.
Proof.
  apply (proj1 (handlers_order_default (fun _ => None) example_world "/srv" "Newest" []
                  {[ "limit"%string := ["50"%string] ]} initial_cache)).
  by vm_compute.
Defined.


(** ** Thumbnails and their cache on disk *)

Section ThumbnailCache.

Lemma generate_thumbnail_disk (exif_thumbnail : string -> option (list Byte.byte))
    (render : string -> Z -> option (list Byte.byte)) (src : thumbnail_source)
    (disk : gmap string (list Byte.byte)) :
  snd (generate_thumbnail exif_thumbnail render src disk) = disk
  \/ (disk !! thumbnail_cache_path src = None
      /\ exists data,
           render (resolved_path src) (max_size src) = Some data
           /\ fst (generate_thumbnail exif_thumbnail render src disk)
              = Some (data, "image/jpeg"%string)
           /\ snd (generate_thumbnail exif_thumbnail render src disk)
              = <[thumbnail_cache_path src := data]> disk).
Proof.
  unfold generate_thumbnail.
  destruct (extract_exif_thumbnail exif_thumbnail (resolved_path src)); [by left|].
  destruct (disk !! thumbnail_cache_path src) eqn:Hd; [by left|].
  destruct (render (resolved_path src) (max_size src)) as [data|]; [|by left].
  right. split; [done|]. by exists data.
Qed.



Lemma clamp_size_range (n : Z) : 32 <= clamp_size n <= 1024.
Proof. unfold clamp_size. lia. Qed.

Lemma parse_size_cases (py_int : string -> option Z) (v : string) (n : Z) :
  parse_size py_int v = Ok n ->
  (v = EmptyString /\ n = THUMBNAIL_DEFAULT_SIZE)
  \/ (v <> EmptyString /\ py_int v = Some n).
Proof.
  unfold parse_size. destruct v as [|ch v]; cbn [PyStr.nonempty].
  - intros [= <-]. by left.
  - destruct (py_int (String ch v)); [|done]. intros [= <-]. by right.
Qed.

Lemma resolve_relative_path_under (resolve : list string -> list string)
    (root : list string) (relative : string) (p : list string) :
  resolve_relative_path resolve root relative = Ok p -> exists rest, p = root ++ rest.
Proof.
  unfold resolve_relative_path. destruct (is_absolute relative); [done|].
  generalize (resolve (root ++ parts relative)). intros full.
  destruct (path_eqb root full) eqn:Heq.
  - unfold path_eqb in Heq. apply bool_decide_eq_true in Heq.
    intros [= <-]. subst full. exists []. by rewrite app_nil_r.
  - destruct (existsb (path_eqb root) (parents full)) eqn:Hex; [|done].
    intros [= <-].
    apply existsb_path_eqb, in_parents in Hex as (x & rest & ->). by eexists.
Qed.



End ThumbnailCache.

(** ** The loader only inserts *)

Section LoaderRuns.
Context {document : Type}.

Lemma process_fold_spec (build_document : path -> document) (files : list path)
    (collection : gmap string document) (n : load_counts) :
  let out := fold_left (process_step document build_document) files (collection, n) in
  (forall id doc, collection !! id = Some doc -> fst out !! id = Some doc)
  /\ (forall file_path, In file_path files ->
        exists doc, fst out !! pseudo_path file_path = Some doc)
  /\ (forall id doc, fst out !! id = Some doc ->
        collection !! id = Some doc
        \/ exists file_path, In file_path files /\ id = pseudo_path file_path
                             /\ doc = build_document file_path)
  /\ processed (snd out) = processed n + Z.of_nat (List.length files)
  /\ inserted (snd out) + skipped (snd out)
     = inserted n + skipped n + Z.of_nat (List.length files)
  /\ Z.of_nat (size (fst out)) - inserted (snd out)
     = Z.of_nat (size collection) - inserted n.
Proof.
  revert collection n. induction files as [|f files IH]; intros collection n.
  - cbn. repeat split; try lia; try done. intros id doc H. by left.
  - cbn [fold_left List.length].
    destruct (process_step document build_document (collection, n) f)
      as [collection1 n1] eqn:Hstep.
    specialize (IH collection1 n1). cbn zeta in IH |- *.
    destruct IH as (Hkeep & Hall & Hfrom & Hp & Hsum & Hsize).
    unfold process_step in Hstep.
    destruct (collection !! pseudo_path f) as [old|] eqn:Hold;
      injection Hstep as <- <-.
    + repeat split.
      * done.
      * intros file_path [<- | Hin]; [|by apply Hall]. exists old. by apply Hkeep.
      * intros id doc H. destruct (Hfrom id doc H) as [H0 | (g & Hg & -> & ->)];
          [by left|]. right. exists g. split; [by right|done].
      * rewrite Hp. cbn [processed]. lia.
      * rewrite Hsum. cbn [inserted skipped]. lia.
      * rewrite Hsize. cbn [inserted]. lia.
    + repeat split.
      * intros id doc H. apply Hkeep. rewrite lookup_insert_ne; [done|].
        intros <-. by rewrite Hold in H.
      * intros file_path [<- | Hin]; [|by apply Hall].
        exists (build_document f). apply Hkeep. by rewrite lookup_insert_eq.
      * intros id doc H. destruct (Hfrom id doc H) as [H0 | (g & Hg & -> & ->)].
        -- destruct (decide (id = pseudo_path f)) as [-> | Hne].
           ++ rewrite lookup_insert_eq in H0. injection H0 as <-.
              right. exists f. split; [by left|done].
           ++ rewrite lookup_insert_ne in H0 by done. by left.
        -- right. exists g. split; [by right|done].
      * rewrite Hp. cbn [processed]. lia.
      * rewrite Hsum. cbn [inserted skipped]. lia.
      * rewrite Hsize. cbn [inserted].
        rewrite map_size_insert_None by done. lia.
Qed.

Lemma process_fold_present (build_document : path -> document) (files : list path)
    (collection : gmap string document) (n : load_counts) :
  (forall file_path, In file_path files ->
     exists doc, collection !! pseudo_path file_path = Some doc) ->
  fold_left (process_step document build_document) files (collection, n)
  = (collection,
     {| processed := processed n + Z.of_nat (List.length files);
        inserted := inserted n;
        skipped := skipped n + Z.of_nat (List.length files) |}).
Proof.
  revert n. induction files as [|f files IH]; intros n Hall.
  - cbn. destruct n. cbn. f_equal. f_equal; lia.
  - cbn [fold_left List.length]. unfold process_step at 2.
    destruct (Hall f) as [doc Hdoc]; [by left|]. rewrite Hdoc.
    rewrite IH by (intros g Hg; apply Hall; by right).
    cbn [processed inserted skipped]. f_equal. f_equal; lia.
Qed.

(** X16. The loader only inserts: a run of [process_images] leaves every
    document that was in the collection as it was, whatever the file now
    holds; afterwards every file found has a document, and a new document
    is the one built for a file that had none. Every file is counted once,
    as inserted or as skipped, and the collection grows by the number
    inserted. A second run over the same files changes nothing and skips
    them all. *)
Theorem process_images_insert_only (build_document rebuild : path -> document)
    (files : list path) (collection : gmap string document) :
  let out := process_images document build_document files collection in
  (forall id doc, collection !! id = Some doc -> fst out !! id = Some doc)
  /\ (forall file_path, In file_path files ->
        exists doc, fst out !! pseudo_path file_path = Some doc)
  /\ (forall id doc, fst out !! id = Some doc ->
        collection !! id = Some doc
        \/ exists file_path, In file_path files /\ id = pseudo_path file_path
                             /\ doc = build_document file_path)
  /\ processed (snd out) = Z.of_nat (List.length files)
  /\ inserted (snd out) + skipped (snd out) = processed (snd out)
  /\ Z.of_nat (size (fst out)) = Z.of_nat (size collection) + inserted (snd out)
  /\ process_images document rebuild files (fst out)
     = (fst out, {| processed := Z.of_nat (List.length files); inserted := 0;
                    skipped := Z.of_nat (List.length files) |}).
Proof.
  intros out. subst out. unfold process_images.
  pose proof (process_fold_spec build_document files collection
                {| processed := 0; inserted := 0; skipped := 0 |}) as H.
  cbn zeta in H. cbn [processed inserted skipped] in H.
  destruct H as (Hkeep & Hall & Hfrom & Hp & Hsum & Hsize).
  repeat split; try done; try lia.
  by rewrite (process_fold_present rebuild files _ _ Hall).
Qed.

End LoaderRuns.

(** ** Dates the loader reads in a path *)

Section PathDates.

Lemma first_datetime_sound (candidates : list (option date)) (found : date) :
  first_datetime candidates = Some found ->
  In (Some found) candidates
  /\ valid_date (fst (fst found)) (snd (fst found)) (snd found) = true.
Proof.
  induction candidates as [|[[[y m] d]|] rest IH]; cbn [first_datetime]; [done| |].
  - destruct (valid_date y m d) eqn:Hv.
    + intros [= <-]. split; [by left|done].
    + intros H. destruct (IH H). split; [by right|done].
  - intros H. destruct (IH H). split; [by right|done].
Qed.

Lemma first_datetime_app (a b : list (option date)) :
  first_datetime (a ++ b)
  = match first_datetime a with
    | Some found => Some found
    | None => first_datetime b
    end.
Proof.
  induction a as [|[[[y m] d]|] a IH]; cbn [first_datetime app]; [done| |done].
  by destruct (valid_date y m d).
Qed.

Lemma first_datetime_segments (before : list string) (part : string)
    (after : list string) :
  Forall (fun q => segment_date q = None) before ->
  first_datetime (flat_map segment_candidates (before ++ part :: after))
  = match segment_date part with
    | Some found => Some found
    | None => first_datetime (flat_map segment_candidates after)
    end.
Proof.
  induction 1 as [|q before Hq _ IH]; cbn [app flat_map].
  - by rewrite first_datetime_app.
  - rewrite first_datetime_app. unfold segment_date in Hq. by rewrite Hq.
Qed.

Lemma re_year_start (a b c d : string) :
  re_year a b c d = true ->
  (a = "1"%string /\ b = "9"%string \/ a = "2"%string /\ b = "0"%string)
  /\ PyStr.is_decimal c = true /\ PyStr.is_decimal d = true.
Proof.
  unfold re_year. intros [[Hab Hc]%andb_prop Hd]%andb_prop. split; [|done].
  apply orb_prop in Hab as [[Ha%String.eqb_eq Hb%String.eqb_eq]%andb_prop
                           |[Ha%String.eqb_eq Hb%String.eqb_eq]%andb_prop]; tauto.
Qed.

Lemma re_year_range (a b c d : string) :
  re_year a b c d = true -> 1900 <= PyStr.int_of_chars [a; b; c; d] <= 2099.
Proof.
  intros (Hab & Hc%decimal_value_range & Hd%decimal_value_range)%re_year_start.
  unfold PyStr.int_of_chars. cbn [PyStr.int_chars_from].
  destruct Hab as [[-> ->] | [-> ->]].
  - change (PyStr.decimal_value "1") with 1. change (PyStr.decimal_value "9") with 9. lia.
  - change (PyStr.decimal_value "2") with 2. change (PyStr.decimal_value "0") with 0. lia.
Qed.

Lemma match_separated_year (sep : string -> bool) (part : string) (groups : date_groups) :
  match_separated sep part = Some groups ->
  1900 <= PyStr.int_of_chars (fst (fst groups)) <= 2099.
Proof.
  unfold match_separated.
  destruct (PyStr.chars part)
    as [|y1 [|y2 [|y3 [|y4 [|s1 [|m1 [|m2 [|s2 [|d1 [|d2 rest]]]]]]]]]]; try done.
  destruct (re_year y1 y2 y3 y4) eqn:Hy; [|done].
  destruct (_ && _); [|done]. intros [= <-]. by apply re_year_range.
Qed.

Lemma match_compact_year (part : string) (groups : date_groups) :
  match_compact part = Some groups ->
  1900 <= PyStr.int_of_chars (fst (fst groups)) <= 2099.
Proof.
  unfold match_compact.
  destruct (PyStr.chars part)
    as [|y1 [|y2 [|y3 [|y4 [|m1 [|m2 [|d1 [|d2 rest]]]]]]]]; try done.
  destruct (re_year y1 y2 y3 y4) eqn:Hy; [|done].
  destruct (_ && _); [|done]. intros [= <-]. by apply re_year_range.
Qed.

Lemma segment_candidates_year (part : string) (found : date) :
  In (Some found) (segment_candidates part) -> 1900 <= fst (fst found) <= 2099.
Proof.
  unfold segment_candidates, DATE_SEGMENT_PATTERNS. cbn [List.map In].
  intros [H | [H | [H | []]]]; revert H;
    match goal with |- date_of_groups ?m = _ -> _ =>
      destruct m as [[[year month] day]|] eqn:Hm end; try done;
    cbn [date_of_groups]; intros [= <-]; cbn [fst];
    first [apply match_separated_year in Hm | apply match_compact_year in Hm]; done.
Qed.

Lemma re_end_digits (rest : list string) :
  re_end rest = true -> List.filter PyStr.is_decimal rest = [].
Proof.
  destruct rest as [|c [|c' rest]]; cbn [re_end]; [done| |done].
  by intros ->%String.eqb_eq.
Qed.

Lemma year_segment_range (part : string) :
  YEAR_SEGMENT_PATTERN part = true -> 1900 <= int_of_segment part <= 2099.
Proof.
  unfold YEAR_SEGMENT_PATTERN, int_of_segment.
  destruct (PyStr.chars part) as [|y1 [|y2 [|y3 [|y4 rest]]]]; try done.
  intros [Hy Hend%re_end_digits]%andb_prop.
  assert (Hkeep : List.filter PyStr.is_decimal (y1 :: y2 :: y3 :: y4 :: rest)
                  = [y1; y2; y3; y4]).
  { destruct (re_year_start _ _ _ _ Hy) as (Hab & H3 & H4).
    assert (H12 : PyStr.is_decimal y1 = true /\ PyStr.is_decimal y2 = true)
      by (destruct Hab as [[-> ->] | [-> ->]]; by vm_compute).
    destruct H12 as [H1 H2]. cbn [List.filter]. by rewrite H1, H2, H3, H4, Hend. }
  rewrite Hkeep. by apply re_year_range.
Qed.

Lemma triple_candidate_year (parts : list string) (idx : nat) (found : date) :
  triple_candidate parts idx = Some found -> 1900 <= fst (fst found) <= 2099.
Proof.
  unfold triple_candidate.
  destruct (YEAR_SEGMENT_PATTERN (nth idx parts EmptyString)) eqn:Hy; [|done].
  destruct (_ && _); [|done]. intros [= <-]. by apply year_segment_range.
Qed.

Lemma in_range_Z (first : Z) (count : nat) (n : Z) :
  first <= n < first + Z.of_nat count -> In n (range_Z first count).
Proof.
  intros Hn. unfold range_Z. apply in_map_iff. exists (Z.to_nat (n - first)).
  split; [lia|]. apply in_seq. lia.
Qed.

Lemma year_texts_checked : forallb year_text_ok (range_Z 1900 200) = true.
Proof. vm_compute. reflexivity. Qed.

Lemma month_texts_checked : forallb month_text_ok (range_Z 1 12) = true.
Proof. vm_compute. reflexivity. Qed.

Lemma day_texts_checked : forallb day_text_ok (range_Z 1 31) = true.
Proof. vm_compute. reflexivity. Qed.

Lemma string_of_bytes (s : string) (l : list ascii) :
  list_ascii_of_string s = l -> s = string_of_list_ascii l.
Proof. intros <-. by rewrite string_of_list_ascii_of_string. Qed.

(** An ASCII byte is a character of its own. *)
Lemma chars_ascii (b : ascii) (s : string) :
  (PyStr.code b <? 128)%N = true ->
  PyStr.chars (String b s) = String b EmptyString :: PyStr.chars s.
Proof.
  intros Hb%N.ltb_lt.
  assert (Hw : PyStr.width b s = 1%nat).
  { unfold PyStr.width, PyStr.valid2, PyStr.valid3, PyStr.valid4, PyStr.between.
    assert (H194 : (194 <=? PyStr.code b)%N = false) by (apply N.leb_gt; lia).
    assert (H225 : (225 <=? PyStr.code b)%N = false) by (apply N.leb_gt; lia).
    assert (H238 : (238 <=? PyStr.code b)%N = false) by (apply N.leb_gt; lia).
    assert (H241 : (241 <=? PyStr.code b)%N = false) by (apply N.leb_gt; lia).
    assert (H224 : (PyStr.code b =? 224)%N = false) by (apply N.eqb_neq; lia).
    assert (H237 : (PyStr.code b =? 237)%N = false) by (apply N.eqb_neq; lia).
    assert (H240 : (PyStr.code b =? 240)%N = false) by (apply N.eqb_neq; lia).
    assert (H244 : (PyStr.code b =? 244)%N = false) by (apply N.eqb_neq; lia).
    rewrite H194, H225, H238, H241, H224, H237, H240, H244.
    by destruct s as [|b1 [|b2 [|b3 s]]]. }
  unfold PyStr.chars. cbn [PyStr.chars_aux]. rewrite Hw. cbn [Nat.sub].
  pose proof (chars_aux_start s) as Hstart.
  destruct (PyStr.chars_aux 0 s) as [cur rest]. cbn [fst snd] in *. by subst.
Qed.

Lemma year_text (year : Z) :
  1900 <= year <= 2099 ->
  exists a b c d,
    PyStr.str year = string_of_list_ascii [a; b; c; d]
    /\ forallb is_ascii_byte [a; b; c; d] = true
    /\ re_year (ascii_char a) (ascii_char b) (ascii_char c) (ascii_char d) = true
    /\ PyStr.int_of_chars [ascii_char a; ascii_char b; ascii_char c; ascii_char d] = year.
Proof.
  intros Hy. pose proof year_texts_checked as Hall. rewrite forallb_forall in Hall.
  specialize (Hall year (in_range_Z 1900 200 year ltac:(lia))).
  unfold year_text_ok in Hall.
  destruct (list_ascii_of_string (PyStr.str year))
    as [|a [|b [|c [|d [|e rest]]]]] eqn:Hs; try done.
  apply andb_prop in Hall as [[Hascii Hre]%andb_prop Hint%Z.eqb_eq].
  exists a, b, c, d. split; [by apply string_of_bytes|done].
Qed.

Lemma month_text (month : Z) :
  1 <= month <= 12 ->
  exists a b,
    PyStr.fmt02 month = string_of_list_ascii [a; b]
    /\ forallb is_ascii_byte [a; b] = true
    /\ re_month (ascii_char a) (ascii_char b) = true
    /\ PyStr.int_of_chars [ascii_char a; ascii_char b] = month.
Proof.
  intros Hm. pose proof month_texts_checked as Hall. rewrite forallb_forall in Hall.
  specialize (Hall month (in_range_Z 1 12 month ltac:(lia))).
  unfold month_text_ok in Hall.
  destruct (list_ascii_of_string (PyStr.fmt02 month)) as [|a [|b [|c rest]]] eqn:Hs;
    try done.
  apply andb_prop in Hall as [[Hascii Hre]%andb_prop Hint%Z.eqb_eq].
  exists a, b. split; [by apply string_of_bytes|done].
Qed.

Lemma day_text (day : Z) :
  1 <= day <= 31 ->
  exists a b,
    PyStr.fmt02 day = string_of_list_ascii [a; b]
    /\ forallb is_ascii_byte [a; b] = true
    /\ re_day (ascii_char a) (ascii_char b) = true
    /\ PyStr.int_of_chars [ascii_char a; ascii_char b] = day.
Proof.
  intros Hd. pose proof day_texts_checked as Hall. rewrite forallb_forall in Hall.
  specialize (Hall day (in_range_Z 1 31 day ltac:(lia))).
  unfold day_text_ok in Hall.
  destruct (list_ascii_of_string (PyStr.fmt02 day)) as [|a [|b [|c rest]]] eqn:Hs;
    try done.
  apply andb_prop in Hall as [[Hascii Hre]%andb_prop Hint%Z.eqb_eq].
  exists a, b. split; [by apply string_of_bytes|done].
Qed.

Lemma iso_date_read_back (year month day : Z) :
  valid_date year month day = true -> 1900 <= year <= 2099 ->
  segment_date (iso_date year month day) = Some (year, month, day).
Proof.
  intros Hv Hy. destruct (valid_date_bounds _ _ _ Hv) as (_ & Hm & Hd).
  destruct (year_text year Hy) as (y1 & y2 & y3 & y4 & Hys & Hya & Hyre & Hyint).
  destruct (month_text month Hm) as (m1 & m2 & Hms & Hma & Hmre & Hmint).
  destruct (day_text day Hd) as (d1 & d2 & Hds & Hda & Hdre & Hdint).
  unfold iso_date. rewrite Hys, Hms, Hds. cbn [string_of_list_ascii].
  rewrite !append_cons, !append_nil.
  cbn [forallb] in Hya, Hma, Hda. unfold is_ascii_byte in Hya, Hma, Hda.
  repeat match goal with H : _ && _ = true |- _ => apply andb_prop in H as [? ?] end.
  unfold segment_date, segment_candidates, DATE_SEGMENT_PATTERNS.
  cbn [List.map first_datetime]. unfold match_separated at 1.
  rewrite !chars_ascii by done. change (PyStr.chars EmptyString) with (@nil string).
  fold (ascii_char y1) (ascii_char y2) (ascii_char y3) (ascii_char y4)
       (ascii_char m1) (ascii_char m2) (ascii_char d1) (ascii_char d2).
  rewrite Hyre, Hmre, Hdre.
  cbn [re_end andb]. change (String.eqb "-" "_" || String.eqb "-" "-") with true.
  cbn [andb date_of_groups first_datetime].
  by rewrite Hyint, Hmint, Hdint, Hv.
Qed.

(** X17. The date [detect_path_date] reads in a path is a date of the
    calendar with a year from 1900 to 2099, and the path is marked as
    dated exactly when one is read. The first segment that stands for a
    date on its own gives the date, wherever a year, a month and a day
    stand in three segments; and a segment [YYYY-MM-DD] written for a date
    of these years is read back as that date. *)
Theorem detect_path_date_reads (parts : list string) :
  (forall year month day,
     date_value (detect_path_date parts) = Some (year, month, day) ->
     valid_date year month day = true /\ 1900 <= year <= 2099)
  /\ (is_date_specific (detect_path_date parts) = true
      <-> date_value (detect_path_date parts) <> None)
  /\ (forall before part after found,
        parts = before ++ part :: after ->
        Forall (fun q => segment_date q = None) before ->
        segment_date part = Some found ->
        detect_path_date parts
        = {| is_date_specific := true; date_value := Some found |})
  /\ (forall year month day,
        valid_date year month day = true -> 1900 <= year <= 2099 ->
        segment_date (iso_date year month day) = Some (year, month, day)).
Proof.
  split; [|split; [|split]].
  - intros year month day. unfold detect_path_date.
    destruct (first_datetime (flat_map segment_candidates parts)) as [found|] eqn:Hs.
    + cbn [date_value]. intros [= ->].
      apply first_datetime_sound in Hs as [Hin Hv]. split; [done|].
      apply in_flat_map in Hin as (part & _ & Hin).
      by apply segment_candidates_year in Hin.
    + destruct (first_datetime (List.map (triple_candidate parts) _))
        as [found|] eqn:Ht; [|done].
      cbn [date_value]. intros [= ->].
      apply first_datetime_sound in Ht as [Hin Hv]. split; [done|].
      apply in_map_iff in Hin as (idx & Hin & _).
      by apply triple_candidate_year in Hin.
  - unfold detect_path_date.
    destruct (first_datetime (flat_map segment_candidates parts)); [done|].
    destruct (first_datetime (List.map (triple_candidate parts) _)); [done|].
    cbn [is_date_specific date_value]. split; [done|]. by intros [].
  - intros before part after found -> Hbefore Hpart. unfold detect_path_date.
    by rewrite (first_datetime_segments before part after Hbefore), Hpart.
  - intros year month day. apply iso_date_read_back.
Qed.

Lemma detect_path_date_reads_witness :
  detect_path_date ["2019"; "01"; "02"; "2020-02-29"; "a.jpg"]%string
  = {| is_date_specific := true; date_value := Some (2020, 2, 29) |}.
Proof.
  apply (proj1 (proj2 (proj2 (detect_path_date_reads
                                ["2019"; "01"; "02"; "2020-02-29"; "a.jpg"]%string)))
           ["2019"; "01"; "02"]%string "2020-02-29"%string ["a.jpg"%string]).
  - reflexivity.
  - repeat constructor; by vm_compute.
  - by vm_compute.
Defined.

(** [\d] takes the digits of every script, and [int] reads them. *)
Example detect_path_date_beyond_ascii :
  detect_path_date ["19٢٣-05-01"; "a.jpg"]%string
  = {| is_date_specific := true; date_value := Some (1923, 5, 1) |}.
Proof. by vm_compute. Qed.

End PathDates.

(** ** Names for downloads *)

Section DownloadNames.

Lemma sub_forbidden_runs_plain (in_run : bool) (s : string) :
  plain_chars s = true -> sub_forbidden_runs in_run s = s.
Proof.
  revert in_run. induction s as [|c s IH]; intros in_run; [done|].
  cbn [plain_chars sub_forbidden_runs].
  intros [[Hc%negb_true_iff _]%andb_prop Hs]%andb_prop.
  rewrite Hc. by rewrite IH.
Qed.

Lemma sub_forbidden_runs_free (in_run : bool) (s : string) (c : ascii) :
  In c (list_ascii_of_string (sub_forbidden_runs in_run s)) -> zip_forbidden c = false.
Proof.
  revert in_run. induction s as [|x s IH]; intros in_run; [done|].
  cbn [sub_forbidden_runs]. destruct (zip_forbidden x) eqn:Hx.
  - destruct in_run; [by apply IH|].
    cbn [list_ascii_of_string In]. intros [<- | H]; [done|]. by eapply IH.
  - cbn [list_ascii_of_string In]. intros [<- | H]; [done|]. by eapply IH.
Qed.

Lemma in_append (s t : string) (c : ascii) :
  In c (list_ascii_of_string (s +:+ t))
  <-> In c (list_ascii_of_string s) \/ In c (list_ascii_of_string t).
Proof.
  induction s as [|x s IH]; [rewrite append_nil; cbn; tauto|].
  rewrite append_cons. cbn [list_ascii_of_string In]. rewrite IH. tauto.
Qed.

(** What [lstrip] drops is white space, and what it leaves does not
    start with white space. *)
Lemma lstrip_chars_split (l : list string) :
  exists pre, l = pre ++ PyStr.lstrip_chars l.
Proof.
  induction l as [|c l [pre IH]]; [by exists []|]. cbn [PyStr.lstrip_chars].
  destruct (PyStr.is_space c); [|by exists []].
  exists (c :: pre). cbn [app]. by rewrite <- IH.
Qed.

Lemma lstrip_chars_head (l : list string) :
  PyStr.lstrip_chars l = [] \/ not_space (List.head (PyStr.lstrip_chars l)) = true.
Proof.
  induction l as [|c l IH]; [by left|]. cbn [PyStr.lstrip_chars].
  destruct (PyStr.is_space c) eqn:Hc; [done|]. right.
  cbn [List.head not_space]. by rewrite Hc.
Qed.

Lemma lstrip_chars_kept (l : list string) :
  not_space (List.head l) = true -> PyStr.lstrip_chars l = l.
Proof.
  destruct l as [|c l]; [done|]. cbn [List.head not_space PyStr.lstrip_chars].
  by intros ->%negb_true_iff.
Qed.

Lemma lstrip_chars_snoc (l : list string) (c : string) :
  PyStr.is_space c = false ->
  PyStr.lstrip_chars (l ++ [c]) = PyStr.lstrip_chars l ++ [c].
Proof.
  intros Hc. induction l as [|x l IH]; [cbn [app PyStr.lstrip_chars]; by rewrite Hc|].
  cbn [app PyStr.lstrip_chars]. by destruct (PyStr.is_space x).
Qed.

Lemma lstrip_chars_spaces (l : list string) :
  exists pre, l = pre ++ PyStr.lstrip_chars l
              /\ Forall (fun c => PyStr.is_space c = true) pre.
Proof.
  induction l as [|c l (pre & IH & Hpre)]; [by exists []|]. cbn [PyStr.lstrip_chars].
  destruct (PyStr.is_space c) eqn:Hc; [|by exists []].
  exists (c :: pre). cbn [app]. rewrite <- IH. split; [done|]. by constructor.
Qed.

Lemma rstrip_chars_split (l : list string) :
  exists post, l = PyStr.rstrip_chars l ++ post
               /\ Forall (fun c => PyStr.is_space c = true) post.
Proof.
  unfold PyStr.rstrip_chars.
  destruct (lstrip_chars_spaces (rev l)) as (pre & Hl & Hpre).
  exists (rev pre). split.
  - rewrite <- rev_app_distr, <- Hl. by rewrite rev_involutive.
  - apply List.Forall_forall. intros c Hc%in_rev.
    by apply (proj1 (List.Forall_forall _ _) Hpre).
Qed.

Lemma rstrip_chars_last (l : list string) :
  PyStr.rstrip_chars l = []
  \/ not_space (List.head (rev (PyStr.rstrip_chars l))) = true.
Proof.
  unfold PyStr.rstrip_chars. rewrite rev_involutive.
  destruct (lstrip_chars_head (rev l)) as [-> | H]; [by left|by right].
Qed.

Lemma rstrip_chars_head (l : list string) :
  not_space (List.head l) = true ->
  List.head (PyStr.rstrip_chars l) = List.head l.
Proof.
  destruct l as [|c l]; [done|]. cbn [List.head not_space].
  intros Hc%negb_true_iff. unfold PyStr.rstrip_chars. cbn [rev].
  rewrite lstrip_chars_snoc by done. by rewrite rev_app_distr.
Qed.

Lemma rstrip_chars_kept (l : list string) :
  not_space (List.head (rev l)) = true -> PyStr.rstrip_chars l = l.
Proof.
  intros H. unfold PyStr.rstrip_chars.
  rewrite lstrip_chars_kept by done. apply rev_involutive.
Qed.

(** A one-byte character that is white space is ASCII. *)
Lemma space_byte_ascii (b : ascii) :
  PyStr.is_space (String b EmptyString) = true -> (PyStr.code b <? 128)%N = true.
Proof.
  destruct b as [b0 b1 b2 b3 b4 b5 b6 b7].
  destruct b0, b1, b2, b3, b4, b5, b6, b7; by vm_compute.
Qed.

Lemma space_starts_clean (c : string) (rest : list string) :
  char_shape c -> PyStr.is_space c = true ->
  starts_clean (PyStr.concat (c :: rest)) = true.
Proof.
  intros [[b ->] | (b & tl & -> & Hb%N.leb_le & _)] Hs.
  - apply space_byte_ascii, N.ltb_lt in Hs.
    cbn [PyStr.concat fold_right]. rewrite append_cons. cbn [starts_clean].
    apply negb_true_iff. unfold PyStr.is_continuation, PyStr.between.
    rewrite (proj2 (N.leb_gt 128 (PyStr.code b))) by lia. done.
  - cbn [PyStr.concat fold_right]. rewrite append_cons. cbn [starts_clean].
    apply negb_true_iff. unfold PyStr.is_continuation, PyStr.between.
    rewrite (proj2 (N.leb_gt (PyStr.code b) 191)) by lia. apply andb_false_r.
Qed.

Lemma spaces_start_clean (post : list string) :
  Forall char_shape post -> Forall (fun c => PyStr.is_space c = true) post ->
  starts_clean (PyStr.concat post) = true.
Proof.
  destruct post as [|c post]; [done|].
  intros Hsh%List.Forall_inv Hsp%List.Forall_inv. by apply space_starts_clean.
Qed.

(** The characters of a stripped string are the characters that [strip]
    keeps. *)
Lemma chars_strip (s : string) :
  PyStr.chars (PyStr.strip s)
  = PyStr.rstrip_chars (PyStr.lstrip_chars (PyStr.chars s)).
Proof.
  unfold PyStr.strip.
  destruct (lstrip_chars_split (PyStr.chars s)) as [pre Hpre].
  destruct (rstrip_chars_split (PyStr.lstrip_chars (PyStr.chars s)))
    as (post & Hpost & Hspaces).
  set (kept := PyStr.rstrip_chars (PyStr.lstrip_chars (PyStr.chars s))) in *.
  pose proof (chars_suffix _ _ _ Hpre) as Hmid.
  apply (chars_prefix (PyStr.concat (PyStr.lstrip_chars (PyStr.chars s))) kept post);
    [by rewrite Hmid|].
  apply spaces_start_clean; [|done].
  pose proof (chars_shape s) as Hsh. rewrite Hpre, Hpost in Hsh.
  apply List.Forall_app in Hsh as [_ Hsh]. by apply List.Forall_app in Hsh as [_ Hsh].
Qed.

Lemma in_strip (s : string) (c : ascii) :
  In c (list_ascii_of_string (PyStr.strip s)) -> In c (list_ascii_of_string s).
Proof.
  unfold PyStr.strip.
  destruct (lstrip_chars_split (PyStr.chars s)) as [pre Hpre].
  destruct (rstrip_chars_split (PyStr.lstrip_chars (PyStr.chars s)))
    as (post & Hpost & _).
  set (kept := PyStr.rstrip_chars (PyStr.lstrip_chars (PyStr.chars s))) in *.
  intros H. rewrite <- (concat_chars s), Hpre, Hpost, !concat_app.
  apply in_append. right. apply in_append. by left.
Qed.

Lemma replace_nul_plain (s : string) :
  (forall c, In c (list_ascii_of_string s) -> zip_forbidden c = false) ->
  plain_chars (PyStr.replace "000" "_" s) = true.
Proof.
  induction s as [|x s IH]; intros H; [done|].
  cbn [PyStr.replace plain_chars]. rewrite IH by (intros c Hc; apply H; by right).
  rewrite andb_true_r.
  destruct (Ascii.eqb_spec x "000") as [-> | Hx]; [done|].
  rewrite (H x) by (by left). cbn [negb andb].
  by destruct (Ascii.eqb_spec x "000").
Qed.

Lemma replace_nul_kept (s : string) :
  plain_chars s = true -> PyStr.replace "000" "_" s = s.
Proof.
  induction s as [|x s IH]; [done|]. cbn [plain_chars PyStr.replace].
  intros [[_ Hx%negb_true_iff]%andb_prop Hs]%andb_prop. rewrite Hx. by rewrite IH.
Qed.

(** NUL is not white space, and neither is the underscore that takes its
    place. *)
Lemma replace_nul_not_space (l : list string) :
  Forall char_shape l ->
  not_space (List.head (List.map (PyStr.replace "000" "_") l))
  = not_space (List.head l).
Proof.
  destruct l as [|c l]; [done|]. intros Hc%List.Forall_inv.
  cbn [List.map List.head not_space].
  by rewrite (class_replace "000" "_" eq_refl PyStr.is_space c eq_refl Hc).
Qed.

(** X18. [sanitize_zip_component] gives the fallback or a clean name: not
    empty, without a backslash, a slash, a colon, a star, a question mark, a
    double quote, an angle bracket or a bar, without NUL
    and without white space at either end, where white space is what
    [str.strip] takes for it, among all the characters. A clean name is
    left as it is, so cleaning a second time changes nothing when the
    fallback is clean. *)
Theorem sanitize_zip_component_clean (component fallback : string) :
  (sanitize_zip_component component fallback = fallback
   \/ clean_name (sanitize_zip_component component fallback) = true)
  /\ (clean_name component = true ->
      sanitize_zip_component component fallback = component)
  /\ (clean_name fallback = true ->
      sanitize_zip_component (sanitize_zip_component component fallback) fallback
      = sanitize_zip_component component fallback).
Proof.
  assert (Hfirst : sanitize_zip_component component fallback = fallback
                   \/ clean_name (sanitize_zip_component component fallback) = true).
  { unfold sanitize_zip_component.
    set (text := sub_forbidden_runs false component).
    destruct (PyStr.replace "000" "_" (PyStr.strip text)) as [|c rest] eqn:Hr;
      [by left|].
    right. cbn [PyStr.nonempty negb]. rewrite <- Hr. unfold clean_name.
    rewrite replace_nul_plain.
    2:{ intros x Hx%in_strip. by apply sub_forbidden_runs_free in Hx. }
    cbn [andb].
    rewrite (chars_replace "000" "_" eq_refl eq_refl), chars_strip.
    set (left_kept := PyStr.lstrip_chars (PyStr.chars text)).
    assert (Hne : PyStr.rstrip_chars left_kept <> []).
    { intros He. unfold PyStr.strip in Hr. fold left_kept in Hr.
      by rewrite He in Hr. }
    assert (Hshape : Forall char_shape (PyStr.rstrip_chars left_kept)).
    { unfold left_kept. rewrite <- chars_strip. apply chars_shape. }
    rewrite <- map_rev, !replace_nul_not_space;
      [|by apply List.Forall_rev|done].
    destruct (rstrip_chars_last left_kept) as [He | ->]; [done|].
    rewrite andb_true_r.
    destruct (lstrip_chars_head (PyStr.chars text)) as [He | Hhead].
    - fold left_kept in He. by rewrite He in Hne.
    - fold left_kept in Hhead. by rewrite rstrip_chars_head. }
  assert (Hkeep : forall name, clean_name name = true ->
                    sanitize_zip_component name fallback = name).
  { intros name [[Hp Hf]%andb_prop Hl]%andb_prop. unfold sanitize_zip_component.
    rewrite sub_forbidden_runs_plain by done. unfold PyStr.strip.
    rewrite (lstrip_chars_kept _ Hf), (rstrip_chars_kept _ Hl), concat_chars.
    rewrite replace_nul_kept by done.
    destruct name; [|done]. done. }
  split; [done|]. split; [by apply Hkeep|].
  intros Hfb. destruct Hfirst as [-> | Hc]; by apply Hkeep.
Qed.

Lemma sanitize_zip_component_clean_witness :
  sanitize_zip_component "a.jpg" "image" = "a.jpg"%string.
Proof.
  apply (proj1 (proj2 (sanitize_zip_component_clean "a.jpg" "image"))). reflexivity.
Defined.

(** The no-break space and the ideographic space are stripped as the
    ASCII space is. *)
Example sanitize_zip_component_beyond_ascii :
  sanitize_zip_component (PyStr.chr 160 +:+ "a:b" +:+ PyStr.chr 12288) "item"
  = "a_b"%string
  /\ sanitize_zip_component (PyStr.chr 160 +:+ " " +:+ PyStr.chr 133) "item"
     = "item"%string.
Proof. by vm_compute. Qed.

End DownloadNames.
